(** * AliceEphemera: the create-instance wizard, the polling loops and the
      configuration store

    A shallow embedding of

    - [createInstanceMultiStep], [rebulidInstanceMultiStep]
                                  (menu/instanceMultiStep.ts),
    - [createInstance], [powerInstanceItems], [pollBootScriptResult],
      [renewalInstanceItems], [deleteInstanceItems], [rebulidInstanceItems]
                                  (menu/index.ts),
    - [AliceService.updateConfig], [checkInstanceExpiration],
      [getInstanceState]          (alice/aliceService.ts),
    - [CONFIG], [updateStateConfig] (alice/config.ts).

    JavaScript numbers are modelled as [NaN], the two infinities, or an exact
    rational; rounding to binary64 is not modelled.  The theorems below are
    about integers (and, for memory figures, integers divided by 2^20), which
    binary64 represents exactly below 2^53.  Strings are byte strings; white
    space is the ASCII white space. *)

From Stdlib Require Import ZArith QArith Qreduction Qround Bool List Lia.
From Stdlib Require Import Ascii String Decimal DecimalString DecimalZ.
Import ListNotations.

#[local] Open Scope string_scope.
#[local] Open Scope Z_scope.

(* ================================================================== *)
(** * The JavaScript primitives the sources rely on *)
(* ================================================================== *)

Module JS.

(** ** Numbers *)

Inductive number : Type :=
| NaN
| Inf (negative : bool)
| Fin (q : Q).

Definition Num (z : Z) : number := Fin (z # 1).

(** ToBoolean on a number: [NaN] and zero are falsy. *)
Definition truthy (n : number) : bool :=
  match n with
  | NaN => false
  | Inf _ => true
  | Fin q => negb (Qnum q =? 0)
  end.

(** [a === b] on numbers. *)
Definition strict_eq (a b : number) : bool :=
  match a, b with
  | Fin p, Fin q => Qeq_bool p q
  | Inf s, Inf t => Bool.eqb s t
  | _, _ => false
  end.

(** [a < b] and [a > b]; a comparison with [NaN] is false. *)
Definition lt (a b : number) : bool :=
  match a, b with
  | NaN, _ | _, NaN => false
  | Inf true, Inf true => false
  | Inf true, _ => true
  | _, Inf true => false
  | Inf false, _ => false
  | _, Inf false => true
  | Fin p, Fin q => negb (Qle_bool q p)
  end.

Definition gt (a b : number) : bool := lt b a.
Definition ge (a b : number) : bool :=
  match a, b with
  | NaN, _ | _, NaN => false
  | _, _ => negb (lt a b)
  end.
Definition le0 (a : number) : bool :=          (* a <= 0 *)
  match a with
  | NaN => false
  | Inf s => s
  | Fin q => Qle_bool q 0
  end.

Definition isNaN (n : number) : bool :=
  match n with NaN => true | _ => false end.

(** [a || b] on numbers. *)
Definition or_else (a b : number) : number := if truthy a then a else b.

(** ** Characters and white space *)

(** Tab, line feed, vertical tab, form feed, carriage return and space: the
    white space of ASCII.  The characters beyond ASCII that JavaScript also
    trims (U+00A0, U+FEFF, the Unicode spaces and line separators) are not
    recognised; the statements about trimmed or skipped white space are
    about ASCII input. *)
Definition is_space (c : ascii) : bool :=
  match nat_of_ascii c with
  | 9%nat | 10%nat | 11%nat | 12%nat | 13%nat | 32%nat => true
  | _ => false
  end.

Fixpoint trimStart (s : string) : string :=
  match s with
  | String c r => if is_space c then trimStart r else s
  | EmptyString => EmptyString
  end.

Fixpoint trimEnd (s : string) : string :=
  match s with
  | String c r =>
      match trimEnd r with
      | EmptyString => if is_space c then EmptyString else String c EmptyString
      | r' => String c r'
      end
  | EmptyString => EmptyString
  end.

(** [String.prototype.trim]. *)
Definition trim (s : string) : string := trimEnd (trimStart s).

(** ** Decimal digits *)

Definition digit (c : ascii) : option (uint -> uint) :=
  match c with
  | "0" => Some D0 | "1" => Some D1 | "2" => Some D2 | "3" => Some D3
  | "4" => Some D4 | "5" => Some D5 | "6" => Some D6 | "7" => Some D7
  | "8" => Some D8 | "9" => Some D9
  | _ => None
  end%char.

(** The longest prefix of decimal digits, and what follows it. *)
Fixpoint span_digits (s : string) : uint * string :=
  match s with
  | String c r =>
      match digit c with
      | Some d => let (u, rest) := span_digits r in (d u, rest)
      | None => (Nil, s)
      end
  | EmptyString => (Nil, EmptyString)
  end.

Definition is_nil (u : uint) : bool :=
  match u with Nil => true | _ => false end.

(** An optional sign. *)
Definition sign (s : string) : bool * string :=
  match s with
  | String "-" r => (true, r)
  | String "+" r => (false, r)
  | _ => (false, s)
  end.

Definition signed (neg : bool) (z : Z) : Z := if neg then - z else z.

(** [Number.prototype.toString] of an integer. *)
Definition Z_to_string (z : Z) : string := NilZero.string_of_int (Z.to_int z).

(** ** [parseInt (s, 10)] *)

Definition parseInt (s : string) : number :=
  let (neg, r) := sign (trimStart s) in
  match span_digits r with
  | (Nil, _) => NaN
  | (u, _) => Num (signed neg (Z.of_uint u))
  end.

(** ** Decimal literals: [parseFloat] and [Number] *)

(** mantissa * 10 ^ exponent, in lowest terms: the exact value of the
    literal.  JavaScript rounds it to the nearest binary64, which is the
    same number for an integer of magnitude below 2^53 and for a dyadic
    fraction such as 3.5.  A literal that binary64 has to round, or one
    beyond its range, is read by the code as the rounded value or as an
    infinity; the theorems stated with [decimal] keep to the values it
    reads exactly. *)
Definition decimal (mant e : Z) : number :=
  if 0 <=? e then Num (mant * 10 ^ e)
  else Fin (Qred (mant # Z.to_pos (10 ^ (- e)))).

Definition starts_with (p s : string) : bool := String.prefix p s.

(** ExponentPart: consumed only when at least one digit follows. *)
Definition exponent_part (s : string) : Z * string :=
  match s with
  | String c r =>
      if (Ascii.eqb c "e" || Ascii.eqb c "E")%bool then
        let (eneg, r1) := sign r in
        match span_digits r1 with
        | (Nil, _) => (0, s)
        | (eu, r2) => (signed eneg (Z.of_uint eu), r2)
        end
      else (0, s)
  | EmptyString => (0, s)
  end.

(** The longest prefix of [s] that is a StrDecimalLiteral, as its value and
    the rest of the string; [None] when no prefix is one. *)
Definition StrDecimalLiteral (s : string) : option (number * string) :=
  let (neg, s1) := sign s in
  if starts_with "Infinity" s1 then Some (Inf neg, substring 8 (length s1 - 8) s1)
  else
    let (ip, r1) := span_digits s1 in
    let (fp, r2) :=
      match r1 with
      | String "." r => span_digits r
      | _ => (Nil, r1)
      end in
    if (is_nil ip && is_nil fp)%bool then None
    else
      let (e, r3) := exponent_part r2 in
      Some (decimal (signed neg (Z.of_uint (app ip fp)))
                    (e - Z.of_nat (nb_digits fp)), r3).

Definition parseFloat (s : string) : number :=
  match StrDecimalLiteral (trimStart s) with
  | Some (v, _) => v
  | None => NaN
  end.

(** Digits of radix 16, 8 or 2, for the non-decimal literals of [Number]. *)
Definition radix_digit (radix : Z) (c : ascii) : option Z :=
  let n := Z.of_nat (nat_of_ascii c) in
  let v :=
    if (48 <=? n) && (n <=? 57) then Some (n - 48)
    else if (97 <=? n) && (n <=? 102) then Some (n - 87)
    else if (65 <=? n) && (n <=? 70) then Some (n - 55)
    else None in
  match v with
  | Some d => if d <? radix then Some d else None
  | None => None
  end.

Fixpoint radix_value (radix : Z) (acc : Z) (s : string) : option Z :=
  match s with
  | EmptyString => Some acc
  | String c r =>
      match radix_digit radix c with
      | Some d => radix_value radix (acc * radix + d) r
      | None => None
      end
  end.

Definition non_decimal (s : string) : option number :=
  match s with
  | String "0" (String c (String d r)) =>
      let body := String d r in
      let lit radix := Some (match radix_value radix 0 body with
                             | Some v => Num v
                             | None => NaN
                             end) in
      if (Ascii.eqb c "x" || Ascii.eqb c "X")%bool then lit 16
      else if (Ascii.eqb c "o" || Ascii.eqb c "O")%bool then lit 8
      else if (Ascii.eqb c "b" || Ascii.eqb c "B")%bool then lit 2
      else None
  | _ => None
  end.

(** [Number (s)] on a string. *)
Definition Number_of_string (s : string) : number :=
  let t := trim s in
  match t with
  | EmptyString => Num 0
  | _ =>
      match non_decimal t with
      | Some v => v
      | None =>
          match StrDecimalLiteral t with
          | Some (v, EmptyString) => v
          | _ => NaN
          end
      end
  end.

(** [Number (x)] where [x] is a string or [undefined]. *)
Definition Number (x : option string) : number :=
  match x with
  | Some s => Number_of_string s
  | None => NaN
  end.

(** ** [toFixed (2)] *)

Definition two_digits (m : Z) : string :=
  Z_to_string (m / 10) ++ Z_to_string (m mod 10).

(** [(num / den).toFixed (2)] for an exact quotient with [0 < den]: the
    nearest hundredth of the absolute value, the larger one on a tie, after
    the sign.  (From 1e21 on JavaScript switches to exponent notation; such
    values are out of the range this development is about.) *)
Definition toFixed2 (num den : Z) : string :=
  let m := (200 * Z.abs num + den) / (2 * den) in
  (if num <? 0 then "-" else EmptyString)
    ++ Z_to_string (m / 100) ++ "." ++ two_digits (m mod 100).

End JS.

Import JS.

(** A template literal is kept as its parts, so that no formatting of
    non-integer numbers has to be invented. *)
Inductive part : Type :=
| Lit (s : string)
| Interp (n : number).

Definition text : Type := list part.

(* ================================================================== *)
(** * alice/config.ts: the shared store *)
(* ================================================================== *)

Module Store.

(** [interface Plan]: the request the wizard builds. *)
Record Plan : Type := {
  id : number;
  os : number;
  time : number;
  sshKey : number;
  bootScript : string
}.

Record Memory : Type := {
  memtotal : string;
  memfree : string;
  memavailable : string
}.

Record Traffic : Type := {
  traffic_in : number;
  traffic_out : number;
  traffic_total : number
}.

Record PowerState : Type := {
  state : string;
  cpu : number;
  memory : Memory;
  traffic : Traffic
}.

(** [interface InstanceState]; the inner [state] object is [info]. *)
Record InstanceState : Type := {
  status : string;
  info : PowerState
}.

(** The entries of the catalogs, as the remote sends them. *)
Record OS : Type := { os_id : Z; os_name : string }.

Record CatalogPlan : Type := {
  p_id : Z;
  p_name : string;
  p_cpu : Z;
  p_memory : Z;
  p_disk : Z;
  p_os : list OS
}.

Record SshKey : Type := {
  key_id : Z;
  key_name : string;
  created_at : string
}.

Record Instance : Type := {
  inst_id : Z;
  plan_id : Z;
  creation_at : string;
  expiration_at : string;
  boot_script_uid : option string
}.

(** [evoPermissions]: [allow_packages] after its split at "|"; an absent
    [max_time] behaves as [NaN] in every comparison the code makes. *)
Record EvoPermissions : Type := {
  allow_packages : option (list string);
  max_time : number
}.

(** [CONFIG], with the fields the functions below read or write. *)
Record Config : Type := {
  bootScriptPath : string;
  defaultPlan : option Plan;
  hasEvoPermission : bool;
  evoPermissions : EvoPermissions;
  instanceList : list Instance;
  planList : list CatalogPlan;
  sshKeyList : list SshKey;
  instanceState : option InstanceState;
  doNotRemindExpiration : bool;
  updateStatusBarInterval : option Z
}.

(** One named field of a [Partial<typeof CONFIG>]. *)
Inductive Field : Type :=
| defaultPlan_ (v : option Plan)
| hasEvoPermission_ (v : bool)
| evoPermissions_ (v : EvoPermissions)
| instanceList_ (v : list Instance)
| planList_ (v : list CatalogPlan)
| sshKeyList_ (v : list SshKey)
| instanceState_ (v : option InstanceState)
| doNotRemindExpiration_ (v : bool)
| updateStatusBarInterval_ (v : option Z).

Definition assign (c : Config) (f : Field) : Config :=
  match f with
  | defaultPlan_ v =>
      Build_Config (bootScriptPath c) v (hasEvoPermission c) (evoPermissions c)
        (instanceList c) (planList c) (sshKeyList c) (instanceState c)
        (doNotRemindExpiration c) (updateStatusBarInterval c)
  | hasEvoPermission_ v =>
      Build_Config (bootScriptPath c) (defaultPlan c) v (evoPermissions c)
        (instanceList c) (planList c) (sshKeyList c) (instanceState c)
        (doNotRemindExpiration c) (updateStatusBarInterval c)
  | evoPermissions_ v =>
      Build_Config (bootScriptPath c) (defaultPlan c) (hasEvoPermission c) v
        (instanceList c) (planList c) (sshKeyList c) (instanceState c)
        (doNotRemindExpiration c) (updateStatusBarInterval c)
  | instanceList_ v =>
      Build_Config (bootScriptPath c) (defaultPlan c) (hasEvoPermission c)
        (evoPermissions c) v (planList c) (sshKeyList c) (instanceState c)
        (doNotRemindExpiration c) (updateStatusBarInterval c)
  | planList_ v =>
      Build_Config (bootScriptPath c) (defaultPlan c) (hasEvoPermission c)
        (evoPermissions c) (instanceList c) v (sshKeyList c) (instanceState c)
        (doNotRemindExpiration c) (updateStatusBarInterval c)
  | sshKeyList_ v =>
      Build_Config (bootScriptPath c) (defaultPlan c) (hasEvoPermission c)
        (evoPermissions c) (instanceList c) (planList c) v (instanceState c)
        (doNotRemindExpiration c) (updateStatusBarInterval c)
  | instanceState_ v =>
      Build_Config (bootScriptPath c) (defaultPlan c) (hasEvoPermission c)
        (evoPermissions c) (instanceList c) (planList c) (sshKeyList c) v
        (doNotRemindExpiration c) (updateStatusBarInterval c)
  | doNotRemindExpiration_ v =>
      Build_Config (bootScriptPath c) (defaultPlan c) (hasEvoPermission c)
        (evoPermissions c) (instanceList c) (planList c) (sshKeyList c)
        (instanceState c) v (updateStatusBarInterval c)
  | updateStatusBarInterval_ v =>
      Build_Config (bootScriptPath c) (defaultPlan c) (hasEvoPermission c)
        (evoPermissions c) (instanceList c) (planList c) (sshKeyList c)
        (instanceState c) (doNotRemindExpiration c) v
  end.

(** [updateStateConfig (newState)]: [Object.assign (CONFIG, newState)]. *)
Definition updateStateConfig (newState : list Field) (c : Config) : Config :=
  fold_left assign newState c.

End Store.

Import Store.

(* ================================================================== *)
(** * The host: remote API answers and what the code shows *)
(* ================================================================== *)

Module Host.

(** What a rejected request carries: [error.response?.status],
    [error.response?.data?.message], [error.message], and the text the
    error itself is printed as ([String (error)]). *)
Record Error : Type := {
  response_status : option Z;
  response_message : option string;
  message : string;
  printed : string
}.

(** An answer of [aliceApi]: a response with its HTTP status and
    [response.data?.data], or a rejection. *)
Inductive Response (A : Type) : Type :=
| Resolved (http : Z) (data : option A)
| Rejected (e : Error).

Arguments Resolved {A} http data.
Arguments Rejected {A} e.

Definition has_status (e : Error) (code : Z) : bool :=
  match response_status e with
  | Some s => s =? code
  | None => false
  end.

(** [a || b] on an optional string: an absent or empty [a] gives [b]. *)
Definition str_or (a : option string) (b : string) : string :=
  match a with
  | Some EmptyString | None => b
  | Some s => s
  end.

Inductive Flag : Type := flag_all | flag_instance | flag_defaultPlan.

Inductive Api : Type :=
| GetInstanceList
| GetEVOPermissions
| GetPlanList
| GetPlanToOS (planId : Z)
| GetSSHKeyList
| GetInstanceState (instanceId : Z)
| GetCommandResult (instanceId : Z) (commandUid : string).

(** The calls the code makes on its surroundings, in the order made. *)
Inductive Effect : Type :=
| Call (a : Api)
| Delay (ms : Z)
| ProgressReport (m : string)
| ShowInformationMessage (m : string)
| ShowWarningMessage (m : text)
| ShowErrorMessage (m : text)
| UpdateLogEntry (commandUid status output : string)
| ExecuteCommand (command arg : string)
| ClearInterval (timer : option Z)
| UpdateStatusBar
| ShowRenewalInstanceMenu (instanceId : Z)
| CallUpdateConfig (flag : Flag)
| SetBearerToken (clientId secret : option string)
| WithProgress (title : string).

End Host.

Import Host.

(* ================================================================== *)
(** * alice/aliceService.ts *)
(* ================================================================== *)

Module Service.

(** The store together with the calls made so far. *)
Record Run : Type := { cfg : Config; log : list Effect }.

Definition emit (e : Effect) (r : Run) : Run :=
  {| cfg := cfg r; log := log r ++ [e] |}.

Definition update (newState : list Field) (r : Run) : Run :=
  {| cfg := updateStateConfig newState (cfg r); log := log r |}.

(** The remote as one refresh sees it. *)
Record RawPermissions : Type := {
  raw_allow_packages : option string;
  raw_max_time : number
}.

Record RawPlan : Type := {
  raw_id : Z;
  raw_name : string;
  raw_cpu : Z;
  raw_memory : Z;
  raw_disk : Z;
  raw_os : option string          (* "1|2|3" when the remote sends a string *)
}.

Record OSGroup : Type := { os_list : option (list OS) }.

Record Remote : Type := {
  getInstanceList : Response (list Instance);
  getEVOPermissions : Response RawPermissions;
  getPlanList : Response (list RawPlan);
  getPlanToOS : Z -> Response (list OSGroup);
  getSSHKeyList : Response (list SshKey)
}.

(** [s.split ("|")]: never empty, the empty string gives one empty piece. *)
Fixpoint split_bar (s : string) : list string :=
  match s with
  | EmptyString => [EmptyString]
  | String c r =>
      if Ascii.eqb c "|" then EmptyString :: split_bar r
      else match split_bar r with
           | w :: ws => String c w :: ws
           | [] => [String c EmptyString]
           end
  end.

Definition includes (l : list string) (s : string) : bool :=
  existsb (String.eqb s) l.

Definition nonempty_str (o : option string) : bool :=
  match o with
  | Some (String _ _) => true
  | _ => false
  end.

Section Refresh.

(** utils/time.ts and the injected dependencies. *)
Variable convertTimezoneToLocal : string -> string.
Variable getClientId getSecret : option string.
Variable getDefaultPlan : option Plan.
Variable api : Remote.

Definition localInstance (i : Instance) : Instance :=
  {| inst_id := inst_id i; plan_id := plan_id i;
     creation_at := convertTimezoneToLocal (creation_at i);
     expiration_at := convertTimezoneToLocal (expiration_at i);
     boot_script_uid := boot_script_uid i |}.

Definition localKey (k : SshKey) : SshKey :=
  {| key_id := key_id k; key_name := key_name k;
     created_at := convertTimezoneToLocal (created_at k) |}.

(** Lines 109-148.  The boolean is [false] when the task returns at once
    (status 401). *)
Definition fetchInstanceList (r : Run) : Run * bool :=
  let r := emit (Call GetInstanceList) r in
  match getInstanceList api with
  | Resolved _ data =>
      let instanceList := match data with Some l => l | None => [] end in
      (update [instanceList_ (map localInstance instanceList)] r, true)
  | Rejected e =>
      if has_status e 401 then
        (emit (ShowErrorMessage
                 [Lit "认证失败：请检查 Client ID/Secret"]) r, false)
      else
        (emit (ShowErrorMessage
                 [Lit "获取实例列表失败，请检查网络连接"]) r, true)
  end.

(** Lines 152-194. *)
Definition fetchEVOPermissions (r : Run) : Run :=
  let r := emit (Call GetEVOPermissions) r in
  match getEVOPermissions api with
  | Resolved http data =>
      if http =? 200 then
        let evoPermissions :=
          match data with
          | Some p =>
              {| allow_packages :=
                   if nonempty_str (raw_allow_packages p)
                   then option_map split_bar (raw_allow_packages p)
                   else None;
                 max_time := raw_max_time p |}
          | None => {| allow_packages := None; max_time := NaN |}
          end in
        update [evoPermissions_ evoPermissions; hasEvoPermission_ true] r
      else r
  | Rejected e =>
      if has_status e 400 then
        emit (ShowErrorMessage
                [Lit "您的账户似乎没有 EVO Cloud 权限，请检查。"])
             (update [hasEvoPermission_ false] r)
      else r
  end.

(** Lines 216-254: the callback [Promise.all] maps over the plans.  Every
    path assigns [plan.os]; a rejected request is caught inside. *)
Definition fetchPlanOS (plan : RawPlan) : CatalogPlan :=
  let originalOsIds :=
    match raw_os plan with
    | Some s => split_bar s
    | None => []
    end in
  let os :=
    match getPlanToOS api (raw_id plan) with
    | Resolved http (Some groups) =>
        if http =? 200 then
          let allOsObjects :=
            flat_map (fun group => match os_list group with
                                   | Some l => l
                                   | None => []
                                   end) groups in
          match originalOsIds with
          | [] => allOsObjects
          | _ => filter (fun o => includes originalOsIds
                                    (Z_to_string (os_id o))) allOsObjects
          end
        else []
    | Resolved _ None => []
    | Rejected _ => []
    end in
  {| p_id := raw_id plan; p_name := raw_name plan; p_cpu := raw_cpu plan;
     p_memory := raw_memory plan; p_disk := raw_disk plan; p_os := os |}.

(** Lines 201-262. *)
Definition fetchPlanList (r : Run) : Run :=
  let r := emit (Call GetPlanList) r in
  match getPlanList api with
  | Resolved http data =>
      if http =? 200 then
        let planList :=
          match allow_packages (evoPermissions (cfg r)), data with
          | Some allowed, Some l =>
              Some (filter (fun plan => includes allowed
                                          (Z_to_string (raw_id plan))) l)
          | _, _ => data
          end in
        let planList := match planList with Some l => l | None => [] end in
        let r := fold_left
                   (fun r plan => emit (Call (GetPlanToOS (raw_id plan))) r)
                   planList r in
        update [planList_ (map fetchPlanOS planList)] r
      else r
  | Rejected _ => r
  end.

(** Lines 265-282. *)
Definition fetchSSHKeyList (r : Run) : Run :=
  let r := emit (Call GetSSHKeyList) r in
  match getSSHKeyList api with
  | Resolved http data =>
      if http =? 200 then
        let sshKeyList := match data with Some l => l | None => [] end in
        update [sshKeyList_ (map localKey sshKeyList)] r
      else r
  | Rejected _ => r
  end.

(** The task handed to [withProgress], lines 108-284. *)
Definition loadConfig (flag : Flag) (r : Run) : Run :=
  let (r, continue) :=
    match flag with
    | flag_instance | flag_all => fetchInstanceList r
    | flag_defaultPlan => (r, true)
    end in
  if continue then
    match flag with
    | flag_all =>
        let r := fetchEVOPermissions r in
        if negb (hasEvoPermission (cfg r)) then r
        else fetchSSHKeyList (fetchPlanList r)
    | _ => r
    end
  else r.

(** [updateConfig (flag)], lines 94-308, awaited to its end: with both
    credentials the bearer token is set and the task runs under the
    progress notification.  The buttons of the error dialogs (retry, open
    settings) act after this run and are not part of it. *)
Definition updateConfig (flag : Flag) (r : Run) : Run :=
  if (nonempty_str getClientId && nonempty_str getSecret)%bool then
    let r := emit (SetBearerToken getClientId getSecret) r in
    let r := emit (WithProgress "正在加载配置...") r in
    let r := loadConfig flag r in
    match flag with
    | flag_defaultPlan => update [defaultPlan_ getDefaultPlan] r
    | _ => r
    end
  else r.

End Refresh.

(** ** [getInstanceState] *)

(** [n / d] for a positive integer [d]. *)
Definition div_by (n : number) (d : positive) : number :=
  match n with
  | Fin q => Fin (Qnum q # (Qden q * d))
  | _ => n
  end.

(** [n.toFixed (2)]. *)
Definition toFixed (n : number) : string :=
  match n with
  | NaN => "NaN"
  | Inf true => "-Infinity"
  | Inf false => "Infinity"
  | Fin q => toFixed2 (Qnum q) (Zpos (Qden q))
  end.

Definition formatMemory (mem : string) : string :=
  toFixed (div_by (parseInt mem) (1024 * 1024)).

Definition bytesToGB (bytes : number) : number :=
  Number_of_string (toFixed (div_by bytes (1024 * 1024 * 1024))).

(** Lines 368-408, on the answer of [aliceApi.getInstanceState]: the state
    returned, if any, and the error shown, with [error.message || error]. *)
Definition getInstanceState (answer : Response InstanceState)
  : option InstanceState * list Effect :=
  match answer with
  | Resolved http (Some instanceInfo) =>
      if http =? 200 then
        if String.eqb (status instanceInfo) "complete" then
          let st := info instanceInfo in
          let memory' :=
            {| memtotal := formatMemory (memtotal (memory st));
               memfree := formatMemory (memfree (memory st));
               memavailable := formatMemory (memavailable (memory st)) |} in
          let traffic' :=
            {| traffic_in := bytesToGB (traffic_in (traffic st));
               traffic_out := bytesToGB (traffic_out (traffic st));
               traffic_total := bytesToGB (traffic_total (traffic st)) |} in
          let state' :=
            if String.eqb (memavailable memory') "0.00" then "stopped"
            else state st in
          (Some {| status := status instanceInfo;
                   info := {| state := state'; cpu := cpu st;
                              memory := memory'; traffic := traffic' |} |}, [])
        else (Some instanceInfo, [])
      else (None, [])
  | Resolved _ None => (None, [])
  | Rejected e =>
      (None, [ShowErrorMessage
                [Lit ("获取实例状态失败: "
                      ++ match message e with
                         | EmptyString => printed e
                         | m => m
                         end)]])
  end.

(** ** [checkInstanceExpiration] *)

Inductive Outcome : Type :=
| Returned (r : Run)
| Thrown (what : string).

Definition sub (a : number) (b : Z) : number :=
  match a with
  | Fin q => Fin (Qred (q - inject_Z b))
  | _ => a
  end.

(** [Math.floor ((timeLeft / (1000 * 60)) % 60)] for [0 <= timeLeft]. *)
Definition minutes (timeLeft : number) : number :=
  match timeLeft with
  | Fin q => Num (Qfloor (q / inject_Z 60000) mod 60)
  | _ => NaN
  end.

Section Expiration.

(** [new Date (s).getTime ()]. *)
Variable getTime : string -> number.
(** The clock, [new Date ().getTime ()]. *)
Variable now : Z.
(** The store as the call [this.updateConfig ("instance")] on line 326
    leaves it when control comes back.  The call is not awaited. *)
Variable started : Config -> Config.

(** Lines 313-362.  The answer to the reminder dialog comes after the call
    has returned and is not part of it. *)
Definition checkInstanceExpirationFrom (r : Run) : Outcome :=
  match instanceList (cfg r) with
  | [] => Thrown "TypeError"       (* instance is undefined on line 315 *)
  | instance :: _ =>
      let expiration_at := getTime (expiration_at instance) in
      let timeLeft := sub expiration_at now in
      if doNotRemindExpiration (cfg r) then Returned r
      else if lt timeLeft (Num 0) then
        let r := emit (CallUpdateConfig flag_instance) r in
        let r := {| cfg := started (cfg r); log := log r |} in
        if (0 <? Z.of_nat (List.length (instanceList (cfg r)))) then Returned r
        else
          let r := emit (ShowErrorMessage
                           [Lit ("实例 " ++ Z_to_string (inst_id instance)
                                 ++ " 已到期自动删除！或到期时间错误，请自行确认。")]) r in
          let r := emit (ClearInterval (updateStatusBarInterval (cfg r))) r in
          let r := update [instanceList_ []; instanceState_ None;
                           doNotRemindExpiration_ false;
                           updateStatusBarInterval_ None] r in
          Returned (emit UpdateStatusBar r)
      else if (lt timeLeft (Num (5 * 60 * 1000)) && ge timeLeft (Num 0))%bool then
        Returned (emit (ShowWarningMessage
                          [Lit ("实例 " ++ Z_to_string (inst_id instance)
                                ++ " 剩余时间不足 ");
                           Interp (minutes timeLeft);
                           Lit (" 分钟，请及时备份数据！"
                                ++ String "010"%char "是否需要延长时间？")]) r)
      else Returned r
  end.

End Expiration.

(** An async function called without [await] runs up to its first [await]
    and then gives control back.  In [updateConfig] that first [await] (on
    [withProgress], and inside the task on [aliceApi.getInstanceList ()])
    comes before any [updateStateConfig], so the caller finds the store as it
    left it. *)
Definition updateConfig_started (c : Config) : Config := c.

Definition checkInstanceExpiration (getTime : string -> number) (now : Z)
  (r : Run) : Outcome :=
  checkInstanceExpirationFrom getTime now updateConfig_started r.

End Service.

(* ================================================================== *)
(** * menu/instanceMultiStep.ts: [createInstanceMultiStep] *)
(* ================================================================== *)

Module Wizard.

Inductive CreateInstanceStep : Type :=
| SelectPlan
| SelectOS
| EnterTime
| SelectSSHKey
| SelectBootScript
| Done
| Cancelled.

(** The numeric value of the enum member. *)
Definition index (s : CreateInstanceStep) : Z :=
  match s with
  | SelectPlan => 0
  | SelectOS => 1
  | EnterTime => 2
  | SelectSSHKey => 3
  | SelectBootScript => 4
  | Done => 5
  | Cancelled => 6
  end.

(** [currentStep--]. *)
Definition decrement (s : CreateInstanceStep) : CreateInstanceStep :=
  match s with
  | SelectPlan => SelectPlan      (* guarded by [currentStep > SelectPlan] *)
  | SelectOS => SelectPlan
  | EnterTime => SelectOS
  | SelectSSHKey => EnterTime
  | SelectBootScript => SelectSSHKey
  | Done => SelectBootScript
  | Cancelled => Done
  end.

(** A quick-pick item.  [backItem] is the one module-level object that
    [selection === backItem] recognises; every other item is a fresh object
    with a label and perhaps a description.  The [detail] line is display
    text only and is left out. *)
Inductive QuickPickItem : Type :=
| backItem
| Item (label : string) (description : option string).

Definition label (i : QuickPickItem) : string :=
  match i with
  | backItem => "$(arrow-left) 返回上一级"
  | Item l _ => l
  end.

Definition description (i : QuickPickItem) : option string :=
  match i with
  | backItem => None
  | Item _ d => d
  end.

Definition is_backItem (i : QuickPickItem) : bool :=
  match i with backItem => true | _ => false end.

Inductive Status : Type := completed | cancelled | error.

(** The [plan] field of a result: [null], or the wizard's own plan object.
    [resolve ({status: "completed", plan: plan})] hands out the object
    itself, not a copy. *)
Inductive PlanRef : Type := null | thePlan.

Record Resolution : Type := {
  r_status : Status;
  r_plan : PlanRef;
  r_message : option text
}.

(** [CreateInstanceResult], as whoever awaits the promise reads it. *)
Record CreateInstanceResult : Type := {
  status : Status;
  plan : option Plan;
  message : option text
}.

(** The calls on the quick pick and on the promise. *)
Inductive Act : Type :=
| Show (shown : CreateInstanceStep)
| Hide
| Dispose
| Resolve (r : Resolution).

Record QuickPick : Type := {
  step : Z;
  items : list QuickPickItem;
  value : text;
  visible : bool;
  disposed : bool
}.

(** The variables the closures of one run share. *)
Record State : Type := {
  thisPlan : Plan;
  currentStep : CreateInstanceStep;
  errorMessage : option text;
  isCompleted : bool;
  settled : option Resolution;       (* the promise, once resolved *)
  quickPick : QuickPick;
  trace : list Act
}.

Definition with_plan (p : Plan) (st : State) : State :=
  Build_State p (currentStep st) (errorMessage st) (isCompleted st)
    (settled st) (quickPick st) (trace st).
Definition with_currentStep (s : CreateInstanceStep) (st : State) : State :=
  Build_State (thisPlan st) s (errorMessage st) (isCompleted st)
    (settled st) (quickPick st) (trace st).
Definition with_errorMessage (m : option text) (st : State) : State :=
  Build_State (thisPlan st) (currentStep st) m (isCompleted st)
    (settled st) (quickPick st) (trace st).
Definition with_isCompleted (b : bool) (st : State) : State :=
  Build_State (thisPlan st) (currentStep st) (errorMessage st) b
    (settled st) (quickPick st) (trace st).
Definition with_quickPick (q : QuickPick) (st : State) : State :=
  Build_State (thisPlan st) (currentStep st) (errorMessage st) (isCompleted st)
    (settled st) q (trace st).
Definition act (a : Act) (st : State) : State :=
  Build_State (thisPlan st) (currentStep st) (errorMessage st) (isCompleted st)
    (settled st) (quickPick st) (trace st ++ [a]).

Definition with_id (n : number) (p : Plan) : Plan :=
  {| id := n; os := os p; time := time p; sshKey := sshKey p;
     bootScript := bootScript p |}.
Definition with_os (n : number) (p : Plan) : Plan :=
  {| id := id p; os := n; time := time p; sshKey := sshKey p;
     bootScript := bootScript p |}.
Definition with_time (n : number) (p : Plan) : Plan :=
  {| id := id p; os := os p; time := n; sshKey := sshKey p;
     bootScript := bootScript p |}.
Definition with_sshKey (n : number) (p : Plan) : Plan :=
  {| id := id p; os := os p; time := time p; sshKey := n;
     bootScript := bootScript p |}.
Definition with_bootScript (s : string) (p : Plan) : Plan :=
  {| id := id p; os := os p; time := time p; sshKey := sshKey p;
     bootScript := s |}.

(** [resolve (r)]: a promise keeps its first resolution; later calls are
    made but change nothing. *)
Definition resolve (r : Resolution) (st : State) : State :=
  let st := act (Resolve r) st in
  match settled st with
  | Some _ => st
  | None =>
      Build_State (thisPlan st) (currentStep st) (errorMessage st)
        (isCompleted st) (Some r) (quickPick st) (trace st)
  end.

Definition show (st : State) : State :=
  let q := quickPick st in
  act (Show (currentStep st))
      (with_quickPick (Build_QuickPick (step q) (items q) (value q) true
                                       (disposed q)) st).

Definition hide (st : State) : State :=
  let q := quickPick st in
  act Hide
      (with_quickPick (Build_QuickPick (step q) (items q) (value q) false
                                       (disposed q)) st).

Definition dispose (st : State) : State :=
  let q := quickPick st in
  act Dispose
      (with_quickPick (Build_QuickPick (step q) (items q) (value q) false
                                       true) st).

Definition set_items (l : list QuickPickItem) (st : State) : State :=
  let q := quickPick st in
  with_quickPick (Build_QuickPick (step q) l (value q) (visible q)
                                  (disposed q)) st.

Definition set_value (v : text) (st : State) : State :=
  let q := quickPick st in
  with_quickPick (Build_QuickPick (step q) (items q) v (visible q)
                                  (disposed q)) st.

Definition set_step (n : Z) (st : State) : State :=
  let q := quickPick st in
  with_quickPick (Build_QuickPick n (items q) (value q) (visible q)
                                  (disposed q)) st.

(** What the user does, as the quick pick reports it. *)
Inductive Event : Type :=
| Accept (selection : option QuickPickItem) (input : string)
| Hidden.

(** The outcome of starting the wizard: an immediate result after an error
    dialog, or the open quick pick. *)
Inductive Start : Type :=
| Refused (shown : list Effect) (result : CreateInstanceResult)
| Opened (st : State).

(** [selection?.description] when it is truthy. *)
Definition chosen_description (selection : option QuickPickItem)
  : option string :=
  match selection with
  | Some i => match description i with
              | Some (String c r) => Some (String c r)
              | _ => None
              end
  | None => None
  end.

Section Run.

(** The store while the wizard is open, and utils/getScript.ts: the items
    of [getScriptList (path)], [None] when the path does not exist. *)
Variable CONFIG : Config.
Variable getScriptList : string -> option (list QuickPickItem).

Definition planItem (p : CatalogPlan) : QuickPickItem :=
  Item (p_name p) (Some (Z_to_string (p_id p))).
Definition osItem (o : OS) : QuickPickItem :=
  Item (os_name o) (Some (Z_to_string (os_id o))).
Definition keyItem (k : SshKey) : QuickPickItem :=
  Item (key_name k) (Some (Z_to_string (key_id k))).

(** Lines 122-226.  The one [await] inside (on [getScriptList]) is taken
    as immediate. *)
Definition updateView (st : State) : State :=
  let st := set_step (index (currentStep st) + 1) st in
  let st := with_errorMessage None st in
  let st := set_value [] st in
  let st := set_items [] st in
  match currentStep st with
  | SelectPlan =>
      show (set_items (map planItem (planList CONFIG)) st)
  | SelectOS =>
      match find (fun p => strict_eq (Num (p_id p)) (id (thisPlan st)))
                 (planList CONFIG) with
      | None =>
          hide (resolve {| r_status := error; r_plan := null;
                           r_message :=
                             Some [Lit "未能找到 Plan ID 为 ";
                                   Interp (id (thisPlan st));
                                   Lit " 的 OS 列表。"] |} st)
      | Some selectedPlanConfig =>
          match p_os selectedPlanConfig with
          | [] =>
              hide (resolve {| r_status := error; r_plan := null;
                               r_message :=
                                 Some [Lit "Plan ID ";
                                       Interp (id (thisPlan st));
                                       Lit " 没有可用的操作系统。"] |} st)
          | osList => show (set_items (backItem :: map osItem osList) st)
          end
      end
  | EnterTime =>
      let st := set_items [backItem] st in
      show (set_value (if truthy (time (thisPlan st))
                       then [Interp (time (thisPlan st))] else []) st)
  | SelectSSHKey =>
      show (set_items (backItem :: Item "不使用 SSH Key" None
                         :: map keyItem (sshKeyList CONFIG)) st)
  | SelectBootScript =>
      let scripts :=
        match bootScriptPath CONFIG with
        | EmptyString => []
        | path => match getScriptList path with
                  | Some l => l
                  | None => []
                  end
        end in
      show (set_items (backItem :: Item "不使用启动脚本" None :: scripts) st)
  | Done | Cancelled => show st
  end.

(** Lines 263-271: the message the validation assigns to [errorMessage],
    [None] when the input passes. *)
Definition timeError (input : string) : option text :=
  let timeValue := trim input in
  let timeNum := parseInt timeValue in
  if (isNaN timeNum || le0 timeNum)%bool then
    Some [Lit "请输入有效的正整数时间"]
  else if negb (strict_eq timeNum (parseFloat timeValue)) then
    Some [Lit "请输入整数，不支持小数"]
  else if gt timeNum (max_time (evoPermissions CONFIG)) then
    Some [Lit "时长不能超过 "; Interp (max_time (evoPermissions CONFIG));
          Lit " 小时"]
  else None.

(** Lines 229-302. *)
Definition onDidAccept (selection : option QuickPickItem) (input : string)
  (st : State) : State :=
  match selection with
  | Some backItem =>
      if 0 <? index (currentStep st)
      then updateView (with_currentStep (decrement (currentStep st)) st)
      else st
  | _ =>
      match currentStep st with
      | SelectPlan =>
          match chosen_description selection with
          | Some d =>
              let st := with_plan (with_id (Number (Some d)) (thisPlan st)) st in
              updateView (with_currentStep SelectOS st)
          | None => st
          end
      | SelectOS =>
          match chosen_description selection with
          | Some d =>
              let st := with_plan (with_os (Number (Some d)) (thisPlan st)) st in
              updateView (with_currentStep EnterTime st)
          | None => st
          end
      | EnterTime =>
          match timeError input with
          | Some m => updateView (with_errorMessage (Some m) st)
          | None =>
              let st := with_plan (with_time (parseInt (trim input))
                                             (thisPlan st)) st in
              updateView (with_currentStep SelectSSHKey st)
          end
      | SelectSSHKey =>
          match selection with
          | Some i =>
              let st := with_plan
                          (with_sshKey (or_else (Number (description i)) NaN)
                                       (thisPlan st)) st in
              updateView (with_currentStep SelectBootScript st)
          | None => st
          end
      | SelectBootScript =>
          match selection with
          | Some i =>
              let st := with_plan
                          (with_bootScript
                             (if String.eqb (label i) "不使用启动脚本"
                              then EmptyString else label i)
                             (thisPlan st)) st in
              let st := with_isCompleted true st in
              hide (resolve {| r_status := completed; r_plan := thePlan;
                               r_message := None |} st)
          | None => st
          end
      | Done | Cancelled => st
      end
  end.

(** Lines 305-313. *)
Definition onDidHide (st : State) : State :=
  let st :=
    if negb (isCompleted st)
    then resolve {| r_status := cancelled; r_plan := null;
                    r_message := None |} st
    else st in
  dispose st.

(** A disposed quick pick delivers no more events. *)
Definition dispatch (st : State) (ev : Event) : State :=
  if disposed (quickPick st) then st
  else match ev with
       | Accept selection input => onDidAccept selection input st
       | Hidden => onDidHide st
       end.

Definition run (st : State) (evs : list Event) : State :=
  fold_left dispatch evs st.

(** Lines 102-119: the variables of a fresh run. *)
Definition sentinel : Plan :=
  {| id := NaN; os := NaN; time := NaN; sshKey := NaN; bootScript := EmptyString |}.

Definition fresh (default_plan : option Plan) : State :=
  {| thisPlan := match default_plan with Some p => p | None => sentinel end;
     currentStep := SelectPlan;
     errorMessage := None;
     isCompleted := false;
     settled := None;
     quickPick := {| step := 0; items := []; value := []; visible := false;
                     disposed := false |};
     trace := [] |}.

(** Lines 61-119 and 316.  [recheck] is whether the user answers the error
    dialog with its button, which runs [updateConfig ()] before the result
    is returned. *)
Definition createInstanceMultiStep (default_plan : option Plan)
  (recheck : bool) : Start :=
  let again := if recheck then [CallUpdateConfig flag_all] else [] in
  if negb (hasEvoPermission CONFIG) then
    Refused
      (ShowErrorMessage
         [Lit "您的账户似乎没有 EVO Cloud 权限,无法创建实例。"] :: again)
      {| status := error; plan := None;
         message := Some [Lit "没有 EVO 权限"] |}
  else
    match planList CONFIG with
    | [] =>
        Refused
          (ShowErrorMessage
             [Lit "没有可用的 Plan,请检查 EVO 权限或刷新配置。"] :: again)
          {| status := error; plan := None;
             message := Some [Lit "没有可用的 Plan"] |}
    | _ => Opened (updateView (fresh default_plan))
    end.

(** What the promise holds, read through the plan reference. *)
Definition result (st : State) : option CreateInstanceResult :=
  match settled st with
  | Some r =>
      Some {| status := r_status r;
              plan := match r_plan r with
                      | null => None
                      | thePlan => Some (thisPlan st)
                      end;
              message := r_message r |}
  | None => None
  end.

End Run.

End Wizard.

(* ================================================================== *)
(** * menu/index.ts: the polling loops *)
(* ================================================================== *)

Module Tracker.

(** The instance-state loops: how many answers of
    [aliceApi.getInstanceState] have been used, the last state seen, and the
    calls made. *)
Record Poll : Type := {
  fetched : nat;
  instanceState : option InstanceState;
  made : list Effect
}.

Record CommandResult : Type := { output : option string }.

Inductive PowerAction : Type := boot | shutdown | restart | poweroff.

Section Loops.

(** The n-th answer (from 0) of [aliceApi.getInstanceState] and of
    [aliceApi.getCommandResult] during this run. *)
Variable stateAnswers : nat -> Response InstanceState.
Variable resultAnswers : nat -> Response CommandResult.
(** Whether the user asks to see the result in the success dialog. *)
Variable viewResult : bool.

Definition delay (ms : Z) (p : Poll) : Poll :=
  {| fetched := fetched p; instanceState := instanceState p;
     made := made p ++ [Delay ms] |}.

Definition report (m : string) (p : Poll) : Poll :=
  {| fetched := fetched p; instanceState := instanceState p;
     made := made p ++ [ProgressReport m] |}.

(** [instanceState = await aliceService.getInstanceState (instanceId)]. *)
Definition fetch (instanceId : Z) (p : Poll) : Poll :=
  let (s, shown) := Service.getInstanceState (stateAnswers (fetched p)) in
  {| fetched := S (fetched p); instanceState := s;
     made := made p ++ Call (GetInstanceState instanceId) :: shown |}.

(** [instanceState?.state?.state === target]. *)
Definition in_state (target : string) (s : option InstanceState) : bool :=
  match s with
  | Some i => String.eqb (state (info i)) target
  | None => false
  end.

(** The [while] loop of lines 244-251, 523-530 and 620-627;
    [remaining] is [maxAttempts - attempts]. *)
Fixpoint waitFor (target : string) (instanceId : Z) (remaining : nat)
  (p : Poll) : Poll :=
  if in_state target (instanceState p) then p
  else match remaining with
       | O => p
       | S n => waitFor target instanceId n
                  (fetch instanceId (delay 2000 p))
       end.

Definition maxAttempts : nat := 60.

Definition start : Poll :=
  {| fetched := 0; instanceState := None; made := [] |}.

(** Lines 648-694; [remaining] is [maxAttempts - attempts] with
    [maxAttempts = 180]. *)
Fixpoint pollResult (instanceId : Z) (commandUid scriptName : string)
  (remaining attempts : nat) : list Effect :=
  match remaining with
  | O =>
      [UpdateLogEntry commandUid "failed" "获取结果超时";
       ShowWarningMessage [Lit ("脚本 " ++ scriptName ++ " 执行结果获取超时")]]
  | S n =>
      let next := Delay 5000
                  :: pollResult instanceId commandUid scriptName n
                       (S attempts) in
      Call (GetCommandResult instanceId commandUid) ::
      match resultAnswers attempts with
      | Resolved http data =>
          match (if http =? 200 then data else None) with
          | Some {| output := Some (String c r) |} =>
              UpdateLogEntry commandUid "completed" (String c r)
              :: ShowInformationMessage ("脚本 " ++ scriptName ++ " 执行成功")
              :: (if viewResult
                  then [ExecuteCommand "alice.showScriptResult" commandUid]
                  else [])
          | _ => next
          end
      | Rejected e =>
          if has_status e 202 then next
          else
            let errorMessage :=
              "获取结果失败: " ++ str_or (response_message e) (message e) in
            [UpdateLogEntry commandUid "failed" errorMessage;
             ShowErrorMessage
               [Lit ("脚本 " ++ scriptName ++ " 执行失败: " ++ errorMessage)]]
      end
  end.

Definition pollBootScriptResult (instanceId : Z)
  (commandUid scriptName : string) : list Effect :=
  pollResult instanceId commandUid scriptName 180 0.

(** [createInstance], lines 233-267: the task run under the progress
    notification once the instance exists. *)
Definition createInstanceProgress (instanceId : Z)
  (bootScriptUid : option string) (bootScript : string) : Poll :=
  let p := fetch instanceId (delay 2000 start) in
  let p := waitFor "running" instanceId maxAttempts p in
  let p := delay 1000 (report "实例创建成功" p) in
  match bootScriptUid, bootScript with
  | Some (String c r), String _ _ =>
      let p := report ("正在执行启动脚本 " ++ bootScript ++ "...") p in
      {| fetched := fetched p; instanceState := instanceState p;
         made := made p
                 ++ pollBootScriptResult instanceId (String c r) bootScript |}
  | _, _ => p
  end.

(** [powerInstanceItems], lines 599-633, once [powerInstance] has
    answered; [code200] is [response.data?.code === 200]. *)
Definition powerInstanceDone (instanceId : Z) (selectedLabel : string)
  (action : PowerAction) (code200 : bool) : Poll :=
  let p :=
    if code200 then
      let p := fetch instanceId start in
      let target :=
        match action with
        | boot | restart => "running"
        | shutdown | poweroff => "stopped"
        end in
      waitFor target instanceId maxAttempts p
    else start in
  {| fetched := fetched p; instanceState := instanceState p;
     made := made p
             ++ [ShowInformationMessage ("实例" ++ selectedLabel ++ "成功");
                 UpdateStatusBar] |}.

End Loops.

End Tracker.

(* ================================================================== *)
(** * Reading a run of the wizard as a list of forward transitions *)
(* ================================================================== *)

Module Replay.

Import Wizard.

Definition step_eqb (a b : CreateInstanceStep) : bool := index a =? index b.

Definition is_completed (a : Act) : bool :=
  match a with
  | Resolve {| r_status := completed |} => true
  | _ => false
  end.

(** How often the handlers have called [resolve] with status completed. *)
Definition completions (st : State) : nat :=
  List.length (filter is_completed (trace st)).

Definition selection_of (ev : Event) : option QuickPickItem :=
  match ev with Accept s _ => s | Hidden => None end.

Definition input_of (ev : Event) : string :=
  match ev with Accept _ v => v | Hidden => EmptyString end.

Definition description_of (ev : Event) : option string :=
  match selection_of ev with Some i => description i | None => None end.

Definition label_of (ev : Event) : string :=
  match selection_of ev with Some i => label i | None => EmptyString end.

(** The event accepted last at step [s], if any. *)
Fixpoint last_at (s : CreateInstanceStep)
  (log : list (CreateInstanceStep * Event)) : option Event :=
  match log with
  | [] => None
  | (s', ev) :: rest =>
      match last_at s rest with
      | Some later => Some later
      | None => if step_eqb s' s then Some ev else None
      end
  end.

(** The request built from the forward transitions alone: each field is the
    value entered last at its step, and the seed's where the step never was
    passed. *)
Definition request_of (log : list (CreateInstanceStep * Event)) (seed : Plan)
  : Plan :=
  {| id := match last_at SelectPlan log with
           | Some ev => Number (description_of ev)
           | None => id seed
           end;
     os := match last_at SelectOS log with
           | Some ev => Number (description_of ev)
           | None => os seed
           end;
     time := match last_at EnterTime log with
             | Some ev => parseInt (trim (input_of ev))
             | None => time seed
             end;
     sshKey := match last_at SelectSSHKey log with
               | Some ev => or_else (Number (description_of ev)) NaN
               | None => sshKey seed
               end;
     bootScript := match last_at SelectBootScript log with
                   | Some ev => if String.eqb (label_of ev) "不使用启动脚本"
                                then EmptyString else label_of ev
                   | None => bootScript seed
                   end |}.

Section Log.

Variable CONFIG : Config.
Variable getScriptList : string -> option (list QuickPickItem).

(** An event is a forward transition when it moves the wizard one step on
    or completes it. *)
Definition forward (st st' : State) : bool :=
  ((index (currentStep st') =? index (currentStep st) + 1)
   || Nat.ltb (completions st) (completions st'))%bool.

Fixpoint forward_log (st : State) (evs : list Event)
  : list (CreateInstanceStep * Event) :=
  match evs with
  | [] => []
  | ev :: rest =>
      let st' := dispatch CONFIG getScriptList st ev in
      (if forward st st' then [(currentStep st, ev)] else [])
        ++ forward_log st' rest
  end.

End Log.

End Replay.

(** Counting calls in a list of effects. *)
Definition is_fetch (e : Effect) : bool :=
  match e with Call _ => true | _ => false end.
Definition is_error_shown (e : Effect) : bool :=
  match e with ShowErrorMessage _ => true | _ => false end.
Definition is_warning (e : Effect) : bool :=
  match e with ShowWarningMessage _ => true | _ => false end.
Definition is_success (e : Effect) : bool :=
  match e with
  | ShowInformationMessage _ | ProgressReport _ => true
  | _ => false
  end.
Definition is_log_update (e : Effect) : bool :=
  match e with UpdateLogEntry _ _ _ => true | _ => false end.
Definition count (f : Effect -> bool) (l : list Effect) : nat :=
  List.length (filter f l).

(** [k] empty polls of the boot-script result. *)
Fixpoint empty_polls (instanceId : Z) (commandUid : string) (k : nat)
  : list Effect :=
  match k with
  | O => []
  | S n => Call (GetCommandResult instanceId commandUid) :: Delay 5000
           :: empty_polls instanceId commandUid n
  end.

(** An answer of [getCommandResult] that is neither a result nor a failure:
    still pending (202, however the client reports it) or without output. *)
Definition pending (a : Response Tracker.CommandResult) : bool :=
  match a with
  | Rejected e => has_status e 202
  | Resolved http data =>
      match (if http =? 200 then data else None) with
      | Some {| Tracker.output := Some (String _ _) |} => false
      | _ => true
      end
  end.

(* ================================================================== *)
(** * menu/instanceMultiStep.ts: [rebulidInstanceMultiStep] *)
(* ================================================================== *)

Module Rebuild.

Import Wizard.

Inductive RebulidInstanceStep : Type :=
| SelectOS
| SelectSSHKey
| SelectBootScript
| Done
| Cancelled.

Definition index (s : RebulidInstanceStep) : Z :=
  match s with
  | SelectOS => 0
  | SelectSSHKey => 1
  | SelectBootScript => 2
  | Done => 3
  | Cancelled => 4
  end.

(** [currentStep--]. *)
Definition decrement (s : RebulidInstanceStep) : RebulidInstanceStep :=
  match s with
  | SelectOS => SelectOS          (* guarded by [currentStep > SelectOS] *)
  | SelectSSHKey => SelectOS
  | SelectBootScript => SelectSSHKey
  | Done => SelectBootScript
  | Cancelled => Done
  end.

(** [interface RebuildInfo] of alice/config.ts. *)
Record RebuildInfo : Type := {
  planId : number;
  os : number;
  sshKey : number;
  bootScript : string
}.

(** The [rebulidInfo] field of a result: [null] or the wizard's object. *)
Inductive InfoRef : Type := null | theInfo.

Record Resolution : Type := {
  r_status : Status;
  r_info : InfoRef;
  r_message : option text
}.

(** [RebuildInstanceResult], as whoever awaits the promise reads it. *)
Record RebuildInstanceResult : Type := {
  status : Status;
  rebulidInfo : option RebuildInfo;
  message : option text
}.

Inductive Act : Type :=
| Show (shown : RebulidInstanceStep)
| Hide
| Dispose
| Resolve (r : Resolution).

(** The variables the closures of one run share. *)
Record State : Type := {
  thisInfo : RebuildInfo;
  currentStep : RebulidInstanceStep;
  isCompleted : bool;
  settled : option Resolution;
  quickPick : QuickPick;
  trace : list Act
}.

Definition with_info (i : RebuildInfo) (st : State) : State :=
  Build_State i (currentStep st) (isCompleted st) (settled st) (quickPick st)
    (trace st).
Definition with_currentStep (s : RebulidInstanceStep) (st : State) : State :=
  Build_State (thisInfo st) s (isCompleted st) (settled st) (quickPick st)
    (trace st).
Definition with_isCompleted (b : bool) (st : State) : State :=
  Build_State (thisInfo st) (currentStep st) b (settled st) (quickPick st)
    (trace st).
Definition with_quickPick (q : QuickPick) (st : State) : State :=
  Build_State (thisInfo st) (currentStep st) (isCompleted st) (settled st) q
    (trace st).
Definition act (a : Act) (st : State) : State :=
  Build_State (thisInfo st) (currentStep st) (isCompleted st) (settled st)
    (quickPick st) (trace st ++ [a]).

Definition with_os (n : number) (i : RebuildInfo) : RebuildInfo :=
  {| planId := planId i; os := n; sshKey := sshKey i;
     bootScript := bootScript i |}.
Definition with_sshKey (n : number) (i : RebuildInfo) : RebuildInfo :=
  {| planId := planId i; os := os i; sshKey := n;
     bootScript := bootScript i |}.
Definition with_bootScript (s : string) (i : RebuildInfo) : RebuildInfo :=
  {| planId := planId i; os := os i; sshKey := sshKey i; bootScript := s |}.

(** [resolve (r)]: the promise keeps its first resolution. *)
Definition resolve (r : Resolution) (st : State) : State :=
  let st := act (Resolve r) st in
  match settled st with
  | Some _ => st
  | None =>
      Build_State (thisInfo st) (currentStep st) (isCompleted st) (Some r)
        (quickPick st) (trace st)
  end.

Definition show (st : State) : State :=
  let q := quickPick st in
  act (Show (currentStep st))
      (with_quickPick (Build_QuickPick (step q) (items q) (value q) true
                                       (disposed q)) st).

Definition hide (st : State) : State :=
  let q := quickPick st in
  act Hide
      (with_quickPick (Build_QuickPick (step q) (items q) (value q) false
                                       (disposed q)) st).

Definition dispose (st : State) : State :=
  let q := quickPick st in
  act Dispose
      (with_quickPick (Build_QuickPick (step q) (items q) (value q) false
                                       true) st).

(** Lines 345-348: what every render resets. *)
Definition cleared (n : Z) (st : State) : State :=
  let q := quickPick st in
  with_quickPick (Build_QuickPick n [] [] (visible q) (disposed q)) st.

Definition set_items (l : list QuickPickItem) (st : State) : State :=
  let q := quickPick st in
  with_quickPick (Build_QuickPick (step q) l (value q) (visible q)
                                  (disposed q)) st.

Section Run.

Variable CONFIG : Config.
Variable getScriptList : string -> option (list QuickPickItem).

(** Lines 344-426.  The first step offers no back item. *)
Definition updateView (st : State) : State :=
  let st := cleared (index (currentStep st) + 1) st in
  match currentStep st with
  | SelectOS =>
      match find (fun p => strict_eq (Num (p_id p)) (planId (thisInfo st)))
                 (planList CONFIG) with
      | None =>
          hide (resolve {| r_status := error; r_info := null;
                           r_message :=
                             Some [Lit "未能找到 Plan ID 为 ";
                                   Interp (planId (thisInfo st));
                                   Lit " 的 OS 列表。"] |} st)
      | Some selectedPlanConfig =>
          match p_os selectedPlanConfig with
          | [] =>
              hide (resolve {| r_status := error; r_info := null;
                               r_message :=
                                 Some [Lit "Plan ID ";
                                       Interp (planId (thisInfo st));
                                       Lit " 没有可用的操作系统。"] |} st)
          | osListRebuild =>
              show (set_items (map Wizard.osItem osListRebuild) st)
          end
      end
  | SelectSSHKey =>
      show (set_items (backItem :: Item "不使用 SSH Key" None
                         :: map Wizard.keyItem (sshKeyList CONFIG)) st)
  | SelectBootScript =>
      let scripts :=
        match bootScriptPath CONFIG with
        | EmptyString => []
        | path => match getScriptList path with
                  | Some l => l
                  | None => []
                  end
        end in
      show (set_items (backItem :: Item "不使用启动脚本" None :: scripts) st)
  | Done | Cancelled => show st
  end.

(** Lines 429-471. *)
Definition onDidAccept (selection : option QuickPickItem) (st : State)
  : State :=
  match selection with
  | Some backItem =>
      if 0 <? index (currentStep st)
      then updateView (with_currentStep (decrement (currentStep st)) st)
      else st
  | _ =>
      match currentStep st with
      | SelectOS =>
          match chosen_description selection with
          | Some d =>
              let st := with_info (with_os (Number (Some d)) (thisInfo st)) st in
              updateView (with_currentStep SelectSSHKey st)
          | None => st
          end
      | SelectSSHKey =>
          match selection with
          | Some i =>
              let st := with_info
                          (with_sshKey (or_else (Number (description i)) NaN)
                                       (thisInfo st)) st in
              updateView (with_currentStep SelectBootScript st)
          | None => st
          end
      | SelectBootScript =>
          match selection with
          | Some i =>
              let st := with_info
                          (with_bootScript
                             (if String.eqb (label i) "不使用启动脚本"
                              then EmptyString else label i)
                             (thisInfo st)) st in
              let st := with_isCompleted true st in
              hide (resolve {| r_status := completed; r_info := theInfo;
                               r_message := None |} st)
          | None => st
          end
      | Done | Cancelled => st
      end
  end.

(** Lines 474-482. *)
Definition onDidHide (st : State) : State :=
  let st :=
    if negb (isCompleted st)
    then resolve {| r_status := cancelled; r_info := null;
                    r_message := None |} st
    else st in
  dispose st.

(** A disposed quick pick delivers no more events; the typed value of an
    accept plays no part here. *)
Definition dispatch (st : State) (ev : Event) : State :=
  if disposed (quickPick st) then st
  else match ev with
       | Accept selection _ => onDidAccept selection st
       | Hidden => onDidHide st
       end.

Definition run (st : State) (evs : list Event) : State :=
  fold_left dispatch evs st.

(** Lines 326-341. *)
Definition fresh (plan : number) : State :=
  {| thisInfo := {| planId := plan; os := NaN; sshKey := NaN;
                    bootScript := EmptyString |};
     currentStep := SelectOS;
     isCompleted := false;
     settled := None;
     quickPick := {| step := 0; items := []; value := []; visible := false;
                     disposed := false |};
     trace := [] |}.

(** Lines 323-487: the run as it stands after the first render. *)
Definition rebulidInstanceMultiStep (plan : number) : State :=
  updateView (fresh plan).

Definition result (st : State) : option RebuildInstanceResult :=
  match settled st with
  | Some r =>
      Some {| status := r_status r;
              rebulidInfo := match r_info r with
                             | null => None
                             | theInfo => Some (thisInfo st)
                             end;
              message := r_message r |}
  | None => None
  end.

End Run.

End Rebuild.

(* ================================================================== *)
(** * menu/index.ts: renewing and deleting an instance *)
(* ================================================================== *)

Module Menu.

(** The longest prefix of radix-16 digits as a number, [None] when empty. *)
Fixpoint hex_prefix (acc : option Z) (s : string) : option Z :=
  match s with
  | String c r =>
      match radix_digit 16 c with
      | Some d =>
          hex_prefix (Some (match acc with Some a => a | None => 0 end * 16 + d)) r
      | None => acc
      end
  | EmptyString => acc
  end.

(** [parseInt (s)] with no radix given: a "0x" or "0X" after the sign makes
    it 16, anything else 10. *)
Definition parseInt_auto (s : string) : number :=
  let (neg, r) := sign (trimStart s) in
  match r with
  | String "0" (String c rest) =>
      if (Ascii.eqb c "x" || Ascii.eqb c "X")%bool then
        match hex_prefix None rest with
        | Some v => Num (signed neg v)
        | None => NaN
        end
      else parseInt s
  | _ => parseInt s
  end.

Section Renewal.

Variable CONFIG : Config.

(** Lines 421-430: the [validateInput] of the input box; [None] is the
    [null] that lets the input through. *)
Definition validateInput (input : string) : option text :=
  let time := parseInt_auto input in
  if (isNaN time || le0 time)%bool then Some [Lit "请输入有效的时间"]
  else if gt time (max_time (evoPermissions CONFIG)) then
    Some [Lit "最长可为"; Interp (max_time (evoPermissions CONFIG)); Lit "小时"]
  else None.

(** Lines 432-434: the hours handed to [aliceApi.renewalInstance], for the
    string the input box returned ([None] when it was dismissed); nothing is
    sent for an absent or empty string. *)
Definition hoursSent (time : option string) : option number :=
  match time with
  | Some (String c r) => Some (Number_of_string (String c r))
  | _ => None
  end.

End Renewal.

Section Delete.

(** What the awaited [updateConfig ("instance")] of ../commands leaves in
    the store, and the text [`${err}`] of a rejection. *)
Variable refreshed : Config -> Config.
Variable toString : Error -> string.

(** Lines 451-477, from the answer to the confirmation on: [confirm] is the
    button chosen, [answer] what [aliceApi.deleteInstance] gave, with
    [response.data?.code] as its data. *)
Definition deleteInstanceItems (instanceId : Z) (confirm : option string)
  (answer : Response Z) (r : Service.Run) : Service.Run :=
  let r := Service.emit
             (ShowWarningMessage
                [Lit "确定要删除实例 "; Interp (Num instanceId); Lit " 吗？"]) r in
  match confirm with
  | Some c =>
      if String.eqb c "删除" then
        match answer with
        | Resolved _ (Some code) =>
            if code =? 200 then
              let r := Service.emit (CallUpdateConfig flag_instance) r in
              let r := {| Service.cfg := refreshed (Service.cfg r);
                          Service.log := Service.log r |} in
              let r := Service.emit (ShowInformationMessage "实例删除成功") r in
              let r := Service.emit
                         (ClearInterval
                            (updateStatusBarInterval (Service.cfg r))) r in
              Service.update [instanceList_ []; instanceState_ None;
                              doNotRemindExpiration_ false;
                              updateStatusBarInterval_ None] r
            else r
        | Resolved _ None => r
        | Rejected e =>
            Service.emit
              (ShowErrorMessage [Lit ("实例删除失败: " ++ toString e)]) r
        end
      else r
  | None => r
  end.

End Delete.

Section RebuildProgress.

Variable stateAnswers : nat -> Response InstanceState.
Variable resultAnswers : nat -> Response Tracker.CommandResult.
Variable viewResult : bool.

(** [rebulidInstanceItems], lines 513-544: the task run under the progress
    notification once the rebuild has been accepted. *)
Definition rebuildInstanceProgress (instanceId : Z)
  (bootScriptUid : option string) (bootScript : string) : Tracker.Poll :=
  let p := Tracker.fetch stateAnswers instanceId
             (Tracker.delay 2000 Tracker.start) in
  let p := Tracker.waitFor stateAnswers "running" instanceId
             Tracker.maxAttempts p in
  let p := Tracker.delay 1000 (Tracker.report "实例重装成功" p) in
  match bootScriptUid, bootScript with
  | Some (String c r), String _ _ =>
      let p := Tracker.report ("正在执行启动脚本 " ++ bootScript ++ "...") p in
      {| Tracker.fetched := Tracker.fetched p;
         Tracker.instanceState := Tracker.instanceState p;
         Tracker.made :=
           Tracker.made p
           ++ Tracker.pollBootScriptResult resultAnswers viewResult instanceId
                (String c r) bootScript |}
  | _, _ => p
  end.

End RebuildProgress.

(** Lines 485-497: what [aliceApi.rebulidInstance] is called with, after
    the instance id: the OS, [rebulidInfo.sshKey || undefined] and the name
    of the script whose content is sent; [None] when no call is made. *)
Definition rebuildRequest (res : option Rebuild.RebuildInstanceResult)
  : option (number * option number * string) :=
  match res with
  | Some {| Rebuild.status := Wizard.completed;
            Rebuild.rebulidInfo := Some i |} =>
      Some (Rebuild.os i,
            if truthy (Rebuild.sshKey i) then Some (Rebuild.sshKey i) else None,
            Rebuild.bootScript i)
  | _ => None
  end.

End Menu.

(* ================================================================== *)
(** * Measures and shapes used in the further theorems *)
(* ================================================================== *)

(** Whether two assignments name the same field of [CONFIG]. *)
Definition same_field (f g : Field) : bool :=
  match f, g with
  | defaultPlan_ _, defaultPlan_ _
  | hasEvoPermission_ _, hasEvoPermission_ _
  | evoPermissions_ _, evoPermissions_ _
  | instanceList_ _, instanceList_ _
  | planList_ _, planList_ _
  | sshKeyList_ _, sshKeyList_ _
  | instanceState_ _, instanceState_ _
  | doNotRemindExpiration_ _, doNotRemindExpiration_ _
  | updateStatusBarInterval_ _, updateStatusBarInterval_ _ => true
  | _, _ => false
  end.

(** The time a run spends in [delay]. *)
Fixpoint total_delay (l : list Effect) : Z :=
  match l with
  | [] => 0
  | Delay ms :: rest => ms + total_delay rest
  | _ :: rest => total_delay rest
  end.

Definition is_notice (e : Effect) : bool :=
  match e with
  | ShowInformationMessage _ | ShowWarningMessage _ | ShowErrorMessage _ => true
  | _ => false
  end.

Definition is_delay (e : Effect) : bool :=
  match e with Delay _ => true | _ => false end.

(** Text that may follow the digits of an integer without being read as
    part of a number: it starts with something that is neither a digit,
    nor a point, nor an exponent mark, nor white space. *)
Definition plain_tail (r : string) : Prop :=
  match r with
  | String c _ =>
      digit c = None /\ is_space c = false /\
      c <> "."%char /\ c <> "e"%char /\ c <> "E"%char
  | EmptyString => False
  end.

(** The same run of the progress task, with another text reported. *)
Definition retitled (old new : string) (e : Effect) : Effect :=
  match e with
  | ProgressReport m => if String.eqb m old then ProgressReport new else e
  | _ => e
  end.

(** A duration that the validation of the duration step lets through. *)
Definition valid_duration (CONFIG : Config) (t : number) : Prop :=
  exists n, t = Num n /\ 1 <= n
            /\ gt (Num n) (max_time (evoPermissions CONFIG)) = false.

(** What every state of a run of the create wizard satisfies. *)
Definition in_order (CONFIG : Config) (st : Wizard.State) : Prop :=
  Wizard.index (Wizard.currentStep st) <= 4
  /\ Wizard.step (Wizard.quickPick st)
     = Wizard.index (Wizard.currentStep st) + 1
  /\ (Wizard.isCompleted st = true -> Wizard.settled st <> None)
  /\ (Wizard.disposed (Wizard.quickPick st) = true ->
      Wizard.settled st <> None)
  /\ (forall r, Wizard.settled st = Some r ->
                Wizard.r_status r = Wizard.completed ->
                Wizard.isCompleted st = true)
  /\ (3 <= Wizard.index (Wizard.currentStep st)
      \/ Wizard.isCompleted st = true ->
      valid_duration CONFIG (Store.time (Wizard.thisPlan st))).

(** What every state of a run of the rebuild wizard satisfies. *)
Definition rebuild_in_order (plan : number) (st : Rebuild.State) : Prop :=
  Rebuild.planId (Rebuild.thisInfo st) = plan
  /\ 0 <= Rebuild.index (Rebuild.currentStep st) <= 2
  /\ Wizard.step (Rebuild.quickPick st)
     = Rebuild.index (Rebuild.currentStep st) + 1
  /\ (Rebuild.isCompleted st = true -> Rebuild.settled st <> None)
  /\ (Wizard.disposed (Rebuild.quickPick st) = true ->
      Rebuild.settled st <> None).

(* ================================================================== *)
(** * Sample data *)
(* ================================================================== *)

Module Demo.

Import Wizard.

Definition plans : list CatalogPlan :=
  [{| p_id := 7; p_name := "evo-1"; p_cpu := 1; p_memory := 1024;
      p_disk := 10;
      p_os := [{| os_id := 3; os_name := "Debian 12" |};
               {| os_id := 4; os_name := "Alpine" |}] |}].

Definition CONFIG : Config :=
  {| bootScriptPath := EmptyString;
     defaultPlan := None;
     hasEvoPermission := true;
     evoPermissions := {| allow_packages := None; max_time := Num 24 |};
     instanceList := [];
     planList := plans;
     sshKeyList := [];
     instanceState := None;
     doNotRemindExpiration := false;
     updateStatusBarInterval := None |}.

Definition noPermission : Config :=
  updateStateConfig [hasEvoPermission_ false; planList_ []] CONFIG.

Definition noScripts (path : string) : option (list QuickPickItem) := None.

(** The wizard as it opens. *)
Definition opened : State :=
  Wizard.updateView CONFIG noScripts (Wizard.fresh None).

Definition pickPlan : Event := Accept (Some (Item "evo-1" (Some "7"))) EmptyString.
Definition pickOS (name : string) (n : Z) : Event :=
  Accept (Some (Item name (Some (Z_to_string n)))) EmptyString.
Definition typeHours (s : string) : Event := Accept None s.
Definition back : Event := Accept (Some backItem) EmptyString.
Definition noKey : Event := Accept (Some (Item "不使用 SSH Key" None)) EmptyString.
Definition noScript : Event := Accept (Some (Item "不使用启动脚本" None)) EmptyString.

(** Straight through the five steps. *)
Definition choices : list Event :=
  [pickPlan; pickOS "Debian 12" 3; typeHours "12"; noKey; noScript].

(** The same with second thoughts on the OS and on the hours. *)
Definition wavering : list Event :=
  [pickPlan; pickOS "Debian 12" 3; back; pickOS "Alpine" 4; typeHours "12";
   back; typeHours "8"; noKey; noScript].


(** An instance whose state the remote keeps reporting as stopped, and one
    it reports as running with no memory available. *)
Definition stoppedState : InstanceState :=
  {| Store.status := "complete";
     info := {| state := "stopped"; cpu := Num 0;
                memory := {| memtotal := "2097152"; memfree := "1048576";
                             memavailable := "1048576" |};
                traffic := {| traffic_in := Num 0; traffic_out := Num 0;
                              traffic_total := Num 0 |} |} |}.

Definition starvedState : InstanceState :=
  {| Store.status := "complete";
     info := {| state := "running"; cpu := Num 0;
                memory := {| memtotal := "2097152"; memfree := "0";
                             memavailable := "1024" |};
                traffic := {| traffic_in := Num 0; traffic_out := Num 0;
                              traffic_total := Num 0 |} |} |}.


Definition stillPending : Error :=
  {| response_status := Some 202; response_message := None;
     Host.message := "Request failed with status code 202";
     printed := "AxiosError: Request failed with status code 202" |}.

Definition serverError : Error :=
  {| response_status := Some 500; response_message := Some "internal error";
     Host.message := "Request failed with status code 500";
     printed := "AxiosError: Request failed with status code 500" |}.

Definition alwaysPending (k : nat) : Response Tracker.CommandResult :=
  Rejected stillPending.

(** Two pending answers, then a failure. *)
Definition failsThird (k : nat) : Response Tracker.CommandResult :=
  if (k <? 2)%nat then Rejected stillPending else Rejected serverError.

(** A remote with three plans; the variant catalog of plan 2 fails. *)
Definition rawPlan (n : Z) : Service.RawPlan :=
  {| Service.raw_id := n; Service.raw_name := "evo"; Service.raw_cpu := 1;
     Service.raw_memory := 1024; Service.raw_disk := 10;
     Service.raw_os := None |}.

Definition remote : Service.Remote :=
  {| Service.getInstanceList := Resolved 200 (Some []);
     Service.getEVOPermissions :=
       Resolved 200 (Some {| Service.raw_allow_packages := Some "1|2|3";
                             Service.raw_max_time := Num 24 |});
     Service.getPlanList := Resolved 200 (Some [rawPlan 1; rawPlan 2; rawPlan 3]);
     Service.getPlanToOS :=
       fun n => if n =? 2 then Rejected serverError
                else Resolved 200
                       (Some [{| Service.os_list :=
                                   Some [{| os_id := 10 * n;
                                            os_name := "Debian" |}] |}]);
     Service.getSSHKeyList :=
       Resolved 200 (Some [{| key_id := 5; key_name := "laptop";
                              created_at := "2025-01-01" |}]) |}.

(** A store with one instance that expired, the reminder suppressed. *)
Definition expired : Config :=
  updateStateConfig
    [instanceList_ [{| inst_id := 42; plan_id := 7; creation_at := EmptyString;
                       expiration_at := "2025-01-01 00:00:00";
                       boot_script_uid := None |}];
     instanceState_ (Some stoppedState);
     doNotRemindExpiration_ true;
     updateStatusBarInterval_ (Some 1)] CONFIG.

(** The same store with the reminder not suppressed. *)
Definition expiredReminding : Config :=
  updateStateConfig [doNotRemindExpiration_ false] expired.

Definition getTime (s : string) : number := Num 1000.
Definition now : Z := 2000.

Definition at_rest (c : Config) : Service.Run :=
  {| Service.cfg := c; Service.log := [] |}.

(** The wizard at the duration step, and after a straight run. *)
Definition atDuration : State :=
  Wizard.run CONFIG noScripts opened [pickPlan; pickOS "Debian 12" 3].


(** The store once a refresh of the instance list, awaited, has found the
    list empty. *)
Definition refreshed (c : Config) : Config :=
  Service.cfg
    (Service.updateConfig (fun s => s) (Some "id") (Some "secret") None remote
       flag_instance {| Service.cfg := c; Service.log := [] |}).

End Demo.


(* ================================================================== *)
(** * Further sample data *)
(* ================================================================== *)

Module Cases.

Definition unauthorized : Error :=
  {| response_status := Some 401; response_message := None;
     Host.message := "Request failed with status code 401";
     printed := "AxiosError: Request failed with status code 401" |}.

Definition forbidden : Error :=
  {| response_status := Some 400; response_message := None;
     Host.message := "Request failed with status code 400";
     printed := "AxiosError: Request failed with status code 400" |}.

(** The remote of [Demo] when the credentials are refused, when the
    account has no permission, and when the permission request fails on
    the server. *)
Definition lockedOut : Service.Remote :=
  {| Service.getInstanceList := Rejected unauthorized;
     Service.getEVOPermissions := Service.getEVOPermissions Demo.remote;
     Service.getPlanList := Service.getPlanList Demo.remote;
     Service.getPlanToOS := Service.getPlanToOS Demo.remote;
     Service.getSSHKeyList := Service.getSSHKeyList Demo.remote |}.

Definition noEvo : Service.Remote :=
  {| Service.getInstanceList := Service.getInstanceList Demo.remote;
     Service.getEVOPermissions := Rejected forbidden;
     Service.getPlanList := Service.getPlanList Demo.remote;
     Service.getPlanToOS := Service.getPlanToOS Demo.remote;
     Service.getSSHKeyList := Service.getSSHKeyList Demo.remote |}.

Definition flaky : Service.Remote :=
  {| Service.getInstanceList := Resolved 200 None;
     Service.getEVOPermissions := Rejected Demo.serverError;
     Service.getPlanList := Service.getPlanList Demo.remote;
     Service.getPlanToOS := Service.getPlanToOS Demo.remote;
     Service.getSSHKeyList := Service.getSSHKeyList Demo.remote |}.

(** A plan that comes with an empty [os] string. *)
Definition blankOs : Service.RawPlan :=
  {| Service.raw_id := 1; Service.raw_name := "evo"; Service.raw_cpu := 1;
     Service.raw_memory := 1024; Service.raw_disk := 10;
     Service.raw_os := Some EmptyString |}.

(** A running instance with just enough memory available, and one whose
    memory figure cannot be read. *)
Definition withMemory (available : string) : InstanceState :=
  {| Store.status := "complete";
     info := {| state := "running"; cpu := Num 0;
                memory := {| memtotal := "2097152"; memfree := "0";
                             memavailable := available |};
                traffic := {| traffic_in := Num 0; traffic_out := Num 0;
                              traffic_total := Num 0 |} |} |}.

(** A running instance of 8 GB with 1.5 GB free and 5242 kB available. *)
Definition lowMemory : InstanceState :=
  {| Store.status := "complete";
     info := {| state := "running"; cpu := Num 0;
                memory := {| memtotal := "8388608"; memfree := "1572864";
                             memavailable := "5242" |};
                traffic := {| traffic_in := Num 0; traffic_out := Num 0;
                              traffic_total := Num 0 |} |} |}.

(** Two answers "stopped", then "running". *)
Definition runningThird (k : nat) : Response InstanceState :=
  if (k <? 2)%nat then Resolved 200 (Some Demo.stoppedState)
  else Resolved 200 (Some (withMemory "1048576")).

(** A rejection that carries no response, and two pending answers
    followed by it. *)
Definition networkError : Error :=
  {| response_status := None; response_message := None;
     Host.message := "Network Error";
     printed := "AxiosError: Network Error" |}.

Definition dropsThird (k : nat) : Response Tracker.CommandResult :=
  if (k <? 2)%nat then Rejected Demo.stillPending else Rejected networkError.

(** Two pending answers, then the output. *)
Definition doneThird (k : nat) : Response Tracker.CommandResult :=
  if (k <? 2)%nat then Rejected Demo.stillPending
  else Resolved 200 (Some {| Tracker.output := Some "ok" |}).

Definition evo1 : CatalogPlan :=
  {| p_id := 7; p_name := "evo-1"; p_cpu := 1; p_memory := 1024;
     p_disk := 10;
     p_os := [{| os_id := 3; os_name := "Debian 12" |};
              {| os_id := 4; os_name := "Alpine" |}] |}.

End Cases.

(* ================================================================== *)
(** * Predicates and tactics of the proofs *)
(* ================================================================== *)

Import Wizard.

#[local] Open Scope list_scope.

#[local] Ltac not_back sel H :=
  destruct sel as [[|? ?]|]; [exfalso; apply H; reflexivity| |].

(** Unfolding the handlers by value keeps the nested record updates small. *)
#[local] Ltac open_wizard :=
  cbv beta iota zeta delta
    [Wizard.updateView Wizard.onDidHide Wizard.onDidAccept Wizard.dispatch
     Wizard.result resolve hide show dispose act set_items set_value set_step
     with_quickPick with_errorMessage with_currentStep with_plan
     with_isCompleted thisPlan currentStep errorMessage isCompleted settled
     quickPick trace step items value visible disposed
     chosen_description description label is_backItem negb] in *.

(** Arithmetic on the indices of concrete steps. *)
#[local] Ltac calc_steps :=
  cbv beta iota delta
    [index decrement Z.ltb Z.eqb Z.leb Z.add Z.compare Pos.compare
     Pos.compare_cont Pos.eqb Pos.add Pos.succ orb andb negb] in *.

#[local] Ltac split_matches :=
  repeat (match goal with
          | |- context [find ?f ?l] => destruct (find f l)
          | |- context [p_os ?x] => destruct (p_os x)
          | |- context [match ?r with Some _ => _ | None => _ end] =>
              is_var r; destruct r
          | |- context [if ?b then _ else _] => is_var b; destruct b
          end; open_wizard).

#[local] Arguments Z_to_string : simpl never.
#[local] Arguments Number : simpl never.
#[local] Arguments parseInt : simpl never.
#[local] Arguments parseFloat : simpl never.
#[local] Arguments trim : simpl never.
#[local] Arguments Wizard.timeError : simpl never.
#[local] Arguments Service.formatMemory : simpl never.
#[local] Arguments Service.bytesToGB : simpl never.

(** What a run from the first step keeps true: every step before the
    current one has been passed, and a completed resolution means all
    five have. *)
Definition passed (log : list (CreateInstanceStep * Event))
  (s : CreateInstanceStep) : Prop :=
  Replay.last_at s log <> None.

Definition on_track (st : State) (log : list (CreateInstanceStep * Event))
  : Prop :=
  index (currentStep st) <= 4 /\
  (forall s, index s < index (currentStep st) -> passed log s) /\
  (forall r, settled st = Some r -> r_status r = completed ->
             r = {| r_status := completed; r_plan := thePlan;
                    r_message := None |}
             /\ forall s, index s <= 4 -> passed log s).

(** The wizard is at step [s], not yet settled, with request [p]. *)
Definition at_step (st : State) (s : CreateInstanceStep) (p : Plan) : Prop :=
  currentStep st = s /\ thisPlan st = p /\ settled st = None /\
  disposed (quickPick st) = false.

(** The plans a refresh keeps: all of them, or those on the allow-list
    that came with the permissions. *)
Definition offered (perms : option Service.RawPermissions)
  (plans : list Service.RawPlan) : list Service.RawPlan :=
  match perms with
  | Some p =>
      match Service.raw_allow_packages p with
      | Some (String c s) =>
          filter (fun plan => Service.includes
                                (Service.split_bar (String c s))
                                (Z_to_string (Service.raw_id plan))) plans
      | _ => plans
      end
  | None => plans
  end.

(** Shapes of strings used in the lemmas on parsing. *)
Definition no_digit_ahead (r : string) : Prop :=
  match r with
  | String c _ => digit c = None
  | EmptyString => True
  end.

Fixpoint spaceless (s : string) : bool :=
  match s with
  | String c r => (negb (is_space c) && spaceless r)%bool
  | EmptyString => true
  end.

(** A memory figure of [kB] kilobytes, in gigabytes: [h] hundredths is
    the nearest to it (the upper one of two that are as near), and a
    number of hundredths is printed with two decimals. *)
Definition nearest_hundredth_GB (kB h : Z) : Prop :=
  1048576 * (2 * h - 1) <= 200 * kB < 1048576 * (2 * h + 1).

Definition two_decimals (h : Z) : string :=
  Z_to_string (h / 100) ++ "."
  ++ Z_to_string (h mod 100 / 10) ++ Z_to_string (h mod 10).

(** The inputs the duration step is to refuse when the maximum is [m]:
    "0", "-1", "abc", "3.5" and the decimal form of an integer above [m]. *)
Definition refused_duration (m : Z) (input : string) : Prop :=
  In input ["0"; "-1"; "abc"; "3.5"]
  \/ exists n, m < n /\ input = Z_to_string n.

(* ================================================================== *)
(** * Facts about the JavaScript primitives *)
(* ================================================================== *)

Lemma span_digits_print (u : uint) (r : string) :
  no_digit_ahead r ->
  span_digits (NilEmpty.string_of_uint u ++ r) = (u, r).
Proof.
  intros Hr. induction u; simpl; try (rewrite IHu; reflexivity).
  destruct r as [|c r]; simpl in *; [reflexivity|]. now rewrite Hr.
Qed.

Lemma span_digits_print_all (u : uint) :
  span_digits (NilEmpty.string_of_uint u) = (u, EmptyString).
Proof.
  induction u; simpl; try (rewrite IHu; reflexivity). reflexivity.
Qed.

Lemma spaceless_print (u : uint) : spaceless (NilEmpty.string_of_uint u) = true.
Proof. induction u; simpl; auto. Qed.

Lemma trimStart_spaceless (s : string) : spaceless s = true -> trimStart s = s.
Proof.
  destruct s as [|c r]; simpl; [reflexivity|].
  intros H. apply andb_prop in H as [H _].
  now destruct (is_space c).
Qed.

Lemma trimEnd_spaceless (s : string) : spaceless s = true -> trimEnd s = s.
Proof.
  induction s as [|c r IH]; simpl; [reflexivity|].
  intros H. apply andb_prop in H as [Hc Hr].
  rewrite (IH Hr). destruct r; [|reflexivity].
  now destruct (is_space c).
Qed.

Lemma trim_spaceless (s : string) : spaceless s = true -> trim s = s.
Proof.
  intros H. unfold trim. rewrite (trimStart_spaceless _ H).
  now apply trimEnd_spaceless.
Qed.

(** The digits of an integer: never the empty list. *)
Lemma to_int_digits (z : Z) :
  exists u, u <> Nil /\
    (Z.to_int z = Pos u \/ Z.to_int z = Neg u).
Proof.
  destruct z as [|p|p]; simpl.
  - exists (D0 Nil). split; [discriminate|now left].
  - exists (Pos.to_uint p). split; [apply DecimalPos.Unsigned.to_uint_nonnil|now left].
  - exists (Pos.to_uint p). split; [apply DecimalPos.Unsigned.to_uint_nonnil|now right].
Qed.

Lemma NilZero_print (u : uint) :
  u <> Nil -> NilZero.string_of_uint u = NilEmpty.string_of_uint u.
Proof. destruct u; simpl; congruence. Qed.

Lemma spaceless_Z_to_string (z : Z) : spaceless (Z_to_string z) = true.
Proof.
  unfold Z_to_string.
  destruct (to_int_digits z) as (u & Hu & [E|E]); rewrite E; simpl;
    rewrite (NilZero_print _ Hu); try apply spaceless_print.
Qed.

Lemma trim_Z_to_string (z : Z) : trim (Z_to_string z) = Z_to_string z.
Proof. apply trim_spaceless, spaceless_Z_to_string. Qed.

Lemma head_print (u : uint) :
  u <> Nil ->
  exists c r, NilEmpty.string_of_uint u = String c r /\ digit c <> None.
Proof.
  destruct u; intros H; try congruence; simpl; eexists; eexists;
    (split; [reflexivity|discriminate]).
Qed.

Lemma sign_digit (c : ascii) (r : string) :
  digit c <> None -> sign (String c r) = (false, String c r).
Proof.
  intros H. unfold sign.
  destruct c as [[|] [|] [|] [|] [|] [|] [|] [|]]; try reflexivity;
    exfalso; apply H; reflexivity.
Qed.

Lemma sign_print (u : uint) :
  u <> Nil ->
  sign (NilEmpty.string_of_uint u) = (false, NilEmpty.string_of_uint u).
Proof.
  intros H. destruct (head_print u H) as (c & r & E & Hc).
  rewrite E. now apply sign_digit.
Qed.

Lemma parseInt_print (d : int) :
  (match d with Pos u | Neg u => u <> Nil end) ->
  parseInt (NilZero.string_of_int d) = Num (Z.of_int d).
Proof.
  unfold parseInt. destruct d as [u|u]; intros Hu; simpl;
    rewrite (NilZero_print _ Hu).
  - rewrite trimStart_spaceless by apply spaceless_print.
    rewrite (sign_print _ Hu), span_digits_print_all.
    destruct u; try congruence; reflexivity.
  - rewrite span_digits_print_all.
    destruct u; try congruence; reflexivity.
Qed.

(** [parseInt] reads back what [toString] prints. *)
Lemma parseInt_Z_to_string (z : Z) : parseInt (Z_to_string z) = Num z.
Proof.
  unfold Z_to_string. rewrite parseInt_print.
  - now rewrite DecimalZ.of_to.
  - destruct (to_int_digits z) as (u & Hu & [E|E]); now rewrite E.
Qed.

Lemma digit_not_letter (c : ascii) :
  digit c <> None ->
  Ascii.eqb c "x" = false /\ Ascii.eqb c "X" = false /\
  Ascii.eqb c "o" = false /\ Ascii.eqb c "O" = false /\
  Ascii.eqb c "b" = false /\ Ascii.eqb c "B" = false /\
  Ascii.eqb c "." = false /\ Ascii.eqb c "e" = false /\
  Ascii.eqb c "E" = false.
Proof.
  intros H.
  destruct c as [[|] [|] [|] [|] [|] [|] [|] [|]];
    try (exfalso; apply H; reflexivity); repeat split.
Qed.

Lemma not_Infinity (c : ascii) (r : string) :
  digit c <> None -> starts_with "Infinity" (String c r) = false.
Proof.
  intros H.
  destruct c as [[|] [|] [|] [|] [|] [|] [|] [|]];
    try (exfalso; apply H; reflexivity); reflexivity.
Qed.

Lemma non_decimal_digits (c0 c1 : ascii) (r : string) :
  digit c1 <> None -> non_decimal (String c0 (String c1 r)) = None.
Proof.
  intros H. destruct (digit_not_letter c1 H) as (E1 & E2 & E3 & E4 & E5 & E6 & _).
  unfold non_decimal. destruct r as [|d r].
  - destruct c0 as [[|] [|] [|] [|] [|] [|] [|] [|]]; reflexivity.
  - cbv zeta. rewrite E1, E2, E3, E4, E5, E6. simpl.
    destruct c0 as [[|] [|] [|] [|] [|] [|] [|] [|]]; reflexivity.
Qed.

Lemma non_decimal_short (c : ascii) : non_decimal (String c EmptyString) = None.
Proof. destruct c as [[|] [|] [|] [|] [|] [|] [|] [|]]; reflexivity. Qed.

Lemma non_decimal_print (u : uint) :
  non_decimal (NilEmpty.string_of_uint u) = None.
Proof.
  destruct u as [|v|v|v|v|v|v|v|v|v|v]; try reflexivity.
  destruct v as [|w|w|w|w|w|w|w|w|w|w];
    [reflexivity
    |apply (non_decimal_digits "0" _ (NilEmpty.string_of_uint w));
     discriminate ..].
Qed.

Lemma non_decimal_minus (s : string) : non_decimal (String "-" s) = None.
Proof. reflexivity. Qed.

Lemma StrDecimalLiteral_digits (neg : bool) (u : uint) :
  u <> Nil ->
  (let (ip, r1) := span_digits (NilEmpty.string_of_uint u) in
   let (fp, r2) := match r1 with
                   | String "." r => span_digits r
                   | _ => (Nil, r1)
                   end in
   if (is_nil ip && is_nil fp)%bool then None
   else let (e, r3) := exponent_part r2 in
        Some (decimal (signed neg (Z.of_uint (app ip fp)))
                      (e - Z.of_nat (nb_digits fp)), r3))
  = Some (Num (signed neg (Z.of_uint u)), EmptyString).
Proof.
  intros Hu. rewrite span_digits_print_all. simpl.
  replace (is_nil u) with false by (destruct u; congruence || reflexivity).
  simpl. rewrite DecimalFacts.app_nil_r.
  unfold decimal. simpl. now rewrite Z.mul_1_r.
Qed.

Lemma StrDecimalLiteral_print (d : int) :
  (match d with Pos u | Neg u => u <> Nil end) ->
  StrDecimalLiteral (NilZero.string_of_int d) = Some (Num (Z.of_int d), EmptyString).
Proof.
  unfold StrDecimalLiteral. destruct d as [u|u]; intros Hu; simpl;
    rewrite (NilZero_print _ Hu).
  - rewrite (sign_print _ Hu).
    destruct (head_print u Hu) as (c & r & E & Hc).
    rewrite E, (not_Infinity c r Hc), <- E.
    apply (StrDecimalLiteral_digits false u Hu).
  - destruct (head_print u Hu) as (c & r & E & Hc).
    rewrite E, (not_Infinity c r Hc), <- E.
    apply (StrDecimalLiteral_digits true u Hu).
Qed.

Lemma Z_to_string_wf (z : Z) :
  match Z.to_int z with Pos u | Neg u => u <> Nil end.
Proof. destruct (to_int_digits z) as (u & Hu & [E|E]); now rewrite E. Qed.

(** [parseFloat] reads back what [toString] prints. *)
Lemma parseFloat_Z_to_string (z : Z) : parseFloat (Z_to_string z) = Num z.
Proof.
  unfold parseFloat.
  rewrite trimStart_spaceless by apply spaceless_Z_to_string.
  unfold Z_to_string. rewrite StrDecimalLiteral_print by apply Z_to_string_wf.
  now rewrite DecimalZ.of_to.
Qed.

Lemma Z_to_string_nonempty (z : Z) :
  exists c r, Z_to_string z = String c r.
Proof.
  unfold Z_to_string.
  destruct (to_int_digits z) as (u & Hu & [E|E]); rewrite E; simpl.
  - rewrite (NilZero_print _ Hu).
    destruct (head_print u Hu) as (c & r & E' & _). eauto.
  - eauto.
Qed.

Lemma non_decimal_Z_to_string (z : Z) : non_decimal (Z_to_string z) = None.
Proof.
  unfold Z_to_string.
  destruct (to_int_digits z) as (u & Hu & [E|E]); rewrite E; simpl.
  - rewrite (NilZero_print _ Hu). apply non_decimal_print.
  - reflexivity.
Qed.

(** [Number] reads back what [toString] prints. *)
Lemma Number_Z_to_string (z : Z) : Number (Some (Z_to_string z)) = Num z.
Proof.
  unfold Number, Number_of_string. rewrite trim_Z_to_string.
  destruct (Z_to_string_nonempty z) as (c & r & E).
  rewrite E at 1. rewrite non_decimal_Z_to_string.
  unfold Z_to_string. rewrite StrDecimalLiteral_print by apply Z_to_string_wf.
  now rewrite DecimalZ.of_to.
Qed.

Lemma strict_eq_Num (a b : Z) : strict_eq (Num a) (Num b) = (a =? b).
Proof.
  unfold strict_eq, Num, Qeq_bool. simpl. now rewrite !Z.mul_1_r.
Qed.

Lemma gt_Num (a b : Z) : gt (Num a) (Num b) = (b <? a).
Proof.
  unfold gt, lt, Num, Qle_bool. simpl. rewrite !Z.mul_1_r.
  rewrite Z.ltb_antisym. reflexivity.
Qed.

Lemma lt_Num (a b : Z) : lt (Num a) (Num b) = (a <? b).
Proof. apply (gt_Num b a). Qed.

Lemma le0_Num (a : Z) : le0 (Num a) = (a <=? 0).
Proof. unfold le0, Num, Qle_bool. simpl. now rewrite Z.mul_1_r. Qed.

(* ================================================================== *)
(** * The create-instance wizard *)
(* ================================================================== *)

Section WizardFacts.

Variable CONFIG : Config.
Variable getScriptList : string -> option (list QuickPickItem).

#[local] Abbreviation updateView := (Wizard.updateView CONFIG getScriptList).
#[local] Abbreviation onDidAccept := (Wizard.onDidAccept CONFIG getScriptList).
#[local] Abbreviation onDidHide := Wizard.onDidHide.
#[local] Abbreviation dispatch := (Wizard.dispatch CONFIG getScriptList).
#[local] Abbreviation run := (Wizard.run CONFIG getScriptList).
#[local] Abbreviation timeError := (Wizard.timeError CONFIG).

Lemma timeError_integer (m n : Z) :
  max_time (evoPermissions CONFIG) = Num m ->
  timeError (Z_to_string n) =
    if n <=? 0 then Some [Lit "请输入有效的正整数时间"]
    else if m <? n then Some [Lit "时长不能超过 "; Interp (Num m); Lit " 小时"]
    else None.
Proof.
  intros Hmax. unfold Wizard.timeError.
  rewrite trim_Z_to_string, parseInt_Z_to_string, parseFloat_Z_to_string.
  rewrite Hmax, le0_Num, strict_eq_Num, gt_Num, Z.eqb_refl. simpl.
  reflexivity.
Qed.

(** Whatever the validation assigned, the re-render that follows clears
    it: [updateView] resets [errorMessage] before it shows the step. *)
Lemma updateView_clears_errorMessage (st : State) :
  errorMessage (updateView st) = None.
Proof.
  destruct st as [p s e c r q t]; destruct s; open_wizard; split_matches;
    reflexivity.
Qed.

(** Rendering starts by resetting [errorMessage]: whatever was assigned
    before the call plays no part in what is rendered. *)
Lemma updateView_forgets_errorMessage (st : State) (m : option text) :
  updateView (with_errorMessage m st) = updateView st.
Proof. destruct st as [p s e c r q t]. reflexivity. Qed.

(** What the handler does with an input that the validation refuses:
    it assigns the message and renders the step again. *)
Lemma rejected_stays (sel : option QuickPickItem) (input : string)
  (st : State) (e : text) :
  currentStep st = EnterTime ->
  sel <> Some backItem ->
  timeError input = Some e ->
  let st' := onDidAccept sel input st in
  st' = updateView (with_errorMessage (Some e) st) /\
  currentStep st' = EnterTime /\ thisPlan st' = thisPlan st /\
  settled st' = settled st /\ errorMessage st' = None /\
  trace st' = trace st ++ [Show EnterTime].
Proof.
  intros Hs Hsel He. destruct st as [p s em c r q t]. simpl in Hs. subst s.
  not_back sel Hsel; unfold Wizard.onDidAccept; simpl; rewrite He; simpl;
    repeat split.
Qed.

Lemma accepted_advances (sel : option QuickPickItem) (input : string)
  (st : State) :
  currentStep st = EnterTime ->
  sel <> Some backItem ->
  timeError input = None ->
  let st' := onDidAccept sel input st in
  currentStep st' = SelectSSHKey /\
  thisPlan st' = with_time (parseInt (trim input)) (thisPlan st) /\
  settled st' = settled st /\
  trace st' = trace st ++ [Show SelectSSHKey].
Proof.
  intros Hs Hsel He. destruct st as [p s em c r q t]. simpl in Hs. subst s.
  not_back sel Hsel; unfold Wizard.onDidAccept; simpl; rewrite He; simpl;
    repeat split.
Qed.

(** C1.  The duration step of the wizard, with a maximum [m] below
    2^53.  The validation tells the refused inputs apart: "0", "-1" and
    "abc" are not a positive integer, "3.5" is not an integer, every
    integer above [m] is too long (not positive when it is not), three
    different texts.  For each of these inputs the handler assigns the
    text to [errorMessage], renders the step again and so stays on the
    duration step with the request untouched.  But the first thing the
    render does is to reset [errorMessage], and nothing reads it in
    between (the title and the placeholder of the step are made of the
    step and of the maximum alone): the state after a refused input is
    the state of a plain render, it carries no message, and it is the
    same for "3.5" as for an integer above the maximum.  Every integer
    from 1 to [m], written in decimal, is accepted: the wizard moves to
    the SSH-key step, rendered once, with the integer in [time]. *)
Theorem duration_step_validation (m : Z) :
  max_time (evoPermissions CONFIG) = Num m ->
  m < 2 ^ 53 ->
  let notPositive := [Lit "请输入有效的正整数时间"] in
  let notInteger := [Lit "请输入整数，不支持小数"] in
  let tooLong := [Lit "时长不能超过 "; Interp (Num m); Lit " 小时"] in
  (timeError "0" = Some notPositive /\
   timeError "-1" = Some notPositive /\
   timeError "abc" = Some notPositive /\
   timeError "3.5" = Some notInteger /\
   (forall n, m < n ->
      timeError (Z_to_string n) = Some (if n <=? 0 then notPositive else tooLong))) /\
  (notInteger <> tooLong /\ notPositive <> tooLong /\ notPositive <> notInteger) /\
  (forall sel input st,
      currentStep st = EnterTime -> sel <> Some backItem ->
      refused_duration m input ->
      let st' := onDidAccept sel input st in
      exists e,
        timeError input = Some e /\
        errorMessage (with_errorMessage (Some e) st) = Some e /\
        st' = updateView (with_errorMessage (Some e) st) /\
        currentStep st' = EnterTime /\ thisPlan st' = thisPlan st /\
        settled st' = settled st /\
        trace st' = trace st ++ [Show EnterTime] /\
        errorMessage st' = None /\
        st' = updateView st) /\
  (forall sel n st,
      currentStep st = EnterTime -> sel <> Some backItem ->
      m < n -> 0 < n ->
      timeError "3.5" <> timeError (Z_to_string n) /\
      onDidAccept sel "3.5" st = onDidAccept sel (Z_to_string n) st) /\
  (forall n sel st,
      1 <= n <= m ->
      currentStep st = EnterTime -> sel <> Some backItem ->
      let st' := onDidAccept sel (Z_to_string n) st in
      timeError (Z_to_string n) = None /\
      currentStep st' = SelectSSHKey /\
      thisPlan st' = with_time (Num n) (thisPlan st) /\
      trace st' = trace st ++ [Show SelectSSHKey]).
Proof.
  intros Hmax _ notPositive notInteger tooLong.
  assert (Hover : forall n, m < n ->
            timeError (Z_to_string n)
            = Some (if n <=? 0 then notPositive else tooLong)).
  { intros n Hn. rewrite (timeError_integer m n Hmax).
    destruct (n <=? 0); [reflexivity|].
    apply Z.ltb_lt in Hn. now rewrite Hn. }
  assert (Hrefused : forall input, refused_duration m input ->
            exists e, timeError input = Some e).
  { intros input [[<-|[<-|[<-|[<-|[]]]]]|(n & Hn & ->)];
      try (eexists; reflexivity).
    eexists. exact (Hover n Hn). }
  split; [|split; [|split; [|split]]].
  - repeat split; try reflexivity. exact Hover.
  - repeat split; discriminate.
  - intros sel input st Hs Hsel Hin. cbv zeta.
    destruct (Hrefused input Hin) as (e & He). exists e.
    destruct (rejected_stays sel input st e Hs Hsel He)
      as (A & B & C & D & E & F).
    split; [exact He|]. split; [destruct st; reflexivity|].
    split; [exact A|]. split; [exact B|]. split; [exact C|].
    split; [exact D|]. split; [exact F|]. split; [exact E|].
    rewrite A. apply updateView_forgets_errorMessage.
  - intros sel n st Hs Hsel Hn Hpos.
    assert (H35 : timeError "3.5" = Some notInteger) by reflexivity.
    assert (Hn' : timeError (Z_to_string n) = Some tooLong).
    { rewrite (Hover n Hn). destruct (Z.leb_spec n 0); [lia|reflexivity]. }
    split; [rewrite H35, Hn'; discriminate|].
    destruct (rejected_stays sel "3.5" st _ Hs Hsel H35) as (A & _).
    destruct (rejected_stays sel (Z_to_string n) st _ Hs Hsel Hn') as (B & _).
    cbv zeta in A, B. rewrite A, B.
    now rewrite !updateView_forgets_errorMessage.
  - intros n sel st Hn Hs Hsel.
    assert (He : timeError (Z_to_string n) = None).
    { rewrite (timeError_integer m n Hmax).
      destruct (Z.leb_spec n 0); [lia|].
      destruct (Z.ltb_spec m n); [lia|reflexivity]. }
    destruct (accepted_advances sel _ st Hs Hsel He) as (A & B & _ & D).
    rewrite trim_Z_to_string, parseInt_Z_to_string in B.
    repeat split; assumption.
Qed.

(** C8.  Started without the permission flag, or with the flag and an
    empty plan catalog, the wizard shows an error dialog and returns an
    error result: no quick pick is created, so no step is rendered.  The
    message names the permission in the first case (also when both
    hold) and the plans in the second. *)
Theorem start_guards (default_plan : option Plan) (recheck : bool) :
  hasEvoPermission CONFIG = false \/ planList CONFIG = [] ->
  exists dialog,
    createInstanceMultiStep CONFIG getScriptList default_plan recheck
    = Refused
        (ShowErrorMessage dialog
           :: (if recheck then [CallUpdateConfig flag_all] else []))
        {| status := error; plan := None;
           message := Some [Lit (if hasEvoPermission CONFIG
                                 then "没有可用的 Plan"
                                 else "没有 EVO 权限")] |}.
Proof.
  unfold createInstanceMultiStep.
  intros [H|H]; rewrite H; simpl; eauto.
  destruct (hasEvoPermission CONFIG); simpl; eauto.
Qed.

(** The wizard opens only with the permission and a plan to choose. *)
Lemma opened_only_with_permission (default_plan : option Plan)
  (recheck : bool) (st : State) :
  createInstanceMultiStep CONFIG getScriptList default_plan recheck
  = Opened st ->
  hasEvoPermission CONFIG = true /\ planList CONFIG <> [].
Proof.
  unfold createInstanceMultiStep.
  destruct (hasEvoPermission CONFIG); simpl; [|discriminate].
  destruct (planList CONFIG); [discriminate|].
  intros _. split; [reflexivity|discriminate].
Qed.

(** ** Back and forward *)

#[local] Abbreviation forward_log := (Replay.forward_log CONFIG getScriptList).

Lemma completions_act (a : Act) (st : State) :
  Replay.completions (act a st)
  = (Replay.completions st + (if Replay.is_completed a then 1 else 0))%nat.
Proof.
  unfold Replay.completions, act. simpl.
  rewrite filter_app, length_app. simpl.
  destruct (Replay.is_completed a); reflexivity.
Qed.

(** Rendering touches neither the request, nor the step, nor the flag. *)
Lemma updateView_inert (st : State) :
  thisPlan (updateView st) = thisPlan st /\
  currentStep (updateView st) = currentStep st /\
  isCompleted (updateView st) = isCompleted st /\
  Replay.completions (updateView st) = Replay.completions st /\
  disposed (quickPick (updateView st)) = disposed (quickPick st).
Proof.
  destruct st as [p s e c r q t]. unfold Replay.completions.
  destruct s; open_wizard; split_matches;
    rewrite ?filter_app, ?length_app; simpl; rewrite ?Nat.add_0_r;
    repeat split; reflexivity.
Qed.

Lemma thisPlan_updateView st : thisPlan (updateView st) = thisPlan st.
Proof. apply updateView_inert. Qed.
Lemma currentStep_updateView st : currentStep (updateView st) = currentStep st.
Proof. apply updateView_inert. Qed.
Lemma isCompleted_updateView st : isCompleted (updateView st) = isCompleted st.
Proof. apply updateView_inert. Qed.
Lemma completions_updateView st :
  Replay.completions (updateView st) = Replay.completions st.
Proof. apply updateView_inert. Qed.

Lemma request_of_nil (p : Plan) : Replay.request_of [] p = p.
Proof. now destruct p. Qed.

Lemma last_at_app s (l1 l2 : list (CreateInstanceStep * Event)) :
  Replay.last_at s (l1 ++ l2)
  = match Replay.last_at s l2 with
    | Some ev => Some ev
    | None => Replay.last_at s l1
    end.
Proof.
  induction l1 as [|[s' ev] l1 IH]; simpl.
  - now destruct (Replay.last_at s l2).
  - rewrite IH. now destruct (Replay.last_at s l2).
Qed.

Lemma request_of_app (l1 l2 : list (CreateInstanceStep * Event)) (p : Plan) :
  Replay.request_of (l1 ++ l2) p
  = Replay.request_of l2 (Replay.request_of l1 p).
Proof.
  unfold Replay.request_of. rewrite !last_at_app. simpl.
  f_equal;
    match goal with
    | |- context [Replay.last_at ?s l2] => now destruct (Replay.last_at s l2)
    end.
Qed.

Lemma ltb_succ (n : nat) : Nat.ltb n (n + 1) = true.
Proof. apply Nat.ltb_lt. lia. Qed.

(** One event: the request changes exactly when the event is a forward
    transition, and then by the value entered at the current step. *)
Lemma dispatch_request (st : State) (ev : Event) :
  let st' := dispatch st ev in
  thisPlan st'
  = Replay.request_of
      (if Replay.forward st st' then [(currentStep st, ev)] else [])
      (thisPlan st).
Proof.
  destruct st as [p s e c r [qs qi qv qvis qd] t].
  cbv [Replay.forward Replay.completions]. open_wizard.
  destruct qd.
  { rewrite Nat.ltb_irrefl.
    replace (index s =? index s + 1) with false
      by (symmetry; apply Z.eqb_neq; lia).
    simpl. now rewrite request_of_nil. }
  destruct ev as [sel input|].
  2:{ destruct c, r; open_wizard;
        rewrite ?filter_app, ?length_app; cbn [filter Replay.is_completed List.length];
        rewrite ?Nat.add_0_r, Nat.ltb_irrefl;
        (replace (index s =? index s + 1) with false
           by (symmetry; apply Z.eqb_neq; lia));
        simpl; now rewrite request_of_nil. }
  destruct sel as [[|l d]|]; destruct s; calc_steps; open_wizard;
    try destruct d as [[|ch d]|]; open_wizard;
    repeat match goal with
      | |- context [Wizard.timeError ?c ?i] => destruct (Wizard.timeError c i)
      end;
    destruct r; open_wizard; split_matches;
    rewrite ?filter_app, ?length_app;
    cbn [filter Replay.is_completed List.length r_status];
    rewrite ?Nat.add_0_r, ?ltb_succ, ?Nat.ltb_irrefl;
    try (now rewrite request_of_nil);
    try (destruct p; reflexivity).
Qed.

Lemma run_request (st : State) (evs : list Event) :
  thisPlan (run st evs)
  = Replay.request_of (forward_log st evs) (thisPlan st).
Proof.
  unfold Wizard.run. revert st.
  induction evs as [|ev evs IH]; intros st;
    cbn [fold_left Replay.forward_log].
  - now rewrite request_of_nil.
  - pose proof (dispatch_request st ev) as H. cbv zeta in H.
    rewrite request_of_app, <- H. apply IH.
Qed.

Lemma dispatch_on_track (st : State) (ev : Event)
  (log : list (CreateInstanceStep * Event)) :
  on_track st log ->
  on_track (dispatch st ev)
    (log ++ (if Replay.forward st (dispatch st ev)
             then [(currentStep st, ev)] else [])).
Proof.
  unfold on_track, passed.
  destruct st as [p s e c r [qs qi qv qvis qd] t].
  cbv [Replay.forward Replay.completions]. open_wizard.
  intros (H0 & H1 & H2).
  destruct qd.
  { rewrite Nat.ltb_irrefl.
    replace (index s =? index s + 1) with false
      by (symmetry; apply Z.eqb_neq; lia).
    simpl. rewrite app_nil_r. auto. }
  destruct ev as [sel input|].
  2:{ destruct c, r; open_wizard;
        rewrite ?filter_app, ?length_app;
        cbn [filter Replay.is_completed List.length];
        rewrite ?Nat.add_0_r, Nat.ltb_irrefl;
        (replace (index s =? index s + 1) with false
           by (symmetry; apply Z.eqb_neq; lia));
        cbn [orb]; rewrite app_nil_r;
        (split; [exact H0|split; [exact H1|]]);
        intros r0 E Hc;
        first [ exact (H2 r0 E Hc)
              | inversion E; subst r0; discriminate Hc ]. }
  destruct sel as [[|l d]|]; destruct s; calc_steps; open_wizard;
    try destruct d as [[|ch d]|]; open_wizard;
    repeat match goal with
      | |- context [Wizard.timeError ?c ?i] => destruct (Wizard.timeError c i)
      end;
    destruct r; open_wizard; split_matches;
    rewrite ?filter_app, ?length_app;
    cbn [filter Replay.is_completed List.length r_status];
    rewrite ?Nat.add_0_r, ?ltb_succ, ?Nat.ltb_irrefl;
    rewrite ?app_nil_r;
    (split; [lia|]);
    (split;
     [ intros s0 Hs; rewrite ?last_at_app;
       destruct s0; cbn in Hs |- *; try lia; try discriminate;
       try (apply H1; cbn; lia)
     | intros r0 E Hc;
       first
         [ discriminate E
         | inversion E; subst r0; discriminate Hc
         | destruct (H2 r0 E Hc) as [A B]; split; [exact A|];
           intros s0 Hs; rewrite ?last_at_app;
           destruct s0; cbn in Hs |- *; try lia; try discriminate;
           try (apply B; cbn; lia);
           match goal with
           | |- context [Replay.last_at ?x log] =>
               let El := fresh in
               destruct (Replay.last_at x log) eqn:El;
               [discriminate|exfalso; apply (B x); [cbn; lia|exact El]]
           end
         | inversion E; subst r0; split; [reflexivity|];
           intros s0 Hs; rewrite ?last_at_app;
           destruct s0; cbn in Hs |- *; try lia; try discriminate;
           try (apply H1; cbn; lia) ] ]).
Qed.

Lemma run_on_track (st : State) (evs : list Event)
  (log : list (CreateInstanceStep * Event)) :
  on_track st log -> on_track (run st evs) (log ++ forward_log st evs).
Proof.
  revert st log. induction evs as [|ev evs IH]; intros st log H; simpl.
  - now rewrite app_nil_r.
  - rewrite app_assoc. apply IH. now apply dispatch_on_track.
Qed.

Lemma fresh_on_track (default_plan : option Plan) :
  on_track (updateView (Wizard.fresh default_plan)) [].
Proof.
  unfold on_track. rewrite currentStep_updateView. simpl.
  split; [lia|]. split.
  - intros s Hs. destruct s; simpl in Hs; lia.
  - unfold Wizard.updateView. simpl. discriminate.
Qed.

Lemma request_of_seedless (log : list (CreateInstanceStep * Event))
  (seed seed' : Plan) :
  (forall s, index s <= 4 -> passed log s) ->
  Replay.request_of log seed = Replay.request_of log seed'.
Proof.
  intros H. unfold Replay.request_of.
  pose proof (H SelectPlan) as H0. pose proof (H SelectOS) as H1.
  pose proof (H EnterTime) as H2. pose proof (H SelectSSHKey) as H3.
  pose proof (H SelectBootScript) as H4. unfold passed in *. simpl in *.
  destruct (Replay.last_at SelectPlan log); [|exfalso; apply H0; [lia|reflexivity]].
  destruct (Replay.last_at SelectOS log); [|exfalso; apply H1; [lia|reflexivity]].
  destruct (Replay.last_at EnterTime log); [|exfalso; apply H2; [lia|reflexivity]].
  destruct (Replay.last_at SelectSSHKey log); [|exfalso; apply H3; [lia|reflexivity]].
  destruct (Replay.last_at SelectBootScript log); [|exfalso; apply H4; [lia|reflexivity]].
  reflexivity.
Qed.

Lemma planItem_not_back (l : list CatalogPlan) :
  ~ In backItem (map (Wizard.planItem) l).
Proof. intros H. apply in_map_iff in H as (x & E & _). discriminate. Qed.

(** The back item: one step down, the request untouched; a no-op on the
    first step. *)
Lemma back_decrements (st : State) (input : string) :
  let st' := onDidAccept (Some backItem) input st in
  thisPlan st' = thisPlan st /\
  index (currentStep st')
  = (if 0 <? index (currentStep st) then index (currentStep st) - 1
     else index (currentStep st)) /\
  (currentStep st = SelectPlan -> st' = st).
Proof.
  unfold Wizard.onDidAccept.
  destruct (0 <? index (currentStep st)) eqn:E.
  - rewrite thisPlan_updateView, currentStep_updateView. simpl.
    repeat split.
    + destruct (currentStep st); simpl in *; try reflexivity; discriminate.
    + intros H. rewrite H in E. discriminate.
  - repeat split.
Qed.

(** Where the step is rendered, the back item is among the items on every
    step but the first. *)
Lemma back_offered (st : State) :
  index (currentStep st) <= 4 ->
  visible (quickPick (updateView st)) = true ->
  (In backItem (items (quickPick (updateView st)))
   <-> currentStep st <> SelectPlan).
Proof.
  destruct st as [p s e c r q t]. simpl.
  destruct s; simpl; try lia; intros _; open_wizard.
  - intros _. split; [intros H; destruct (planItem_not_back _ H)|congruence].
  - destruct (find _ _) as [pc|]; [destruct (p_os pc)|]; simpl;
      destruct r; simpl; try discriminate;
      intros _; (split; [discriminate|intros _; now left]).
  - intros _. split; [discriminate|intros _; now left].
  - intros _. split; [discriminate|intros _; now left].
  - intros _. split; [discriminate|intros _; now left].
Qed.

(** C3.  However the user goes back and forth, when the run ends
    completed the committed request is the one built from the forward
    transitions alone, with the value entered last at each step: all five
    steps have been passed, so nothing of the seed is left.  Going back
    takes the step index down by one and leaves the request as it is (a
    later forward transition overwrites the field), and the back item is
    among the rendered items of every step but the first. *)
Theorem back_and_forth (default_plan : option Plan) (evs : list Event)
  (r : Resolution) :
  let st0 := updateView (Wizard.fresh default_plan) in
  let log := forward_log st0 evs in
  settled (run st0 evs) = Some r ->
  r_status r = completed ->
  (Wizard.result (run st0 evs)
   = Some {| status := completed;
             plan := Some (Replay.request_of log Wizard.sentinel);
             message := None |}
   /\ (forall s, index s <= 4 -> Replay.last_at s log <> None)
   /\ (forall seed, Replay.request_of log seed
                    = Replay.request_of log Wizard.sentinel))
  /\ (forall st input,
        0 < index (currentStep st) ->
        let st' := onDidAccept (Some backItem) input st in
        index (currentStep st') = index (currentStep st) - 1 /\
        thisPlan st' = thisPlan st)
  /\ (forall st,
        index (currentStep st) <= 4 ->
        visible (quickPick (updateView st)) = true ->
        (In backItem (items (quickPick (updateView st)))
         <-> currentStep st <> SelectPlan)).
Proof.
  intros st0 log Hr Hc.
  pose proof (run_on_track st0 evs [] (fresh_on_track default_plan)) as Ht.
  simpl in Ht. fold st0 in Ht. fold log in Ht.
  destruct Ht as (_ & _ & H3). destruct (H3 r Hr Hc) as [Er Hall].
  split; [|split].
  - split; [|split].
    + unfold Wizard.result. rewrite Hr, Er. simpl.
      rewrite run_request. fold log.
      now rewrite (request_of_seedless log _ Wizard.sentinel Hall).
    + exact Hall.
    + intros seed. now apply request_of_seedless.
  - intros st input Hpos.
    destruct (back_decrements st input) as (A & B & _).
    apply Z.ltb_lt in Hpos. rewrite Hpos in B. split; assumption.
  - apply back_offered.
Qed.

(** ** A complete run *)


Lemma find_offered (R : Z) :
  (exists pc, In pc (planList CONFIG) /\ p_id pc = R) ->
  (forall pc, In pc (planList CONFIG) -> p_id pc = R -> p_os pc <> []) ->
  exists pc o os,
    find (fun p => strict_eq (Num (p_id p)) (Num R)) (planList CONFIG)
    = Some pc /\ p_os pc = o :: os.
Proof.
  intros (pc & Hin & Hid) Hos.
  destruct (find (fun p => strict_eq (Num (p_id p)) (Num R)) (planList CONFIG))
    as [pc'|] eqn:E.
  - apply find_some in E as [Hin' Heq]. rewrite strict_eq_Num in Heq.
    apply Z.eqb_eq in Heq. specialize (Hos pc' Hin' Heq).
    destruct (p_os pc') as [|o os] eqn:Eo; [congruence|]. eauto.
  - apply (find_none _ _ E) in Hin. rewrite strict_eq_Num, Hid, Z.eqb_refl in Hin.
    discriminate.
Qed.

Lemma fresh_at_step (default_plan : option Plan) :
  at_step (updateView (Wizard.fresh default_plan)) SelectPlan
    (match default_plan with Some p => p | None => Wizard.sentinel end).
Proof. unfold at_step, Wizard.fresh. open_wizard. repeat split. Qed.

Lemma select_plan_step (st : State) (p : Plan) (l input : string) (R : Z) :
  (exists pc, In pc (planList CONFIG) /\ p_id pc = R) ->
  (forall pc, In pc (planList CONFIG) -> p_id pc = R -> p_os pc <> []) ->
  at_step st SelectPlan p ->
  at_step (dispatch st (Accept (Some (Item l (Some (Z_to_string R)))) input))
    SelectOS (with_id (Num R) p).
Proof.
  intros Hex Hos (Hs & Hp & Hr & Hd).
  destruct (find_offered R Hex Hos) as (pc & o & os & Hf & Ho).
  destruct (Z_to_string_nonempty R) as (ch & rest & E).
  pose proof (Number_Z_to_string R) as HN. rewrite E in HN.
  destruct st as [p0 s e c r [qs qi qv qvis qd] t].
  cbn in Hs, Hp, Hr, Hd. subst.
  unfold at_step. rewrite E. open_wizard.
  cbv [with_id id] in Hf |- *. rewrite HN. cbv [Num] in Hf |- *.
  rewrite Hf. open_wizard. rewrite Ho. open_wizard. repeat split.
Qed.

Lemma select_os_step (st : State) (p : Plan) (l input : string) (V : Z) :
  at_step st SelectOS p ->
  at_step (dispatch st (Accept (Some (Item l (Some (Z_to_string V)))) input))
    EnterTime (with_os (Num V) p).
Proof.
  intros (Hs & Hp & Hr & Hd).
  destruct (Z_to_string_nonempty V) as (ch & rest & E).
  pose proof (Number_Z_to_string V) as HN. rewrite E in HN.
  destruct st as [p0 s e c r [qs qi qv qvis qd] t].
  cbn in Hs, Hp, Hr, Hd. subst.
  unfold at_step. rewrite E. open_wizard. rewrite HN. repeat split.
Qed.

Lemma enter_time_step (st : State) (p : Plan) (input : string) :
  timeError input = None ->
  at_step st EnterTime p ->
  at_step (dispatch st (Accept None input))
    SelectSSHKey (with_time (parseInt (trim input)) p).
Proof.
  intros He (Hs & Hp & Hr & Hd).
  destruct st as [p0 s e c r [qs qi qv qvis qd] t].
  cbn in Hs, Hp, Hr, Hd. subst.
  unfold at_step. open_wizard. rewrite He. open_wizard. repeat split.
Qed.

(** "Use none" at the SSH-key step stores [NaN] and moves on. *)
Lemma no_key_step (st : State) (p : Plan) (l input : string) :
  at_step st SelectSSHKey p ->
  at_step (dispatch st (Accept (Some (Item l None)) input))
    SelectBootScript (with_sshKey NaN p).
Proof.
  intros (Hs & Hp & Hr & Hd).
  destruct st as [p0 s e c r [qs qi qv qvis qd] t].
  cbn in Hs, Hp, Hr, Hd. subst.
  unfold at_step. open_wizard. repeat split.
Qed.

(** "Use none" at the boot-script step stores the empty string and
    completes. *)
Lemma no_script_step (st : State) (p : Plan) (input : string) :
  at_step st SelectBootScript p ->
  Wizard.result
    (dispatch st (Accept (Some (Item "不使用启动脚本" None)) input))
  = Some {| status := completed; plan := Some (with_bootScript EmptyString p);
            message := None |}.
Proof.
  intros (Hs & Hp & Hr & Hd).
  destruct st as [p0 s e c r [qs qi qv qvis qd] t].
  cbn in Hs, Hp, Hr, Hd. subst.
  open_wizard. reflexivity.
Qed.

(** C6.  With the permission, a plan [R] in the catalog that has
    operating systems, and a maximum of at least 12 hours: choosing plan
    [R], OS [V], entering "12", choosing "no SSH key" and "no boot script"
    resolves the run as completed with the request
    [{id: R, os: V, time: 12, sshKey: NaN, bootScript: empty}], whatever the
    seed was.  The two "use none" items store the sentinel and move on. *)
Theorem complete_run (R V m : Z) (nameR nameV : string)
  (default_plan : option Plan) (recheck : bool) :
  hasEvoPermission CONFIG = true ->
  (exists pc, In pc (planList CONFIG) /\ p_id pc = R) ->
  (forall pc, In pc (planList CONFIG) -> p_id pc = R -> p_os pc <> []) ->
  max_time (evoPermissions CONFIG) = Num m ->
  12 <= m ->
  (exists st0,
     createInstanceMultiStep CONFIG getScriptList default_plan recheck
     = Opened st0 /\
     Wizard.result
       (run st0
          [Accept (Some (Item nameR (Some (Z_to_string R)))) EmptyString;
           Accept (Some (Item nameV (Some (Z_to_string V)))) EmptyString;
           Accept None "12";
           Accept (Some (Item "不使用 SSH Key" None)) EmptyString;
           Accept (Some (Item "不使用启动脚本" None)) EmptyString])
     = Some {| status := completed;
               plan := Some {| id := Num R; os := Num V; time := Num 12;
                               sshKey := NaN; bootScript := EmptyString |};
               message := None |})
  /\ (forall st p input,
        at_step st SelectSSHKey p ->
        at_step (dispatch st (Accept (Some (Item "不使用 SSH Key" None)) input))
          SelectBootScript (with_sshKey NaN p))
  /\ (forall st p input,
        at_step st SelectBootScript p ->
        Wizard.result
          (dispatch st (Accept (Some (Item "不使用启动脚本" None)) input))
        = Some {| status := completed; plan := Some (with_bootScript EmptyString p);
                  message := None |}).
Proof.
  intros Hperm Hex Hos Hmax Hm.
  split; [|split].
  - exists (updateView (Wizard.fresh default_plan)). split.
    + unfold createInstanceMultiStep. rewrite Hperm. simpl.
      destruct Hex as (pc & Hin & _).
      destruct (planList CONFIG); [destruct Hin|reflexivity].
    + assert (He : timeError "12" = None).
      { change "12" with (Z_to_string 12).
        rewrite (timeError_integer m 12 Hmax).
        destruct (Z.ltb_spec m 12); [lia|reflexivity]. }
      pose proof (fresh_at_step default_plan) as H0.
      pose proof (select_plan_step _ _ nameR EmptyString R Hex Hos H0) as H1.
      pose proof (select_os_step _ _ nameV EmptyString V H1) as H2.
      pose proof (enter_time_step _ _ "12" He H2) as H3.
      pose proof (no_key_step _ _ "不使用 SSH Key" EmptyString H3) as H4.
      pose proof (no_script_step _ _ EmptyString H4) as H5.
      simpl. exact H5.
  - intros st p input. apply no_key_step.
  - intros st p input. apply no_script_step.
Qed.

(** ** One resolution *)



Lemma run_disposed (st : State) (evs : list Event) :
  disposed (quickPick st) = true -> run st evs = st.
Proof.
  intros H. unfold Wizard.run.
  induction evs as [|ev evs IH]; cbn [fold_left]; [reflexivity|].
  replace (dispatch st ev) with st; [exact IH|].
  unfold Wizard.dispatch. now rewrite H.
Qed.


End WizardFacts.

(* ================================================================== *)
(** * The service: refresh, instance state, expiration *)
(* ================================================================== *)

Section RefreshFacts.

Variable convertTimezoneToLocal : string -> string.
Variable getClientId getSecret : option string.
Variable getDefaultPlan : option Plan.
Variable api : Service.Remote.

#[local] Abbreviation updateConfig :=
  (Service.updateConfig convertTimezoneToLocal getClientId getSecret
     getDefaultPlan api).
#[local] Abbreviation fetchPlanOS := (Service.fetchPlanOS api).

Lemma log_fold_emit (l : list Service.RawPlan) (r : Service.Run) :
  Service.cfg
    (fold_left (fun r plan =>
                  Service.emit (Call (GetPlanToOS (Service.raw_id plan))) r)
               l r)
  = Service.cfg r.
Proof. revert r. induction l; intros r; simpl; [reflexivity|]. now rewrite IHl. Qed.


(** C4.  A full refresh that gets the permissions and the plan list:
    each kept plan's OS list is what its own variant-catalog request
    gave, the empty list where that request was rejected, whatever
    became of the other plans' requests; the permission flag stays set;
    the SSH-key request is still made, and its keys stored. *)
Theorem refresh_isolates_failure (r : Service.Run)
  (perms : option Service.RawPermissions) (plans : list Service.RawPlan) :
  Service.nonempty_str getClientId = true ->
  Service.nonempty_str getSecret = true ->
  (forall e, Service.getInstanceList api = Rejected e ->
             has_status e 401 = false) ->
  Service.getEVOPermissions api = Resolved 200 perms ->
  Service.getPlanList api = Resolved 200 (Some plans) ->
  let r' := updateConfig flag_all r in
  planList (Service.cfg r') = map fetchPlanOS (offered perms plans)
  /\ (forall plan e,
        Service.getPlanToOS api (Service.raw_id plan) = Rejected e ->
        p_os (fetchPlanOS plan) = [])
  /\ (forall plan groups,
        Service.getPlanToOS api (Service.raw_id plan)
        = Resolved 200 (Some groups) ->
        let all_os := flat_map (fun g => match Service.os_list g with
                                         | Some l => l
                                         | None => []
                                         end) groups in
        p_os (fetchPlanOS plan)
        = match Service.raw_os plan with
          | Some s => filter (fun o => Service.includes (Service.split_bar s)
                                         (Z_to_string (os_id o))) all_os
          | None => all_os
          end)
  /\ hasEvoPermission (Service.cfg r') = true
  /\ In (Call GetSSHKeyList) (Service.log r')
  /\ (forall keys,
        Service.getSSHKeyList api = Resolved 200 (Some keys) ->
        sshKeyList (Service.cfg r')
        = map (Service.localKey convertTimezoneToLocal) keys).
Proof.
  intros Hid Hsec H401 Hperm Hplans r'.
  assert (Hfetch : forall plan e,
             Service.getPlanToOS api (Service.raw_id plan) = Rejected e ->
             p_os (fetchPlanOS plan) = []).
  { intros plan e E. unfold Service.fetchPlanOS. now rewrite E. }
  assert (Hpop : forall plan groups,
             Service.getPlanToOS api (Service.raw_id plan)
             = Resolved 200 (Some groups) ->
             p_os (fetchPlanOS plan)
             = match Service.raw_os plan with
               | Some s =>
                   filter (fun o => Service.includes (Service.split_bar s)
                                      (Z_to_string (os_id o)))
                     (flat_map (fun g => match Service.os_list g with
                                         | Some l => l
                                         | None => []
                                         end) groups)
               | None =>
                   flat_map (fun g => match Service.os_list g with
                                      | Some l => l
                                      | None => []
                                      end) groups
               end).
  { intros plan groups E. unfold Service.fetchPlanOS. rewrite E. simpl.
    destruct (Service.raw_os plan) as [s|]; [|reflexivity].
    destruct (Service.split_bar s) eqn:Es; [|reflexivity].
    destruct s; simpl in Es; [discriminate|].
    destruct (Ascii.eqb a "|"); [discriminate|].
    destruct (Service.split_bar s); discriminate. }
  subst r'. unfold Service.updateConfig. rewrite Hid, Hsec.
  cbn [andb]. cbv zeta.
  generalize (Service.emit (WithProgress "正在加载配置...")
                (Service.emit (SetBearerToken getClientId getSecret) r)).
  clear r. intros r. unfold Service.loadConfig.
  assert (Hcont : snd (Service.fetchInstanceList convertTimezoneToLocal api r)
                  = true).
  { unfold Service.fetchInstanceList.
    destruct (Service.getInstanceList api) as [h d|e] eqn:E; [reflexivity|].
    now rewrite (H401 e eq_refl). }
  destruct (Service.fetchInstanceList convertTimezoneToLocal api r)
    as [r1 continue]. simpl in Hcont. subst continue.
  unfold Service.fetchEVOPermissions. rewrite Hperm. simpl.
  unfold Service.fetchSSHKeyList, Service.fetchPlanList.
  rewrite Hplans. simpl.
  repeat split; try assumption.
  - destruct (Service.getSSHKeyList api) as [h d|e]; [destruct (h =? 200)|];
      simpl; rewrite ?log_fold_emit; simpl;
      destruct perms as [[[[|c s]|] mt]|]; reflexivity.
  - destruct (Service.getSSHKeyList api) as [h d|e]; [destruct (h =? 200)|];
      simpl; rewrite ?log_fold_emit; reflexivity.
  - destruct (Service.getSSHKeyList api) as [h d|e]; [destruct (h =? 200)|];
      simpl; apply in_or_app; right; now left.
  - intros keys ->. simpl. reflexivity.
Qed.

End RefreshFacts.

Section InstanceStateFacts.

Lemma formatMemory_decimal (n : Z) :
  Service.formatMemory (Z_to_string n) = toFixed2 n 1048576.
Proof.
  unfold Service.formatMemory. now rewrite parseInt_Z_to_string.
Qed.

(** Up to 5242 kB the figure in GB rounds to "0.00". *)
Lemma toFixed2_small (n : Z) : 0 <= n <= 5242 -> toFixed2 n 1048576 = "0.00".
Proof.
  intros H. unfold toFixed2.
  replace ((200 * Z.abs n + 1048576) / (2 * 1048576)) with 0
    by (symmetry; apply Z.div_small; lia).
  destruct (Z.ltb_spec n 0); [lia|reflexivity].
Qed.

Lemma two_digits_zero (m : Z) :
  0 <= m < 100 -> two_digits m = "00" -> m = 0.
Proof.
  intros Hm H.
  assert (A : forallb (fun k => if String.eqb (two_digits (Z.of_nat k)) "00"
                                then (k =? 0)%nat else true)
                      (seq 0 100) = true) by (vm_compute; reflexivity).
  rewrite forallb_forall in A.
  specialize (A (Z.to_nat m)).
  rewrite Z2Nat.id in A by lia. rewrite H in A. cbn in A.
  assert (In (Z.to_nat m) (seq 0 100)) as I by (apply in_seq; lia).
  apply A in I. apply Nat.eqb_eq in I. lia.
Qed.

Lemma print_nonnegative (a : Z) :
  0 <= a -> exists u, u <> Nil /\ Z.to_int a = Pos u
                      /\ Z_to_string a = NilEmpty.string_of_uint u.
Proof.
  intros Ha. unfold Z_to_string.
  destruct a as [|p|p]; [| |lia]; cbn.
  - exists (D0 Nil). repeat split. discriminate.
  - exists (Pos.to_uint p). split; [apply DecimalPos.Unsigned.to_uint_nonnil|].
    split; [reflexivity|].
    apply NilZero_print, DecimalPos.Unsigned.to_uint_nonnil.
Qed.

Lemma toFixed2_zero (n : Z) :
  toFixed2 n 1048576 = "0.00" <-> 0 <= n <= 5242.
Proof.
  split; [|apply toFixed2_small].
  unfold toFixed2. intros H.
  destruct (Z.ltb_spec n 0) as [Hneg|Hpos]; [discriminate H|].
  set (m := (200 * Z.abs n + 1048576) / (2 * 1048576)) in *.
  assert (0 <= m) as Hm by (apply Z.div_pos; lia).
  cbn [append] in H.
  destruct (print_nonnegative (m / 100)) as (u & Hu & Hi & Hs);
    [apply Z.div_pos; lia|].
  rewrite Hs in H.
  assert (S : span_digits (NilEmpty.string_of_uint u
                           ++ "." ++ two_digits (m mod 100))
              = span_digits "0.00") by (cbn [append]; now rewrite H).
  rewrite span_digits_print in S by reflexivity.
  cbn in S. injection S as -> S.
  assert (m / 100 = 0) as Hq.
  { rewrite <- (DecimalZ.of_to (m / 100)), Hi. reflexivity. }
  apply two_digits_zero in S; [|apply Z.mod_pos_bound; lia].
  assert (m = 0) as M0 by (rewrite (Z.div_mod m 100) by lia; lia).
  split; [lia|].
  destruct (Z_le_gt_dec n 5242) as [|Hbig]; [assumption|exfalso].
  assert (1 <= m); [|lia].
  subst m. apply Z.div_le_lower_bound; lia.
Qed.

(** The figure in GB is the nearest hundredth, printed with two
    decimals. *)
Lemma toFixed2_nearest (n : Z) :
  0 <= n ->
  let h := (200 * n + 1048576) / 2097152 in
  nearest_hundredth_GB n h /\ 0 <= h /\ toFixed2 n 1048576 = two_decimals h.
Proof.
  intros Hn h. unfold nearest_hundredth_GB.
  pose proof (Z.div_mod (200 * n + 1048576) 2097152 ltac:(lia)) as D.
  pose proof (Z.mod_pos_bound (200 * n + 1048576) 2097152 ltac:(lia)) as B.
  fold h in D.
  assert (0 <= h) as Hh by (apply Z.div_pos; lia).
  split; [lia|]. split; [exact Hh|].
  unfold toFixed2, two_decimals, two_digits.
  destruct (Z.ltb_spec n 0); [lia|].
  rewrite Z.abs_eq by lia. change (2 * 1048576) with 2097152. fold h.
  rewrite (Z.mod_mod_divide h 100 10) by (exists 10; reflexivity).
  reflexivity.
Qed.

Lemma waitFor_never (answers : nat -> Response InstanceState)
  (target : string) (instanceId : Z) (n : nat) (p : Tracker.Poll) :
  (forall k, Tracker.in_state target
               (fst (Service.getInstanceState (answers k))) = false) ->
  Tracker.in_state target (Tracker.instanceState p) = false ->
  let p' := Tracker.waitFor answers target instanceId n p in
  Tracker.fetched p' = (Tracker.fetched p + n)%nat /\
  Tracker.in_state target (Tracker.instanceState p') = false.
Proof.
  intros Hall. revert p. induction n as [|n IH]; intros p Hp; simpl.
  - rewrite Hp. simpl. split; [lia|exact Hp].
  - rewrite Hp.
    assert (Hnext : Tracker.in_state target
                      (Tracker.instanceState
                         (Tracker.fetch answers instanceId
                            (Tracker.delay 2000 p))) = false).
    { unfold Tracker.fetch. simpl. specialize (Hall (Tracker.fetched p)).
      destruct (Service.getInstanceState (answers (Tracker.fetched p))).
      exact Hall. }
    destruct (IH _ Hnext) as [A B]. split; [|exact B].
    rewrite A. unfold Tracker.fetch. simpl.
    destruct (Service.getInstanceState (answers (Tracker.fetched p))).
    simpl. lia.
Qed.

(** C9.  For a fetched state with status "complete", [getInstanceState]
    returns the memory figures converted from kB to GB and rounded to two
    decimals: for figures that are integers below 2^53 each field is the
    nearest number of hundredths of a GB, printed with two decimals.  The
    power state returned is "stopped" exactly when the converted available
    memory is "0.00", whatever the remote reported, and that is so
    exactly for the figures from 0 to 5242 kB.  The polling loops read the
    state through [getInstanceState], so a loop that waits for "running"
    does not see it while the available memory stays there, although the
    remote reports "running", and uses up its attempts, and a loop that
    waits for "stopped" ends at its first fetch. *)
Theorem no_memory_means_stopped (i : InstanceState) :
  Store.status i = "complete" ->
  exists i',
    Service.getInstanceState (Resolved 200 (Some i)) = (Some i', [])
    /\ Store.status i' = "complete"
    /\ state (info i')
       = (if String.eqb (memavailable (memory (info i'))) "0.00"
          then "stopped" else state (info i))
    /\ (forall total free available,
          0 <= total < 2 ^ 53 -> 0 <= free < 2 ^ 53 ->
          0 <= available < 2 ^ 53 ->
          memory (info i)
          = {| memtotal := Z_to_string total; memfree := Z_to_string free;
               memavailable := Z_to_string available |} ->
          exists ht hf ha,
            nearest_hundredth_GB total ht
            /\ nearest_hundredth_GB free hf
            /\ nearest_hundredth_GB available ha
            /\ memory (info i')
               = {| memtotal := two_decimals ht; memfree := two_decimals hf;
                    memavailable := two_decimals ha |}
            /\ (two_decimals ha = "0.00" <-> available <= 5242)
            /\ state (info i')
               = (if available <=? 5242 then "stopped" else state (info i)))
    /\ (forall answers instanceId p,
          answers (Tracker.fetched p) = Resolved 200 (Some i) ->
          Tracker.instanceState (Tracker.fetch answers instanceId p)
          = Some i')
    /\ (forall answers instanceId,
          (forall k, answers k = Resolved 200 (Some i)) ->
          memavailable (memory (info i')) = "0.00" ->
          Tracker.fetched
            (Tracker.waitFor answers "running" instanceId Tracker.maxAttempts
               (Tracker.fetch answers instanceId
                  (Tracker.delay 2000 Tracker.start)))
          = 61%nat)
    /\ (forall answers instanceId,
          answers 0%nat = Resolved 200 (Some i) ->
          memavailable (memory (info i')) = "0.00" ->
          Tracker.fetched
            (Tracker.waitFor answers "stopped" instanceId Tracker.maxAttempts
               (Tracker.fetch answers instanceId Tracker.start))
          = 1%nat).
Proof.
  intros Hs.
  assert (E : Service.getInstanceState (Resolved 200 (Some i))
              = (Some {| Store.status := Store.status i;
                         info := {| state :=
                                      if String.eqb
                                           (Service.formatMemory
                                              (memavailable (memory (info i))))
                                           "0.00"
                                      then "stopped" else state (info i);
                                    cpu := cpu (info i);
                                    memory :=
                                      {| memtotal := Service.formatMemory (memtotal (memory (info i)));
                                         memfree := Service.formatMemory (memfree (memory (info i)));
                                         memavailable := Service.formatMemory (memavailable (memory (info i))) |};
                                    traffic :=
                                      {| traffic_in := Service.bytesToGB (traffic_in (traffic (info i)));
                                         traffic_out := Service.bytesToGB (traffic_out (traffic (info i)));
                                         traffic_total := Service.bytesToGB (traffic_total (traffic (info i))) |} |} |},
                 [])).
  { unfold Service.getInstanceState. simpl. rewrite Hs. reflexivity. }
  eexists. split; [exact E|].
  cbn [Store.status info state memory memavailable].
  split; [exact Hs|]. split; [reflexivity|].
  split; [|split; [|split]].
  - intros total free available Ht Hf Ha Hm. rewrite Hm.
    cbn [memtotal memfree memavailable]. rewrite !formatMemory_decimal.
    destruct (toFixed2_nearest total) as (T1 & _ & T2); [lia|].
    destruct (toFixed2_nearest free) as (F1 & _ & F2); [lia|].
    destruct (toFixed2_nearest available) as (A1 & _ & A2); [lia|].
    cbv zeta in T1, T2, F1, F2, A1, A2.
    eexists _, _, _. split; [exact T1|]. split; [exact F1|].
    split; [exact A1|]. rewrite T2, F2. rewrite A2 at 1.
    split; [reflexivity|].
    assert (Z : two_decimals ((200 * available + 1048576) / 2097152) = "0.00"
                <-> available <= 5242).
    { rewrite <- A2, toFixed2_zero. lia. }
    split; [exact Z|].
    destruct (String.eqb_spec (toFixed2 available 1048576) "0.00") as [Q|Q];
      rewrite A2, Z in Q;
      destruct (Z.leb_spec available 5242); try reflexivity; lia.
  - intros answers instanceId p Ha. unfold Tracker.fetch. rewrite Ha, E.
    reflexivity.
  - intros answers instanceId Ha Hz.
    assert (Hall : forall k, Tracker.in_state "running"
                     (fst (Service.getInstanceState (answers k))) = false).
    { intros k. rewrite Ha, E. cbn. now rewrite Hz. }
    set (p0 := Tracker.fetch answers instanceId
                 (Tracker.delay 2000 Tracker.start)).
    assert (F0 : Tracker.fetched p0 = 1%nat /\
                 Tracker.in_state "running" (Tracker.instanceState p0) = false).
    { subst p0. unfold Tracker.fetch.
      cbn [Tracker.delay Tracker.fetched Tracker.start].
      rewrite Ha, E. cbn. now rewrite Hz. }
    destruct F0 as [F0 S0].
    pose proof (waitFor_never answers "running" instanceId
                  Tracker.maxAttempts p0 Hall S0) as W.
    cbv zeta in W. destruct W as [A _]. rewrite A, F0. reflexivity.
  - intros answers instanceId Ha Hz.
    set (p0 := Tracker.fetch answers instanceId Tracker.start).
    assert (F0 : Tracker.fetched p0 = 1%nat /\
                 Tracker.in_state "stopped" (Tracker.instanceState p0) = true).
    { subst p0. unfold Tracker.fetch.
      cbn [Tracker.fetched Tracker.start].
      rewrite Ha, E. cbn. now rewrite Hz. }
    destruct F0 as [F0 S0].
    unfold Tracker.maxAttempts. cbn [Tracker.waitFor]. now rewrite S0.
Qed.

End InstanceStateFacts.

Section ExpirationFacts.

Variable getTime : string -> number.
Variable now : Z.

(** What the function would do were the list empty once the refresh
    call has come back: one update resets the instance list, the instance
    state, the suppression flag and the status-bar timer. *)
Lemma clearing_after_refresh (started : Config -> Config) (r : Service.Run)
  (i : Instance) (rest : list Instance) :
  instanceList (Service.cfg r) = i :: rest ->
  doNotRemindExpiration (Service.cfg r) = false ->
  lt (Service.sub (getTime (expiration_at i)) now) (Num 0) = true ->
  instanceList (started (Service.cfg r)) = [] ->
  exists r',
    Service.checkInstanceExpirationFrom getTime now started r
    = Service.Returned r'
    /\ Service.cfg r'
       = updateStateConfig
           [instanceList_ []; instanceState_ None;
            doNotRemindExpiration_ false;
            updateStatusBarInterval_ None]
           (started (Service.cfg r))
    /\ count is_error_shown (Service.log r')
       = S (count is_error_shown (Service.log r)).
Proof.
  unfold Service.checkInstanceExpirationFrom.
  intros -> -> Hlt Hnil. rewrite Hlt. simpl. rewrite Hnil. simpl.
  eexists. split; [reflexivity|]. simpl. split; [reflexivity|].
  unfold count. rewrite !filter_app, !length_app. simpl. lia.
Qed.

(** C10, the code against the claim.  [checkInstanceExpiration] reads the
    first instance before any check and fails on an empty list.  On a
    non-empty list it never clears anything: the refresh of line 326 is
    started without [await], its first write to the store comes after its
    first [await], so line 327 reads the list that line 314 read, finds
    it non-empty and returns.  Whatever the clock, the flag and the
    remote, the store comes back as it was, no error is shown and no
    timer is cleared; for an instance past expiration with the reminder
    not suppressed the whole run is the start of the refresh.  The lines
    after the guard do what the claim says (the four fields reset in one
    update) but only for a list that the refresh has emptied by the time
    control is back, which the call as written never has. *)
Theorem expiration_check (r : Service.Run) :
  (instanceList (Service.cfg r) = [] ->
   Service.checkInstanceExpiration getTime now r = Service.Thrown "TypeError")
  /\ (instanceList (Service.cfg r) <> [] ->
      exists r' made,
        Service.checkInstanceExpiration getTime now r = Service.Returned r'
        /\ Service.cfg r' = Service.cfg r
        /\ Service.log r' = Service.log r ++ made
        /\ (made = [] \/ made = [CallUpdateConfig flag_instance]
            \/ exists w, made = [ShowWarningMessage w]))
  /\ (forall i rest,
        instanceList (Service.cfg r) = i :: rest ->
        doNotRemindExpiration (Service.cfg r) = false ->
        lt (Service.sub (getTime (expiration_at i)) now) (Num 0) = true ->
        Service.checkInstanceExpiration getTime now r
        = Service.Returned (Service.emit (CallUpdateConfig flag_instance) r)
        /\ instanceList (Service.updateConfig_started (Service.cfg r)) <> [])
  /\ (forall started i rest,
        instanceList (Service.cfg r) = i :: rest ->
        doNotRemindExpiration (Service.cfg r) = false ->
        lt (Service.sub (getTime (expiration_at i)) now) (Num 0) = true ->
        instanceList (started (Service.cfg r)) = [] ->
        exists r',
          Service.checkInstanceExpirationFrom getTime now started r
          = Service.Returned r'
          /\ Service.cfg r'
             = updateStateConfig
                 [instanceList_ []; instanceState_ None;
                  doNotRemindExpiration_ false;
                  updateStatusBarInterval_ None]
                 (started (Service.cfg r))).
Proof.
  unfold Service.checkInstanceExpiration, Service.updateConfig_started.
  split; [|split; [|split]].
  - unfold Service.checkInstanceExpirationFrom. intros ->. reflexivity.
  - unfold Service.checkInstanceExpirationFrom. intros Hne.
    destruct (instanceList (Service.cfg r)) as [|i rest] eqn:E; [congruence|].
    destruct (doNotRemindExpiration (Service.cfg r)).
    { exists r, []. rewrite app_nil_r. auto. }
    destruct (lt _ (Num 0)).
    + cbn [Service.emit Service.cfg Service.log]. rewrite E. cbn [List.length].
      eexists _, _. split; [reflexivity|]. cbn [Service.cfg Service.log].
      split; [reflexivity|]. split; [reflexivity|]. right. left. reflexivity.
    + destruct (_ && _)%bool.
      * eexists _, _. split; [reflexivity|]. cbn [Service.emit Service.cfg
                                                   Service.log].
        split; [reflexivity|]. split; [reflexivity|]. right. right.
        eexists. reflexivity.
      * exists r, []. rewrite app_nil_r. auto.
  - unfold Service.checkInstanceExpirationFrom. intros i rest E -> Hlt.
    rewrite E, Hlt. cbn [Service.emit Service.cfg Service.log]. rewrite E.
    split; [reflexivity|discriminate].
  - intros started i rest E Hd Hlt Hnil.
    destruct (clearing_after_refresh started r i rest E Hd Hlt Hnil)
      as (r' & A & B & _).
    exists r'. split; [exact A|exact B].
Qed.

End ExpirationFacts.

(* ================================================================== *)
(** * The polling loops *)
(* ================================================================== *)

Section TrackerFacts.

Variable stateAnswers : nat -> Response InstanceState.
Variable resultAnswers : nat -> Response Tracker.CommandResult.
Variable viewResult : bool.

#[local] Abbreviation pollResult :=
  (Tracker.pollResult resultAnswers viewResult).
#[local] Abbreviation pollBootScriptResult :=
  (Tracker.pollBootScriptResult resultAnswers viewResult).
#[local] Abbreviation waitFor := (Tracker.waitFor stateAnswers).
#[local] Abbreviation fetch := (Tracker.fetch stateAnswers).

(** A pending answer is an empty poll: the loop goes on to the next
    attempt. *)
Lemma pending_continues (instanceId : Z) (commandUid scriptName : string)
  (n attempts : nat) :
  pending (resultAnswers attempts) = true ->
  pollResult instanceId commandUid scriptName (S n) attempts
  = Call (GetCommandResult instanceId commandUid) :: Delay 5000
    :: pollResult instanceId commandUid scriptName n (S attempts).
Proof.
  unfold pending. simpl.
  destruct (resultAnswers attempts) as [http data|e].
  - destruct (if http =? 200 then data else None) as [[[[|c s]|]]|];
      intros H; try discriminate; reflexivity.
  - intros ->. reflexivity.
Qed.

(** Any other rejection ends the poll at once, logged and shown once. *)
Lemma failure_aborts (instanceId : Z) (commandUid scriptName : string)
  (n attempts : nat) (e : Error) :
  resultAnswers attempts = Rejected e ->
  has_status e 202 = false ->
  pollResult instanceId commandUid scriptName (S n) attempts
  = [Call (GetCommandResult instanceId commandUid);
     UpdateLogEntry commandUid "failed"
       ("获取结果失败: " ++ str_or (response_message e) (Host.message e));
     ShowErrorMessage
       [Lit ("脚本 " ++ scriptName ++ " 执行失败: "
             ++ "获取结果失败: " ++ str_or (response_message e) (Host.message e))]].
Proof. intros E H. simpl. now rewrite E, H. Qed.

Lemma pending_run (instanceId : Z) (commandUid scriptName : string)
  (k n attempts : nat) :
  (forall j, (j < k)%nat -> pending (resultAnswers (attempts + j)) = true) ->
  pollResult instanceId commandUid scriptName (k + n) attempts
  = empty_polls instanceId commandUid k
    ++ pollResult instanceId commandUid scriptName n (attempts + k).
Proof.
  revert attempts. induction k as [|k IH]; intros attempts H.
  - simpl. now rewrite Nat.add_0_r.
  - change (S k + n)%nat with (S (k + n)).
    rewrite pending_continues.
    + simpl. rewrite IH.
      * now rewrite Nat.add_succ_r.
      * intros j Hj. rewrite Nat.add_succ_l, <- Nat.add_succ_r.
        apply H. lia.
    + rewrite <- (Nat.add_0_r attempts). apply H. lia.
Qed.

Lemma count_empty_polls (f : Effect -> bool) (instanceId : Z)
  (commandUid : string) (k : nat) :
  count f (empty_polls instanceId commandUid k)
  = ((if f (Call (GetCommandResult instanceId commandUid)) then k else 0)
     + (if f (Delay 5000) then k else 0))%nat.
Proof.
  unfold count. induction k as [|k IH]; simpl.
  - now destruct (f _), (f _).
  - destruct (f (Call _)), (f (Delay 5000)); simpl; rewrite IH; simpl; lia.
Qed.

Lemma count_app (f : Effect -> bool) (l1 l2 : list Effect) :
  count f (l1 ++ l2) = (count f l1 + count f l2)%nat.
Proof. unfold count. now rewrite filter_app, length_app. Qed.

(** C5.  In the boot-script result poll a pending answer (202) is an
    empty poll and the loop goes on with the next attempt; any other
    rejection ends the poll at once: after [k] empty polls and such a
    rejection at attempt [k], the run is the [k] empty polls, one more
    request, one log entry "failed" and one error message, both carrying
    the message of the response when the rejection has one that is not
    empty, and the message of the error itself otherwise. *)
Theorem pending_is_not_failure (instanceId : Z)
  (commandUid scriptName : string) (k : nat) (e : Error) :
  (k < 180)%nat ->
  (forall j, (j < k)%nat -> pending (resultAnswers j) = true) ->
  resultAnswers k = Rejected e ->
  has_status e 202 = false ->
  let detail :=
    ("获取结果失败: "
     ++ match response_message e with
        | Some (String c s) => String c s
        | Some EmptyString | None => Host.message e
        end)%string in
  let made := pollBootScriptResult instanceId commandUid scriptName in
  made = empty_polls instanceId commandUid k
         ++ [Call (GetCommandResult instanceId commandUid);
             UpdateLogEntry commandUid "failed" detail;
             ShowErrorMessage
               [Lit ("脚本 " ++ scriptName ++ " 执行失败: " ++ detail)]]
  /\ (forall c s,
        response_message e = Some (String c s) ->
        detail = ("获取结果失败: " ++ String c s)%string)
  /\ (response_message e = None \/ response_message e = Some EmptyString ->
      detail = ("获取结果失败: " ++ Host.message e)%string)
  /\ count is_fetch made = S k
  /\ count is_log_update made = 1%nat
  /\ count is_error_shown made = 1%nat
  /\ count is_warning made = 0%nat
  /\ (forall n attempts,
        pending (resultAnswers attempts) = true ->
        pollResult instanceId commandUid scriptName (S n) attempts
        = Call (GetCommandResult instanceId commandUid) :: Delay 5000
          :: pollResult instanceId commandUid scriptName n (S attempts)).
Proof.
  intros Hk Hpend He H202 detail made.
  assert (E : made = empty_polls instanceId commandUid k
                     ++ [Call (GetCommandResult instanceId commandUid);
                         UpdateLogEntry commandUid "failed" detail;
                         ShowErrorMessage
                           [Lit ("脚本 " ++ scriptName ++ " 执行失败: "
                                 ++ detail)]]).
  { subst made. unfold Tracker.pollBootScriptResult.
    replace 180%nat with (k + S (179 - k))%nat by lia.
    rewrite pending_run by (intros j Hj; simpl; now apply Hpend).
    simpl (0 + k)%nat. rewrite (failure_aborts _ _ _ _ _ e He H202).
    subst detail. unfold str_or.
    destruct (response_message e) as [[|c s]|]; reflexivity. }
  split; [exact E|].
  split; [intros c s Hm; subst detail; now rewrite Hm|].
  split; [intros [Hm|Hm]; subst detail; now rewrite Hm|].
  rewrite E, !count_app, !count_empty_polls.
  cbn [is_fetch is_log_update is_error_shown is_warning count filter
       List.length].
  split; [lia|]. split; [lia|]. split; [lia|]. split; [lia|].
  intros n attempts. apply pending_continues.
Qed.


(** The loop after a power action is the same loop, entered without the
    first delay; it too ends in the success message. *)
Lemma power_loop_exhausted (instanceId : Z) (selectedLabel : string)
  (action : Tracker.PowerAction) :
  (forall k, Tracker.in_state
               (match action with
                | Tracker.boot | Tracker.restart => "running"
                | Tracker.shutdown | Tracker.poweroff => "stopped"
                end)
               (fst (Service.getInstanceState (stateAnswers k))) = false) ->
  let p := Tracker.powerInstanceDone stateAnswers instanceId selectedLabel
             action true in
  Tracker.fetched p = 61%nat /\
  In (ShowInformationMessage ("实例" ++ selectedLabel ++ "成功")) (Tracker.made p).
Proof.
  intros Hnever. unfold Tracker.powerInstanceDone.
  set (target := match action with
                 | Tracker.boot | Tracker.restart => "running"
                 | Tracker.shutdown | Tracker.poweroff => "stopped"
                 end) in *.
  set (p0 := Tracker.fetch stateAnswers instanceId Tracker.start).
  assert (H0 : Tracker.in_state target (Tracker.instanceState p0) = false).
  { subst p0. unfold Tracker.fetch. cbn [Tracker.fetched Tracker.start].
    specialize (Hnever 0%nat).
    destruct (Service.getInstanceState (stateAnswers 0%nat)). exact Hnever. }
  assert (F0 : Tracker.fetched p0 = 1%nat).
  { subst p0. unfold Tracker.fetch. cbn [Tracker.fetched Tracker.start].
    destruct (Service.getInstanceState (stateAnswers 0%nat)). reflexivity. }
  pose proof (waitFor_never stateAnswers target instanceId
                Tracker.maxAttempts p0 Hnever H0) as W.
  cbv zeta in W. destruct W as [A _].
  cbn [Tracker.fetched Tracker.made]. split; [rewrite A, F0; reflexivity|].
  apply in_or_app. right. now left.
Qed.


End TrackerFacts.

(* ================================================================== *)
(** * The theorems on the sample data *)
(* ================================================================== *)

Lemma duration_step_validation_witness :
  let after input := Wizard.onDidAccept Demo.CONFIG Demo.noScripts None input
                       Demo.atDuration in
  max_time (evoPermissions Demo.CONFIG) = Num 24
  /\ Wizard.timeError Demo.CONFIG "3.5"
     = Some [Lit "请输入整数，不支持小数"]
  /\ Wizard.timeError Demo.CONFIG "25"
     = Some [Lit "时长不能超过 "; Interp (Num 24); Lit " 小时"]
  /\ currentStep (after "3.5") = EnterTime
  /\ errorMessage (after "3.5") = None
  /\ errorMessage (after "25") = None
  /\ after "3.5" = after "25"
  /\ after "25" = Wizard.updateView Demo.CONFIG Demo.noScripts Demo.atDuration
  /\ currentStep (after "24") = SelectSSHKey
  /\ time (thisPlan (after "24")) = Num 24.
Proof.
  pose proof (duration_step_validation Demo.CONFIG Demo.noScripts 24 eq_refl
                eq_refl) as H.
  cbv zeta in H.
  destruct H as ((_ & _ & _ & H35 & Hover) & _ & Hrej & Hsame & Hacc).
  assert (Hs : currentStep Demo.atDuration = EnterTime)
    by (vm_compute; reflexivity).
  assert (Hb : @None QuickPickItem <> Some backItem) by discriminate.
  assert (R35 : refused_duration 24 "3.5")
    by (left; right; right; right; left; reflexivity).
  assert (R25 : refused_duration 24 "25")
    by (right; exists 25; split; [lia|reflexivity]).
  destruct (Hrej None "3.5" Demo.atDuration Hs Hb R35)
    as (e1 & _ & _ & _ & A1 & _ & _ & _ & A2 & _).
  destruct (Hrej None "25" Demo.atDuration Hs Hb R25)
    as (e2 & _ & _ & _ & _ & _ & _ & _ & B2 & B3).
  destruct (Hsame None 25 Demo.atDuration Hs Hb ltac:(lia) ltac:(lia))
    as (_ & S).
  destruct (Hacc 24 None Demo.atDuration ltac:(lia) Hs Hb) as (_ & C1 & C2 & _).
  cbv zeta. split; [reflexivity|]. split; [exact H35|].
  split; [exact (Hover 25 ltac:(lia))|].
  split; [exact A1|]. split; [exact A2|]. split; [exact B2|].
  split; [exact S|]. split; [exact B3|]. split; [exact C1|].
  change "24" with (Z_to_string 24). rewrite C2. reflexivity.
Defined.



Lemma back_and_forth_witness :
  settled (Wizard.run Demo.CONFIG Demo.noScripts Demo.opened Demo.wavering)
  = Some {| r_status := completed; r_plan := thePlan; r_message := None |}
  /\ Wizard.result
       (Wizard.run Demo.CONFIG Demo.noScripts Demo.opened Demo.wavering)
     = Some {| status := completed;
               plan := Some {| id := Num 7; os := Num 4; time := Num 8;
                               sshKey := NaN; bootScript := EmptyString |};
               message := None |}.
Proof.
  assert (Hs : settled (Wizard.run Demo.CONFIG Demo.noScripts Demo.opened
                          Demo.wavering)
               = Some {| r_status := completed; r_plan := thePlan;
                         r_message := None |})
    by (vm_compute; reflexivity).
  pose proof (back_and_forth Demo.CONFIG Demo.noScripts None Demo.wavering _
                Hs eq_refl) as H.
  cbv zeta in H. destruct H as ((A & _) & _).
  split; [exact Hs|].
  etransitivity; [exact A|]. vm_compute. reflexivity.
Defined.

Lemma refresh_isolates_failure_witness :
  let r' := Service.updateConfig (fun s => s) (Some "id") (Some "secret") None
              Demo.remote flag_all (Demo.at_rest Demo.noPermission) in
  map p_os (planList (Service.cfg r'))
  = [[{| os_id := 10; os_name := "Debian" |}]; [];
     [{| os_id := 30; os_name := "Debian" |}]]
  /\ hasEvoPermission (Service.cfg r') = true
  /\ In (Call GetSSHKeyList) (Service.log r').
Proof.
  assert (H401 : forall e, Service.getInstanceList Demo.remote = Rejected e ->
                           has_status e 401 = false)
    by (intros e H; discriminate H).
  pose proof (refresh_isolates_failure (fun s => s) (Some "id") (Some "secret")
                None Demo.remote (Demo.at_rest Demo.noPermission) _ _
                eq_refl eq_refl H401 eq_refl eq_refl) as H.
  cbv zeta in H. destruct H as (A & _ & _ & B & C & _).
  cbv zeta. split; [|split; [exact B|exact C]].
  rewrite A. vm_compute. reflexivity.
Defined.

Lemma pending_is_not_failure_witness :
  Tracker.pollBootScriptResult Demo.failsThird false 42 "cmd" "init.sh"
  = [Call (GetCommandResult 42 "cmd"); Delay 5000;
     Call (GetCommandResult 42 "cmd"); Delay 5000;
     Call (GetCommandResult 42 "cmd");
     UpdateLogEntry "cmd" "failed" "获取结果失败: internal error";
     ShowErrorMessage
       [Lit "脚本 init.sh 执行失败: 获取结果失败: internal error"]]
  /\ Tracker.pollBootScriptResult Cases.dropsThird false 42 "cmd" "init.sh"
     = [Call (GetCommandResult 42 "cmd"); Delay 5000;
        Call (GetCommandResult 42 "cmd"); Delay 5000;
        Call (GetCommandResult 42 "cmd");
        UpdateLogEntry "cmd" "failed" "获取结果失败: Network Error";
        ShowErrorMessage
          [Lit "脚本 init.sh 执行失败: 获取结果失败: Network Error"]].
Proof.
  assert (Hk : (2 < 180)%nat) by lia.
  assert (Hp : forall j, (j < 2)%nat -> pending (Demo.failsThird j) = true).
  { intros j Hj. destruct j as [|[|j]]; [reflexivity|reflexivity|lia]. }
  assert (Hq : forall j, (j < 2)%nat -> pending (Cases.dropsThird j) = true).
  { intros j Hj. destruct j as [|[|j]]; [reflexivity|reflexivity|lia]. }
  split.
  - pose proof (pending_is_not_failure Demo.failsThird false 42 "cmd"
                  "init.sh" 2 Demo.serverError Hk Hp eq_refl eq_refl) as H.
    cbv zeta in H. destruct H as (A & _). rewrite A. reflexivity.
  - pose proof (pending_is_not_failure Cases.dropsThird false 42 "cmd"
                  "init.sh" 2 Cases.networkError Hk Hq eq_refl eq_refl) as H.
    cbv zeta in H. destruct H as (A & _). rewrite A. reflexivity.
Defined.

Lemma complete_run_witness :
  exists st0,
    createInstanceMultiStep Demo.CONFIG Demo.noScripts None false = Opened st0
    /\ Wizard.result (Wizard.run Demo.CONFIG Demo.noScripts st0 Demo.choices)
       = Some {| status := completed;
                 plan := Some {| id := Num 7; os := Num 3; time := Num 12;
                                 sshKey := NaN; bootScript := EmptyString |};
                 message := None |}.
Proof.
  assert (Hex : exists pc, In pc (planList Demo.CONFIG) /\ p_id pc = 7)
    by (eexists; split; [left; reflexivity|reflexivity]).
  assert (Hos : forall pc, In pc (planList Demo.CONFIG) -> p_id pc = 7 ->
                           p_os pc <> []).
  { intros pc [<-|[]] _. discriminate. }
  assert (Hm : 12 <= 24) by lia.
  destruct (complete_run Demo.CONFIG Demo.noScripts 7 3 24 "evo-1" "Debian 12"
              None false eq_refl Hex Hos eq_refl Hm) as ((st0 & A & B) & _).
  exists st0. split; [exact A|exact B].
Defined.



Lemma start_guards_witness :
  hasEvoPermission Demo.noPermission = false
  /\ exists dialog,
       createInstanceMultiStep Demo.noPermission Demo.noScripts None true
       = Refused [ShowErrorMessage dialog; CallUpdateConfig flag_all]
           {| status := error; plan := None;
              message := Some [Lit "没有 EVO 权限"] |}.
Proof.
  split; [reflexivity|].
  exact (start_guards Demo.noPermission Demo.noScripts None true
           (or_introl eq_refl)).
Defined.

Lemma no_memory_means_stopped_witness :
  Store.status Cases.lowMemory = "complete"
  /\ state (info Cases.lowMemory) = "running"
  /\ exists i',
       Service.getInstanceState (Resolved 200 (Some Cases.lowMemory))
       = (Some i', [])
       /\ memory (info i')
          = {| memtotal := "8.00"; memfree := "1.50";
               memavailable := "0.00" |}
       /\ state (info i') = "stopped".
Proof.
  split; [reflexivity|]. split; [reflexivity|].
  destruct (no_memory_means_stopped Cases.lowMemory eq_refl)
    as (i' & E & _ & _ & Hn & _).
  exists i'. split; [exact E|].
  destruct (Hn 8388608 1572864 5242 ltac:(lia) ltac:(lia) ltac:(lia) eq_refl)
    as (ht & hf & ha & Ht & Hf & Ha & M & _ & S).
  unfold nearest_hundredth_GB in Ht, Hf, Ha.
  assert (ht = 800) by lia. assert (hf = 150) by lia. assert (ha = 0) by lia.
  subst ht hf ha. split; [exact M|exact S].
Defined.

Lemma expiration_check_witness :
  Service.checkInstanceExpiration Demo.getTime Demo.now
    (Demo.at_rest Demo.expiredReminding)
  = Service.Returned
      {| Service.cfg := Demo.expiredReminding;
         Service.log := [CallUpdateConfig flag_instance] |}
  /\ instanceList Demo.expiredReminding <> [].
Proof.
  destruct (expiration_check Demo.getTime Demo.now
              (Demo.at_rest Demo.expiredReminding)) as (_ & _ & H & _).
  exact (H _ _ eq_refl eq_refl eq_refl).
Defined.

(** C10 on the sample store.  The instance is past expiration, the
    reminder is not suppressed and the remote has no instance left, so
    that an awaited refresh would empty the list; the function returns
    with the instance list, the instance state and the timer as they
    were. *)
Lemma expired_instance_is_not_cleared :
  doNotRemindExpiration Demo.expiredReminding = false
  /\ lt (Service.sub (Demo.getTime "2025-01-01 00:00:00") Demo.now) (Num 0)
     = true
  /\ instanceList (Demo.refreshed Demo.expiredReminding) = []
  /\ exists r',
       Service.checkInstanceExpiration Demo.getTime Demo.now
         (Demo.at_rest Demo.expiredReminding)
       = Service.Returned r'
       /\ instanceList (Service.cfg r') <> []
       /\ instanceState (Service.cfg r') <> None
       /\ updateStatusBarInterval (Service.cfg r') <> None
       /\ count is_error_shown (Service.log r') = 0%nat.
Proof.
  split; [reflexivity|]. split; [reflexivity|].
  split; [reflexivity|]. eexists. split; [reflexivity|].
  repeat split; try discriminate.
Qed.

(* ================================================================== *)
(** * The primitives on sample inputs *)
(* ================================================================== *)

Example parseInt_ex1 : parseInt "12" = Num 12. Proof. reflexivity. Qed.
Example parseInt_ex2 : parseInt "3.5" = Num 3. Proof. reflexivity. Qed.
Example parseInt_ex3 : parseInt "abc" = NaN. Proof. reflexivity. Qed.
Example parseInt_ex4 : parseInt "-1" = Num (-1). Proof. reflexivity. Qed.
Example parseFloat_ex1 : parseFloat "3.5" = Fin (7 # 2). Proof. reflexivity. Qed.
Example parseFloat_ex2 : parseFloat "12px" = Num 12. Proof. reflexivity. Qed.
Example parseFloat_ex3 : parseFloat "5.e3" = Num 5000. Proof. reflexivity. Qed.
Example parseFloat_ex4 : parseFloat ".e3" = NaN. Proof. reflexivity. Qed.
Example parseFloat_ex5 : parseFloat "-.5e1x" = Num (-5). Proof. reflexivity. Qed.
Example Number_ex1 : Number (Some " 42 ") = Num 42. Proof. reflexivity. Qed.
Example Number_ex2 : Number (Some "0x1F") = Num 31. Proof. reflexivity. Qed.
Example Number_ex3 : Number (Some "12px") = NaN. Proof. reflexivity. Qed.
Example Number_ex4 : Number (Some EmptyString) = Num 0. Proof. reflexivity. Qed.
Example Number_ex5 : Number None = NaN. Proof. reflexivity. Qed.
Example toFixed2_ex1 : toFixed2 5242 1048576 = "0.00". Proof. reflexivity. Qed.
Example toFixed2_ex2 : toFixed2 5243 1048576 = "0.01". Proof. reflexivity. Qed.
Example toFixed2_ex3 : toFixed2 8388608 1048576 = "8.00". Proof. reflexivity. Qed.
Example toFixed2_ex4 : toFixed2 (-1) 1048576 = "-0.00". Proof. reflexivity. Qed.
Example split_bar_ex1 : Service.split_bar "1|2|30" = ["1"; "2"; "30"].
Proof. reflexivity. Qed.
Example split_bar_ex2 : Service.split_bar EmptyString = [EmptyString]. Proof. reflexivity. Qed.

(* ================================================================== *)
(** * Further facts about the store and the refresh *)
(* ================================================================== *)

(** X1.  [updateStateConfig] is [Object.assign]: of two assignments to the
    same field the later one alone counts, and assignments to different
    fields can be made in either order. *)
Theorem last_write_wins (f g : Field) (c : Config) :
  updateStateConfig [f; g] c
  = if same_field f g then updateStateConfig [g] c
    else updateStateConfig [g; f] c.
Proof. destruct f, g; reflexivity. Qed.

Section RefreshEdges.

Variable convertTimezoneToLocal : string -> string.
Variable getClientId getSecret : option string.
Variable getDefaultPlan : option Plan.
Variable api : Service.Remote.

#[local] Abbreviation updateConfig :=
  (Service.updateConfig convertTimezoneToLocal getClientId getSecret
     getDefaultPlan api).

Lemma cfg_emit (e : Effect) (r : Service.Run) :
  Service.cfg (Service.emit e r) = Service.cfg r.
Proof. reflexivity. Qed.

Lemma count_snoc (f : Effect -> bool) (l : list Effect) (e : Effect) :
  count f (l ++ [e]) = (count f l + if f e then 1 else 0)%nat.
Proof.
  unfold count. rewrite filter_app, length_app. simpl.
  destruct (f e); reflexivity.
Qed.

(** With both credentials a refresh first sets the bearer token and
    opens the progress notification; the task runs from there. *)
Lemma updateConfig_entered (flag : Flag) (r : Service.Run) :
  Service.nonempty_str getClientId = true ->
  Service.nonempty_str getSecret = true ->
  updateConfig flag r
  = (let r1 := Service.loadConfig convertTimezoneToLocal api flag
                 {| Service.cfg := Service.cfg r;
                    Service.log := Service.log r
                                   ++ [SetBearerToken getClientId getSecret;
                                       WithProgress "正在加载配置..."] |} in
     match flag with
     | flag_defaultPlan => Service.update [defaultPlan_ getDefaultPlan] r1
     | _ => r1
     end).
Proof.
  intros Hid Hsec. unfold Service.updateConfig. rewrite Hid, Hsec.
  cbn [andb]. cbv zeta.
  replace (Service.emit (WithProgress "正在加载配置...")
             (Service.emit (SetBearerToken getClientId getSecret) r))
    with {| Service.cfg := Service.cfg r;
            Service.log := Service.log r
                           ++ [SetBearerToken getClientId getSecret;
                               WithProgress "正在加载配置..."] |}
    by (unfold Service.emit; cbn [Service.cfg Service.log];
        now rewrite <- app_assoc).
  destruct flag; reflexivity.
Qed.

(** X2.  Without a client id or without a secret [updateConfig] returns
    before anything else, whatever the flag.  With the flag "defaultPlan"
    it makes no request in either case; with both credentials it sets the
    bearer token, opens the progress notification, whose task does
    nothing for this flag, and stores the default plan of the settings
    and nothing else. *)
Theorem default_plan_refresh (r : Service.Run) :
  let credentials :=
    (Service.nonempty_str getClientId && Service.nonempty_str getSecret)%bool in
  let r' := updateConfig flag_defaultPlan r in
  (credentials = false -> forall flag, updateConfig flag r = r)
  /\ Service.cfg r'
     = (if credentials
        then updateStateConfig [defaultPlan_ getDefaultPlan] (Service.cfg r)
        else Service.cfg r)
  /\ Service.log r'
     = Service.log r
       ++ (if credentials
           then [SetBearerToken getClientId getSecret;
                 WithProgress "正在加载配置..."]
           else [])
  /\ count is_fetch (Service.log r') = count is_fetch (Service.log r)
  /\ count is_notice (Service.log r') = count is_notice (Service.log r).
Proof.
  cbv zeta. unfold Service.updateConfig.
  destruct (Service.nonempty_str getClientId && Service.nonempty_str getSecret)%bool.
  - split; [discriminate|]. cbv zeta.
    cbn [Service.loadConfig Service.update Service.emit Service.cfg
         Service.log].
    rewrite <- app_assoc. cbn [app].
    split; [reflexivity|]. split; [reflexivity|].
    rewrite !count_app. cbn. split; lia.
  - split; [reflexivity|]. split; [reflexivity|].
    rewrite app_nil_r. repeat split.
Qed.


(** X4.  When the instance list is refused with status 401 the refresh
    ends there, whichever of the flags "all" and "instance" it was called
    with: after the bearer token and the progress notification, one
    request, the authentication error, nothing written, and no request
    for permissions, plans or keys. *)
Theorem unauthorized_ends_refresh (flag : Flag) (r : Service.Run) (e : Error) :
  Service.nonempty_str getClientId = true ->
  Service.nonempty_str getSecret = true ->
  Service.getInstanceList api = Rejected e ->
  has_status e 401 = true ->
  flag <> flag_defaultPlan ->
  updateConfig flag r
  = {| Service.cfg := Service.cfg r;
       Service.log := Service.log r
                      ++ [SetBearerToken getClientId getSecret;
                          WithProgress "正在加载配置...";
                          Call GetInstanceList;
                          ShowErrorMessage
                            [Lit "认证失败：请检查 Client ID/Secret"]] |}.
Proof.
  intros Hid Hsec Ha H401 Hflag. rewrite (updateConfig_entered _ r Hid Hsec).
  cbv zeta. unfold Service.loadConfig.
  destruct flag; try (exfalso; apply Hflag; reflexivity);
    unfold Service.fetchInstanceList; rewrite Ha, H401;
    unfold Service.emit; cbn [Service.cfg Service.log fst snd];
    rewrite <- !app_assoc; reflexivity.
Qed.

(** X5.  When the permissions are refused with status 400 a refresh of
    everything records that there is no permission, shows one more error
    and stops: neither the plan list nor the key list is requested, and
    the plans, keys and permissions stored before stay in the store. *)
Theorem refused_permission_keeps_catalogs (r : Service.Run) (e : Error) :
  Service.nonempty_str getClientId = true ->
  Service.nonempty_str getSecret = true ->
  Service.getEVOPermissions api = Rejected e ->
  has_status e 400 = true ->
  (forall e', Service.getInstanceList api = Rejected e' ->
              has_status e' 401 = false) ->
  let r' := updateConfig flag_all r in
  hasEvoPermission (Service.cfg r') = false
  /\ planList (Service.cfg r') = planList (Service.cfg r)
  /\ sshKeyList (Service.cfg r') = sshKeyList (Service.cfg r)
  /\ evoPermissions (Service.cfg r') = evoPermissions (Service.cfg r)
  /\ count is_fetch (Service.log r') = (2 + count is_fetch (Service.log r))%nat
  /\ (exists shown,
        Service.log r'
        = Service.log r
            ++ SetBearerToken getClientId getSecret
               :: WithProgress "正在加载配置..."
               :: Call GetInstanceList :: shown
            ++ [Call GetEVOPermissions;
                ShowErrorMessage
                  [Lit "您的账户似乎没有 EVO Cloud 权限，请检查。"]]
        /\ count is_fetch shown = 0%nat).
Proof.
  intros Hid Hsec Hp H400 Hlist. rewrite (updateConfig_entered _ r Hid Hsec).
  cbv beta iota zeta delta [Service.loadConfig Service.fetchInstanceList].
  destruct r as [c l]. destruct c. cbn [Service.cfg Service.log].
  destruct (Service.getInstanceList api) as [http data|e'].
  - unfold Service.fetchEVOPermissions. rewrite Hp, H400. cbn -[count].
    repeat (split; [reflexivity|]). split.
    + rewrite !count_app. cbn. lia.
    + exists []. split; [rewrite <- !app_assoc; reflexivity|reflexivity].
  - rewrite (Hlist e' eq_refl).
    unfold Service.fetchEVOPermissions. rewrite Hp, H400. cbn -[count].
    repeat (split; [reflexivity|]). split.
    + rewrite !count_app. cbn. lia.
    + eexists [_]. split; [rewrite <- !app_assoc; reflexivity|reflexivity].
Qed.

(** X6.  A permission request that fails in any other way (a rejection
    without status 400, or an answer other than 200) writes nothing and
    shows nothing, so the verdict of an earlier refresh stays in force:
    the plan list is requested next exactly when the store said there was
    permission. *)
Theorem failed_permission_check_keeps_verdict (r : Service.Run) :
  (forall perms, Service.getEVOPermissions api <> Resolved 200 perms) ->
  (forall e, Service.getEVOPermissions api = Rejected e ->
             has_status e 400 = false) ->
  let r1 := Service.fetchEVOPermissions api r in
  r1 = Service.emit (Call GetEVOPermissions) r
  /\ (Service.nonempty_str getClientId = true ->
      Service.nonempty_str getSecret = true ->
      Service.getInstanceList api = Resolved 200 None ->
      let r' := updateConfig flag_all r in
      (hasEvoPermission (Service.cfg r) = false ->
       r' = Service.emit (Call GetEVOPermissions)
              (Service.emit (Call GetInstanceList)
                 (Service.update [instanceList_ []]
                    (Service.emit (WithProgress "正在加载配置...")
                       (Service.emit
                          (SetBearerToken getClientId getSecret) r)))))
      /\ (hasEvoPermission (Service.cfg r) = true ->
          In (Call GetPlanList) (Service.log r'))).
Proof.
  intros Hnot200 Hnot400.
  assert (E : forall r0, Service.fetchEVOPermissions api r0
                         = Service.emit (Call GetEVOPermissions) r0).
  { intros r0. unfold Service.fetchEVOPermissions.
    destruct (Service.getEVOPermissions api) as [http data|e] eqn:A.
    - destruct (Z.eqb_spec http 200) as [->|]; [|reflexivity].
      exfalso. exact (Hnot200 data eq_refl).
    - now rewrite (Hnot400 e eq_refl). }
  split; [apply E|].
  intros Hid Hsec Hl. unfold Service.updateConfig. rewrite Hid, Hsec.
  cbv beta iota zeta delta [andb Service.loadConfig Service.fetchInstanceList].
  rewrite Hl, E. destruct r as [c l]. destruct c. cbn. split.
  - intros ->. reflexivity.
  - intros ->. cbn. unfold Service.fetchSSHKeyList, Service.fetchPlanList.
    assert (P : forall r0 : Service.Run,
              In (Call GetPlanList) (Service.log r0) ->
              In (Call GetPlanList)
                 (Service.log
                    (let r := Service.emit (Call GetSSHKeyList) r0 in
                     match Service.getSSHKeyList api with
                     | Resolved http data =>
                         if http =? 200
                         then Service.update
                                [sshKeyList_
                                   (map (Service.localKey convertTimezoneToLocal)
                                      match data with Some l => l | None => [] end)]
                                r
                         else r
                     | Rejected _ => r
                     end))).
    { intros r0 H0. cbv zeta.
      assert (In (Call GetPlanList)
                (Service.log (Service.emit (Call GetSSHKeyList) r0))) as H1.
      { cbn. apply in_or_app. now left. }
      destruct (Service.getSSHKeyList api) as [h d|?]; [|exact H1].
      destruct (h =? 200); exact H1. }
    apply P. clear P.
    assert (Q : forall (pl : list Service.RawPlan) (r0 : Service.Run),
              In (Call GetPlanList) (Service.log r0) ->
              In (Call GetPlanList)
                 (Service.log
                    (fold_left
                       (fun r plan =>
                          Service.emit
                            (Call (GetPlanToOS (Service.raw_id plan))) r)
                       pl r0))).
    { induction pl as [|x pl IH]; intros r0 H0; [exact H0|].
      cbn [fold_left]. apply IH. cbn. apply in_or_app. now left. }
    cbv zeta.
    match goal with
    | |- context [Service.emit (Call GetPlanList) ?r0] =>
        assert (In (Call GetPlanList)
                  (Service.log (Service.emit (Call GetPlanList) r0))) as H1
          by (cbn; apply in_or_app; right; left; reflexivity);
        generalize dependent (Service.emit (Call GetPlanList) r0)
    end.
    intros r0 H1.
    destruct (Service.getPlanList api) as [h d|?]; [|exact H1].
    destruct (h =? 200); [|exact H1].
    unfold Service.update. cbn [Service.log]. apply Q. exact H1.
Qed.

(** X7.  A plan whose [os] field is the empty string ends up with no
    operating system at all, whatever the remote offers for it: the split
    of the empty string is one empty piece, which no id matches. *)
Theorem empty_os_field_hides_every_os (plan : Service.RawPlan) :
  Service.raw_os plan = Some EmptyString ->
  p_os (Service.fetchPlanOS api plan) = [].
Proof.
  intros H. unfold Service.fetchPlanOS. rewrite H. cbn [p_os Service.split_bar].
  destruct (Service.getPlanToOS api (Service.raw_id plan)) as [http [g|]|];
    try reflexivity.
  destruct (http =? 200); [|reflexivity].
  induction (flat_map _ g) as [|o l IH]; [reflexivity|].
  cbn [filter]. unfold Service.includes at 1. cbn [existsb].
  destruct (Z_to_string_nonempty (os_id o)) as (c & s & ->).
  cbn. exact IH.
Qed.

End RefreshEdges.

(* ================================================================== *)
(** * Further facts about [getInstanceState] *)
(* ================================================================== *)

(** X8.  For a state with status "complete" whose available memory is the
    decimal form of an integer, [getInstanceState] reports "stopped" in
    place of the remote's power state exactly when that integer lies
    between 0 and 5242; from 5243 kB on, and for a negative figure, the
    remote's state is passed on. *)
Theorem stopped_rewrite_threshold (i : InstanceState) (n : Z) :
  Store.status i = "complete" ->
  memavailable (memory (info i)) = Z_to_string n ->
  exists i',
    Service.getInstanceState (Resolved 200 (Some i)) = (Some i', [])
    /\ state (info i')
       = (if ((0 <=? n) && (n <=? 5242))%bool then "stopped"
          else state (info i))
    /\ (Service.formatMemory (Z_to_string n) = "0.00" <-> 0 <= n <= 5242).
Proof.
  intros Hs Hm. unfold Service.getInstanceState. cbn [Z.eqb Pos.eqb].
  rewrite Hs. cbn [String.eqb Ascii.eqb Bool.eqb].
  eexists. split; [reflexivity|]. cbn [info state memavailable].
  rewrite Hm, formatMemory_decimal. split; [|apply toFixed2_zero].
  destruct (String.eqb_spec (toFixed2 n 1048576) "0.00") as [E|E];
    rewrite toFixed2_zero in E;
    destruct (Z.leb_spec 0 n), (Z.leb_spec n 5242); cbn; try reflexivity; lia.
Qed.

(** X9.  When the available memory is no number at all, the figure is
    reported as "NaN" and the remote's power state is passed on. *)
Theorem unreadable_memory_keeps_state (i : InstanceState) :
  Store.status i = "complete" ->
  parseInt (memavailable (memory (info i))) = NaN ->
  exists i',
    Service.getInstanceState (Resolved 200 (Some i)) = (Some i', [])
    /\ memavailable (memory (info i')) = "NaN"
    /\ state (info i') = state (info i).
Proof.
  intros Hs Hm. unfold Service.getInstanceState. cbn [Z.eqb Pos.eqb].
  rewrite Hs. cbn [String.eqb Ascii.eqb Bool.eqb].
  eexists. split; [reflexivity|]. cbn [info state memory memavailable].
  unfold Service.formatMemory. rewrite Hm. cbn. split; reflexivity.
Qed.

(* ================================================================== *)
(** * Further facts about the polling loops *)
(* ================================================================== *)

Section LoopFacts.

Variable stateAnswers : nat -> Response InstanceState.
Variable resultAnswers : nat -> Response Tracker.CommandResult.
Variable viewResult : bool.

#[local] Abbreviation pollResult :=
  (Tracker.pollResult resultAnswers viewResult).
#[local] Abbreviation pollBootScriptResult :=
  (Tracker.pollBootScriptResult resultAnswers viewResult).
#[local] Abbreviation waitFor := (Tracker.waitFor stateAnswers).
#[local] Abbreviation fetch := (Tracker.fetch stateAnswers).
#[local] Abbreviation createInstanceProgress :=
  (Tracker.createInstanceProgress stateAnswers resultAnswers viewResult).
#[local] Abbreviation powerInstanceDone :=
  (Tracker.powerInstanceDone stateAnswers).

Lemma total_delay_app (l1 l2 : list Effect) :
  total_delay (l1 ++ l2) = total_delay l1 + total_delay l2.
Proof.
  induction l1 as [|e l1 IH]; [reflexivity|].
  destruct e; simpl; rewrite IH; lia.
Qed.

(** What [getInstanceState] shows is at most one error message. *)
Lemma getInstanceState_shown (a : Response InstanceState) :
  snd (Service.getInstanceState a) = []
  \/ exists m, snd (Service.getInstanceState a) = [ShowErrorMessage m].
Proof.
  unfold Service.getInstanceState.
  destruct a as [http [i|]|e]; [| |right; eexists; reflexivity];
    [|left; reflexivity].
  destruct (http =? 200); [|left; reflexivity].
  destruct (String.eqb _ _); left; reflexivity.
Qed.

(** One fetch: the next answer is used, one request is made, no time is
    spent. *)
Lemma fetch_measure (instanceId : Z) (p : Tracker.Poll) :
  let p' := fetch instanceId p in
  Tracker.fetched p' = S (Tracker.fetched p)
  /\ Tracker.instanceState p'
     = fst (Service.getInstanceState (stateAnswers (Tracker.fetched p)))
  /\ count is_fetch (Tracker.made p') = S (count is_fetch (Tracker.made p))
  /\ total_delay (Tracker.made p') = total_delay (Tracker.made p)
  /\ count is_success (Tracker.made p') = count is_success (Tracker.made p)
  /\ (forall old new,
        map (retitled old new) (Tracker.made p')
        = map (retitled old new) (Tracker.made p)
          ++ Call (GetInstanceState instanceId)
             :: snd (Service.getInstanceState
                       (stateAnswers (Tracker.fetched p)))).
Proof.
  unfold Tracker.fetch.
  pose proof (getInstanceState_shown (stateAnswers (Tracker.fetched p))) as S.
  destruct (Service.getInstanceState (stateAnswers (Tracker.fetched p)))
    as [s shown].
  cbn [fst snd] in *. cbn [Tracker.fetched Tracker.instanceState Tracker.made].
  split; [reflexivity|]. split; [reflexivity|].
  rewrite !count_app, total_delay_app.
  destruct S as [->|[m ->]]; cbn; (split; [lia|]); (split; [lia|]);
    (split; [lia|]); intros old new; rewrite map_app; reflexivity.
Qed.

Lemma delay_measure (ms : Z) (p : Tracker.Poll) :
  let p' := Tracker.delay ms p in
  Tracker.fetched p' = Tracker.fetched p
  /\ Tracker.instanceState p' = Tracker.instanceState p
  /\ count is_fetch (Tracker.made p') = count is_fetch (Tracker.made p)
  /\ total_delay (Tracker.made p') = total_delay (Tracker.made p) + ms
  /\ count is_success (Tracker.made p') = count is_success (Tracker.made p)
  /\ (forall old new,
        map (retitled old new) (Tracker.made p')
        = map (retitled old new) (Tracker.made p) ++ [Delay ms]).
Proof.
  unfold Tracker.delay. cbn [Tracker.fetched Tracker.instanceState Tracker.made].
  rewrite !count_app, total_delay_app. cbn.
  repeat (split; [reflexivity || lia|]). intros. now rewrite map_app.
Qed.

(** The loop, whatever the answers: it fetches at most [n] times more, each
    fetch after a delay of two seconds, and it stops early only in the
    state waited for. *)
Lemma waitFor_measure (target : string) (instanceId : Z) (n : nat)
  (p : Tracker.Poll) :
  let p' := waitFor target instanceId n p in
  (Tracker.fetched p <= Tracker.fetched p' <= Tracker.fetched p + n)%nat
  /\ count is_fetch (Tracker.made p')
     = (count is_fetch (Tracker.made p)
        + (Tracker.fetched p' - Tracker.fetched p))%nat
  /\ total_delay (Tracker.made p')
     = total_delay (Tracker.made p)
       + 2000 * Z.of_nat (Tracker.fetched p' - Tracker.fetched p)
  /\ count is_success (Tracker.made p') = count is_success (Tracker.made p)
  /\ ((Tracker.fetched p' < Tracker.fetched p + n)%nat ->
      Tracker.in_state target (Tracker.instanceState p') = true)
  /\ (forall old new,
        exists l, map (retitled old new) (Tracker.made p')
                  = map (retitled old new) (Tracker.made p) ++ l
                  /\ Tracker.made p' = Tracker.made p ++ l).
Proof.
  revert p. induction n as [|n IH]; intros p; cbn [Tracker.waitFor].
  - destruct (Tracker.in_state target (Tracker.instanceState p)) eqn:E;
      cbv zeta; (split; [lia|]); (split; [lia|]);
      (split; [rewrite Nat.sub_diag; cbn; lia|]);
      (split; [reflexivity|]); (split; [lia|]);
      intros; exists []; now rewrite !app_nil_r.
  - destruct (Tracker.in_state target (Tracker.instanceState p)) eqn:E.
    + cbv zeta. split; [lia|]. split; [lia|].
      split; [rewrite Nat.sub_diag; cbn; lia|].
      split; [reflexivity|]. split; [intros _; exact E|].
      intros; exists []; now rewrite !app_nil_r.
    + specialize (IH (fetch instanceId (Tracker.delay 2000 p))).
      cbv zeta in IH |- *.
      set (p' := waitFor target instanceId n
                   (fetch instanceId (Tracker.delay 2000 p))) in *.
      pose proof (fetch_measure instanceId (Tracker.delay 2000 p)) as F.
      pose proof (delay_measure 2000 p) as D. cbv zeta in F, D.
      destruct F as (F1 & _ & F3 & F4 & F5 & F6).
      destruct D as (D1 & _ & D3 & D4 & D5 & D6).
      destruct IH as (I1 & I2 & I3 & I4 & I5 & I6).
      rewrite F1, D1 in *. rewrite F3, D3 in I2. rewrite F4, D4 in I3.
      rewrite F5, D5 in I4.
      split; [lia|]. split; [lia|]. split; [lia|]. split; [exact I4|].
      split; [intros H; apply I5; lia|].
      intros old new. destruct (I6 old new) as (l & L1 & L2).
      rewrite F6, D6 in L1.
      eexists. split.
      * rewrite L1, <- !app_assoc. reflexivity.
      * rewrite L2. unfold Tracker.fetch.
        destruct (Service.getInstanceState _) as [s shown].
        cbn [Tracker.made Tracker.delay Tracker.fetched snd].
        rewrite <- !app_assoc. reflexivity.
Qed.

(** The loop stops at the first answer in the state waited for. *)
Lemma waitFor_reaches (target : string) (instanceId : Z) (k n : nat)
  (p : Tracker.Poll) :
  Tracker.in_state target (Tracker.instanceState p) = false ->
  (forall j, (j < k)%nat ->
             Tracker.in_state target
               (fst (Service.getInstanceState
                       (stateAnswers (Tracker.fetched p + j)))) = false) ->
  Tracker.in_state target
    (fst (Service.getInstanceState (stateAnswers (Tracker.fetched p + k))))
  = true ->
  (k < n)%nat ->
  let p' := waitFor target instanceId n p in
  Tracker.fetched p' = (Tracker.fetched p + k + 1)%nat
  /\ Tracker.in_state target (Tracker.instanceState p') = true.
Proof.
  revert n p. induction k as [|k IH]; intros n p Hp Hbefore Hat Hn;
    (destruct n as [|n]; [lia|]); cbn [Tracker.waitFor]; rewrite Hp;
    pose proof (fetch_measure instanceId (Tracker.delay 2000 p)) as F;
    cbv zeta in F; destruct F as (F1 & F2 & _);
    cbn [Tracker.delay Tracker.fetched] in F1, F2.
  - rewrite Nat.add_0_r in Hat.
    assert (Tracker.in_state target
              (Tracker.instanceState (fetch instanceId (Tracker.delay 2000 p)))
            = true) as E by (rewrite F2; exact Hat).
    destruct n; cbn [Tracker.waitFor]; rewrite E; cbv beta iota zeta;
      (split; [rewrite F1; lia|exact E]).
  - assert (Tracker.in_state target
              (Tracker.instanceState (fetch instanceId (Tracker.delay 2000 p)))
            = false) as E.
    { rewrite F2. specialize (Hbefore 0%nat). rewrite Nat.add_0_r in Hbefore.
      apply Hbefore. lia. }
    specialize (IH n (fetch instanceId (Tracker.delay 2000 p)) E).
    rewrite F1 in IH. cbv zeta in IH |- *.
    destruct IH as [A B].
    + intros j Hj. replace (S (Tracker.fetched p) + j)%nat
        with (Tracker.fetched p + S j)%nat by lia. apply Hbefore. lia.
    + replace (S (Tracker.fetched p) + k)%nat
        with (Tracker.fetched p + S k)%nat by lia. exact Hat.
    + lia.
    + split; [rewrite A; lia|exact B].
Qed.

(** The loop of [createInstance] and [rebulidInstanceItems] that waits for
    "running", whatever the remote answers. *)
Lemma running_loop_measure (instanceId : Z) :
  let p := waitFor "running" instanceId Tracker.maxAttempts
             (fetch instanceId (Tracker.delay 2000 Tracker.start)) in
  (1 <= Tracker.fetched p <= 61)%nat
  /\ count is_fetch (Tracker.made p) = Tracker.fetched p
  /\ total_delay (Tracker.made p) = 2000 * Z.of_nat (Tracker.fetched p)
  /\ count is_success (Tracker.made p) = 0%nat
  /\ ((Tracker.fetched p < 61)%nat ->
      Tracker.in_state "running" (Tracker.instanceState p) = true).
Proof.
  cbv zeta.
  pose proof (fetch_measure instanceId (Tracker.delay 2000 Tracker.start)) as F.
  cbv zeta in F. destruct F as (F1 & _ & F3 & F4 & F5 & _).
  change (Tracker.fetched (Tracker.delay 2000 Tracker.start)) with 0%nat in F1.
  change (count is_fetch (Tracker.made (Tracker.delay 2000 Tracker.start)))
    with 0%nat in F3.
  change (total_delay (Tracker.made (Tracker.delay 2000 Tracker.start)))
    with 2000 in F4.
  change (count is_success (Tracker.made (Tracker.delay 2000 Tracker.start)))
    with 0%nat in F5.
  remember (fetch instanceId (Tracker.delay 2000 Tracker.start)) as p0 eqn:E0.
  clear E0.
  pose proof (waitFor_measure "running" instanceId Tracker.maxAttempts p0) as W.
  cbv zeta in W. unfold Tracker.maxAttempts in *.
  remember (waitFor "running" instanceId 60 p0) as p1 eqn:E1. clear E1.
  destruct W as (W1 & W2 & W3 & W4 & W5 & _).
  rewrite F1 in *. rewrite F3 in W2. rewrite F4 in W3. rewrite F5 in W4.
  split; [lia|]. split; [lia|]. split; [lia|]. split; [exact W4|].
  intros H. apply W5. lia.
Qed.


(** X11.  When the answer number [k] (from 0, at most 60) is the first one
    in state "running", the progress task of [createInstance] makes
    exactly [k + 1] requests and goes on with "running" as the state
    seen. *)
Theorem create_loop_stops_when_running (instanceId : Z) (bootScript : string)
  (k : nat) :
  (k <= 60)%nat ->
  (forall j, (j < k)%nat ->
             Tracker.in_state "running"
               (fst (Service.getInstanceState (stateAnswers j))) = false) ->
  Tracker.in_state "running"
    (fst (Service.getInstanceState (stateAnswers k))) = true ->
  let p := createInstanceProgress instanceId None bootScript in
  Tracker.fetched p = S k
  /\ Tracker.in_state "running" (Tracker.instanceState p) = true
  /\ total_delay (Tracker.made p) = 2000 * Z.of_nat (S k) + 1000.
Proof.
  intros Hk Hbefore Hat p.
  assert (Tracker.fetched p = S k
          /\ Tracker.in_state "running" (Tracker.instanceState p) = true
          /\ total_delay (Tracker.made p)
             = 2000 * Z.of_nat (Tracker.fetched p) + 1000)
    as (A1 & A2 & A3); [|rewrite <- A1; auto].
  subst p. unfold Tracker.createInstanceProgress. cbv zeta.
  cbn [Tracker.delay Tracker.report Tracker.fetched Tracker.instanceState
       Tracker.made].
  pose proof (running_loop_measure instanceId) as M. cbv zeta in M.
  destruct M as (_ & _ & M3 & _).
  rewrite !total_delay_app, M3.
  change (total_delay [ProgressReport "实例创建成功"]) with 0.
  change (total_delay [Delay 1000]) with 1000.
  clear M3.
  set (p0 := fetch instanceId (Tracker.delay 2000 Tracker.start)).
  pose proof (fetch_measure instanceId (Tracker.delay 2000 Tracker.start)) as F.
  cbv zeta in F. fold p0 in F. destruct F as (F1 & F2 & _).
  cbn [Tracker.delay Tracker.start Tracker.fetched] in F1, F2.
  destruct k as [|k].
  - assert (Tracker.in_state "running" (Tracker.instanceState p0) = true) as E
      by (rewrite F2; exact Hat).
    unfold Tracker.maxAttempts. cbn [Tracker.waitFor]. rewrite E.
    split; [exact F1|]. split; [exact E|lia].
  - assert (Tracker.in_state "running" (Tracker.instanceState p0) = false) as E
      by (rewrite F2; apply Hbefore; lia).
    pose proof (waitFor_reaches "running" instanceId k Tracker.maxAttempts p0 E)
      as W.
    rewrite F1 in W. cbv zeta in W. destruct W as [W1 W2].
    + intros j Hj. apply Hbefore. lia.
    + exact Hat.
    + unfold Tracker.maxAttempts. lia.
    + split; [rewrite W1; lia|]. split; [exact W2|lia].
Qed.

(** The result poll from any point on, whatever the answers: one entry
    in the script log, one notice, at most [n] requests, and five seconds
    after each request but the last one or after all of them. *)
Lemma pollResult_measure (instanceId : Z) (commandUid scriptName : string)
  (n attempts : nat) :
  let made := pollResult instanceId commandUid scriptName n attempts in
  count is_log_update made = 1%nat
  /\ count is_notice made = 1%nat
  /\ (count is_fetch made <= n)%nat
  /\ (count is_delay made <= count is_fetch made)%nat
  /\ total_delay made = 5000 * Z.of_nat (count is_delay made)
  /\ (forall old new, map (retitled old new) made = made).
Proof.
  cbv zeta. revert attempts. induction n as [|n IH]; intros attempts.
  - cbn. repeat (split; [reflexivity || lia|]). reflexivity.
  - specialize (IH (S attempts)).
    destruct IH as (I1 & I2 & I3 & I4 & I5 & I6).
    assert (N : let next := Delay 5000
                            :: pollResult instanceId commandUid scriptName n
                                 (S attempts) in
                count is_log_update next = 1%nat
                /\ count is_notice next = 1%nat
                /\ (count is_fetch next <= n)%nat
                /\ (S (count is_delay next) <= S (S (count is_fetch next)))%nat
                /\ (count is_delay next <= S (count is_fetch next))%nat
                /\ total_delay next = 5000 * Z.of_nat (count is_delay next)
                /\ (forall old new, map (retitled old new) next = next)).
    { cbv zeta. unfold count in *. cbn [filter is_log_update is_notice is_fetch
                                       is_delay List.length total_delay map
                                       retitled].
      split; [exact I1|]. split; [exact I2|]. split; [exact I3|].
      split; [lia|]. split; [lia|]. split; [lia|].
      intros old new. now rewrite I6. }
    cbv zeta in N. destruct N as (N1 & N2 & N3 & N4 & N4' & N5 & N6).
    cbn [Tracker.pollResult].
    remember (Delay 5000 :: pollResult instanceId commandUid scriptName n
                              (S attempts)) as next eqn:En. clear En.
    assert (C : forall f : Effect -> bool, forall l,
              count f (Call (GetCommandResult instanceId commandUid) :: l)
              = ((if f (Call (GetCommandResult instanceId commandUid))
                  then 1 else 0) + count f l)%nat).
    { intros f l. unfold count. cbn [filter].
      destruct (f _); reflexivity. }
    assert (Hnext : count is_log_update
                      (Call (GetCommandResult instanceId commandUid) :: next)
                    = 1%nat
                    /\ count is_notice
                         (Call (GetCommandResult instanceId commandUid) :: next)
                       = 1%nat
                    /\ (count is_fetch
                          (Call (GetCommandResult instanceId commandUid) :: next)
                        <= S n)%nat
                    /\ (count is_delay
                          (Call (GetCommandResult instanceId commandUid) :: next)
                        <= count is_fetch
                             (Call (GetCommandResult instanceId commandUid)
                                :: next))%nat
                    /\ total_delay
                         (Call (GetCommandResult instanceId commandUid) :: next)
                       = 5000 * Z.of_nat
                                  (count is_delay
                                     (Call (GetCommandResult instanceId
                                              commandUid) :: next))
                    /\ (forall old new,
                          map (retitled old new)
                            (Call (GetCommandResult instanceId commandUid)
                               :: next)
                          = Call (GetCommandResult instanceId commandUid)
                              :: next)).
    { rewrite !C. cbn [is_log_update is_notice is_fetch is_delay total_delay].
      split; [lia|]. split; [lia|]. split; [lia|]. split; [lia|].
      split; [rewrite N5; f_equal|].
      intros old new. cbn [map retitled]. now rewrite N6. }
    destruct (resultAnswers attempts) as [http data|e].
    + destruct (http =? 200); [|exact Hnext].
      destruct data as [[[[|c r]|]]|]; try exact Hnext.
      destruct viewResult; cbn;
        repeat (split; [reflexivity || lia|]); reflexivity.
    + destruct (has_status e 202); [exact Hnext|].
      cbn. repeat (split; [reflexivity || lia|]). reflexivity.
Qed.

Lemma pollResult_first (instanceId : Z) (commandUid scriptName : string)
  (n attempts : nat) :
  (1 <= count is_fetch
          (pollResult instanceId commandUid scriptName (S n) attempts))%nat.
Proof.
  cbn [Tracker.pollResult]. unfold count. cbn [filter is_fetch List.length].
  lia.
Qed.

(** X12.  [pollBootScriptResult], whatever the remote answers: it makes
    between 1 and 180 requests, writes the script log exactly once, shows
    exactly one message (success, failure or time-out), and spends five
    seconds per delay, at most fifteen minutes in all. *)
Theorem boot_script_poll_bounds (instanceId : Z)
  (commandUid scriptName : string) :
  let made := pollBootScriptResult instanceId commandUid scriptName in
  (1 <= count is_fetch made <= 180)%nat
  /\ count is_log_update made = 1%nat
  /\ count is_notice made = 1%nat
  /\ (count is_delay made <= count is_fetch made)%nat
  /\ total_delay made = 5000 * Z.of_nat (count is_delay made)
  /\ total_delay made <= 900000.
Proof.
  pose proof (pollResult_measure instanceId commandUid scriptName 180 0) as M.
  cbv zeta in M |- *. unfold Tracker.pollBootScriptResult.
  destruct M as (M1 & M2 & M3 & M4 & M5 & _).
  pose proof (pollResult_first instanceId commandUid scriptName 179 0) as L.
  repeat (split; [assumption || lia|]). lia.
Qed.

(** X13.  When the first [k] answers (fewer than 180) are pending and the
    next one is a 200 with output, the poll ends there: [k] empty polls,
    one more request, the log entry marked completed with the output, the
    success dialog, and the command that shows the result exactly when the
    user asks for it. *)
Theorem boot_script_result_at (instanceId : Z)
  (commandUid scriptName : string) (k : nat) (c : ascii) (out : string) :
  (k < 180)%nat ->
  (forall j, (j < k)%nat -> pending (resultAnswers j) = true) ->
  resultAnswers k
  = Resolved 200 (Some {| Tracker.output := Some (String c out) |}) ->
  pollBootScriptResult instanceId commandUid scriptName
  = empty_polls instanceId commandUid k
    ++ [Call (GetCommandResult instanceId commandUid);
        UpdateLogEntry commandUid "completed" (String c out);
        ShowInformationMessage ("脚本 " ++ scriptName ++ " 执行成功")%string]
    ++ (if viewResult
        then [ExecuteCommand "alice.showScriptResult" commandUid] else []).
Proof.
  intros Hk Hpending Hat. unfold Tracker.pollBootScriptResult.
  replace 180%nat with (k + S (179 - k))%nat by lia.
  rewrite pending_run by (intros j Hj; apply Hpending; exact Hj).
  f_equal. cbn [Tracker.pollResult Nat.add]. rewrite Hat.
  cbn [Z.eqb Pos.eqb]. destruct viewResult; reflexivity.
Qed.


(** X15.  The progress task of [rebulidInstanceItems] is the one of
    [createInstance] with another text in the success report: the same
    requests, delays and messages in the same order, the same number of
    answers used and the same state seen last. *)
Theorem rebuild_progress_is_create_progress (instanceId : Z)
  (bootScriptUid : option string) (bootScript : string) :
  let c := createInstanceProgress instanceId bootScriptUid bootScript in
  let r := Menu.rebuildInstanceProgress stateAnswers resultAnswers viewResult
             instanceId bootScriptUid bootScript in
  Tracker.made r = map (retitled "实例创建成功" "实例重装成功") (Tracker.made c)
  /\ Tracker.fetched r = Tracker.fetched c
  /\ Tracker.instanceState r = Tracker.instanceState c.
Proof.
  unfold Tracker.createInstanceProgress, Menu.rebuildInstanceProgress.
  cbv zeta.
  pose proof (waitFor_measure "running" instanceId Tracker.maxAttempts
                (fetch instanceId (Tracker.delay 2000 Tracker.start))) as W.
  cbv zeta in W. destruct W as (_ & _ & _ & _ & _ & W).
  destruct (W "实例创建成功" "实例重装成功") as (l & L1 & L2). clear W.
  pose proof (fetch_measure instanceId (Tracker.delay 2000 Tracker.start)) as F.
  cbv zeta in F. destruct F as (_ & _ & _ & _ & _ & F).
  specialize (F "实例创建成功" "实例重装成功").
  change (map (retitled "实例创建成功" "实例重装成功")
              (Tracker.made (Tracker.delay 2000 Tracker.start)))
    with [Delay 2000] in F.
  assert (K : Tracker.made (fetch instanceId (Tracker.delay 2000 Tracker.start))
              = map (retitled "实例创建成功" "实例重装成功")
                    (Tracker.made
                       (fetch instanceId (Tracker.delay 2000 Tracker.start)))).
  { rewrite F. unfold Tracker.fetch.
    destruct (Service.getInstanceState _) as [s shown]. reflexivity. }
  assert (M : Tracker.made
                (waitFor "running" instanceId Tracker.maxAttempts
                   (fetch instanceId (Tracker.delay 2000 Tracker.start)))
              = map (retitled "实例创建成功" "实例重装成功")
                    (Tracker.made
                       (waitFor "running" instanceId Tracker.maxAttempts
                          (fetch instanceId
                             (Tracker.delay 2000 Tracker.start))))).
  { rewrite L1, <- K. exact L2. }
  remember (waitFor "running" instanceId Tracker.maxAttempts
              (fetch instanceId (Tracker.delay 2000 Tracker.start)))
    as p1 eqn:E1. clear E1 L1 L2 F K.
  pose proof (pollResult_measure instanceId) as P.
  destruct bootScriptUid as [[|c u]|]; [| destruct bootScript as [|b s] |];
    cbn [Tracker.delay Tracker.report Tracker.made Tracker.fetched
         Tracker.instanceState];
    rewrite ?map_app, <- M; (split; [|split; reflexivity]);
    try reflexivity.
  unfold Tracker.pollBootScriptResult.
  specialize (P (String c u) (String b s) 180%nat 0%nat). cbv zeta in P.
  destruct P as (_ & _ & _ & _ & _ & P). rewrite P.
  reflexivity.
Qed.

End LoopFacts.

(* ================================================================== *)
(** * Further facts about parsing: digits followed by other text *)
(* ================================================================== *)

Lemma append_empty (s : string) : (s ++ EmptyString)%string = s.
Proof. induction s as [|c s IH]; [reflexivity|]. cbn. now rewrite IH. Qed.

Lemma nzhead_not_D0 (u v : uint) : nzhead u <> D0 v.
Proof. induction u; simpl; try discriminate. exact IHu. Qed.

(** The decimal form of a positive integer has no leading zero. *)
Lemma to_uint_no_leading_zero (p : positive) (u : uint) :
  Pos.to_uint p <> D0 u.
Proof.
  intros E.
  pose proof (DecimalPos.Unsigned.to_of (Pos.to_uint p)) as T.
  rewrite DecimalPos.Unsigned.of_to in T. cbn [N.to_uint] in T.
  rewrite E, DecimalFacts.unorm_D0 in T.
  unfold unorm in T. destruct (nzhead u) eqn:Hz;
    try discriminate T; try (apply (nzhead_not_D0 u u0); exact Hz).
  injection T as T. subst u.
  exact (DecimalPos.Unsigned.to_uint_nonzero p E).
Qed.

Lemma digit_not_space (c : ascii) : digit c <> None -> is_space c = false.
Proof.
  intros H.
  destruct c as [[|] [|] [|] [|] [|] [|] [|] [|]]; try reflexivity;
    exfalso; apply H; reflexivity.
Qed.

(** The decimal form of a non-negative integer: digits, the first of them
    not "0" when the integer is positive. *)
Lemma print_digits (n : Z) :
  0 <= n ->
  exists u c s,
    u <> Nil /\ Z.of_uint u = n
    /\ Z_to_string n = NilEmpty.string_of_uint u
    /\ NilEmpty.string_of_uint u = String c s
    /\ digit c <> None
    /\ (1 <= n -> c <> "0"%char).
Proof.
  intros Hn. destruct (print_nonnegative n Hn) as (u & Hu & Hi & Hs).
  destruct (head_print u Hu) as (c & s & E & Hc).
  exists u, c, s. split; [exact Hu|].
  split; [rewrite <- (DecimalZ.of_to n), Hi; reflexivity|].
  split; [exact Hs|]. split; [exact E|]. split; [exact Hc|].
  intros H1 ->. destruct n as [|p|p]; try lia.
  cbn in Hi. injection Hi as Hi.
  destruct u; try discriminate E.
  exact (to_uint_no_leading_zero p u Hi).
Qed.

Lemma trimEnd_keeps_head (c : ascii) (r : string) :
  is_space c = false -> exists r', trimEnd (String c r) = String c r'.
Proof.
  intros H. cbn [trimEnd]. destruct (trimEnd r); [rewrite H|];
    eexists; reflexivity.
Qed.

Lemma trimEnd_app (s t : string) (c : ascii) (t' : string) :
  trimEnd t = String c t' ->
  trimEnd (s ++ t)%string = (s ++ String c t')%string.
Proof.
  intros H. induction s as [|a s IH]; cbn [append trimEnd]; [exact H|].
  rewrite IH. destruct s; reflexivity.
Qed.

(** Trimming digits followed by text that does not start with white
    space keeps the digits and the first character after them. *)
Lemma trim_print_tail (n : Z) (c : ascii) (r : string) :
  0 <= n -> is_space c = false ->
  exists r', trim (Z_to_string n ++ String c r)
             = (Z_to_string n ++ String c r')%string.
Proof.
  intros Hn Hc. destruct (print_digits n Hn) as (u & d & s & _ & _ & E1 & E2 & Hd & _).
  destruct (trimEnd_keeps_head c r Hc) as (r' & T).
  exists r'. unfold trim.
  replace (trimStart (Z_to_string n ++ String c r))
    with (Z_to_string n ++ String c r)%string.
  - now apply trimEnd_app.
  - rewrite E1, E2. cbn [append trimStart].
    now rewrite (digit_not_space d Hd).
Qed.

Lemma parseInt_print_tail (n : Z) (c : ascii) (r : string) :
  0 <= n -> digit c = None ->
  parseInt (Z_to_string n ++ String c r) = Num n.
Proof.
  intros Hn Hc.
  destruct (print_digits n Hn) as (u & d & s & Hu & Hv & E1 & E2 & Hd & _).
  unfold parseInt. rewrite E1.
  replace (trimStart (NilEmpty.string_of_uint u ++ String c r))
    with (NilEmpty.string_of_uint u ++ String c r)%string
    by (rewrite E2; cbn [append trimStart];
        now rewrite (digit_not_space d Hd)).
  replace (sign (NilEmpty.string_of_uint u ++ String c r))
    with (false, (NilEmpty.string_of_uint u ++ String c r)%string)
    by (rewrite E2; cbn [append]; symmetry; now apply sign_digit).
  rewrite span_digits_print by exact Hc.
  destruct u; try congruence; cbn [signed]; now rewrite Hv.
Qed.

Lemma StrDecimalLiteral_print_tail (n : Z) (c : ascii) (r : string) :
  0 <= n -> digit c = None ->
  c <> "."%char -> c <> "e"%char -> c <> "E"%char ->
  StrDecimalLiteral (Z_to_string n ++ String c r)
  = Some (Num n, String c r).
Proof.
  intros Hn Hc Hdot He HE.
  destruct (print_digits n Hn) as (u & d & s & Hu & Hv & E1 & E2 & Hd & _).
  unfold StrDecimalLiteral. rewrite E1.
  replace (sign (NilEmpty.string_of_uint u ++ String c r))
    with (false, (NilEmpty.string_of_uint u ++ String c r)%string)
    by (rewrite E2; cbn [append]; symmetry; now apply sign_digit).
  replace (starts_with "Infinity" (NilEmpty.string_of_uint u ++ String c r))
    with false
    by (rewrite E2; cbn [append]; symmetry; now apply not_Infinity).
  rewrite span_digits_print by exact Hc.
  assert (D : match String c r with
              | String "." r0 => span_digits r0
              | _ => (Nil, String c r)
              end = (Nil, String c r)).
  { destruct c as [[|] [|] [|] [|] [|] [|] [|] [|]]; try reflexivity.
    exfalso. apply Hdot. reflexivity. }
  rewrite D.
  replace (is_nil u) with false by (destruct u; congruence || reflexivity).
  cbn [andb].
  assert (X : exponent_part (String c r) = (0, String c r)).
  { unfold exponent_part.
    destruct (Ascii.eqb_spec c "e") as [->|_]; [exfalso; now apply He|].
    destruct (Ascii.eqb_spec c "E") as [->|_]; [exfalso; now apply HE|].
    reflexivity. }
  rewrite X, DecimalFacts.app_nil_r. unfold decimal. cbn.
  now rewrite Z.mul_1_r, Hv.
Qed.

Lemma parseFloat_print_tail (n : Z) (c : ascii) (r : string) :
  0 <= n -> digit c = None ->
  c <> "."%char -> c <> "e"%char -> c <> "E"%char ->
  parseFloat (Z_to_string n ++ String c r) = Num n.
Proof.
  intros Hn Hc Hdot He HE.
  destruct (print_digits n Hn) as (u & d & s & _ & _ & E1 & E2 & Hd & _).
  unfold parseFloat.
  replace (trimStart (Z_to_string n ++ String c r))
    with (Z_to_string n ++ String c r)%string
    by (rewrite E1, E2; cbn [append trimStart];
        now rewrite (digit_not_space d Hd)).
  now rewrite StrDecimalLiteral_print_tail.
Qed.

Lemma non_decimal_head (d : ascii) (r : string) :
  d <> "0"%char -> non_decimal (String d r) = None.
Proof.
  intros H. unfold non_decimal.
  destruct d as [[|] [|] [|] [|] [|] [|] [|] [|]]; try reflexivity.
  exfalso. apply H. reflexivity.
Qed.

(** [Number] does not read digits followed by other text. *)
Lemma Number_print_tail (n : Z) (c : ascii) (r : string) :
  1 <= n -> digit c = None -> is_space c = false ->
  c <> "."%char -> c <> "e"%char -> c <> "E"%char ->
  Number_of_string (Z_to_string n ++ String c r) = NaN.
Proof.
  intros Hn Hc Hs Hdot He HE.
  destruct (trim_print_tail n c r) as (r' & T); [lia|exact Hs|].
  unfold Number_of_string. rewrite T.
  rewrite StrDecimalLiteral_print_tail by (assumption || lia).
  destruct (print_digits n) as (u & d & s & _ & _ & E1 & E2 & _ & Hz); [lia|].
  rewrite E1, E2. cbn [append].
  rewrite non_decimal_head by (apply Hz; lia). reflexivity.
Qed.

Lemma parseInt_cases (s : string) :
  parseInt s = NaN \/ exists z, parseInt s = Num z.
Proof.
  unfold parseInt. destruct (sign (trimStart s)) as [neg r].
  destruct (span_digits r) as [u rest].
  destruct u; [left; reflexivity|..]; right; eexists; reflexivity.
Qed.

Lemma parseInt_auto_cases (s : string) :
  Menu.parseInt_auto s = NaN \/ exists z, Menu.parseInt_auto s = Num z.
Proof.
  unfold Menu.parseInt_auto. destruct (sign (trimStart s)) as [neg r].
  destruct r as [|a r]; [apply parseInt_cases|].
  destruct a as [[|] [|] [|] [|] [|] [|] [|] [|]]; try apply parseInt_cases.
  destruct r as [|c rest]; [apply parseInt_cases|].
  destruct (Ascii.eqb c "x" || Ascii.eqb c "X")%bool; [|apply parseInt_cases].
  destruct (Menu.hex_prefix None rest); [right; eexists|left]; reflexivity.
Qed.

(** Without a radix [parseInt] reads a string that starts with a digit
    other than "0" in radix 10. *)
Lemma parseInt_auto_decimal (d : ascii) (s : string) :
  digit d <> None -> d <> "0"%char ->
  Menu.parseInt_auto (String d s) = parseInt (String d s).
Proof.
  intros Hd Hz. unfold Menu.parseInt_auto. cbn [trimStart].
  rewrite (digit_not_space d Hd), (sign_digit d s Hd).
  destruct d as [[|] [|] [|] [|] [|] [|] [|] [|]]; try reflexivity;
    exfalso; apply Hz; reflexivity.
Qed.

(* ================================================================== *)
(** * Further facts about the create wizard *)
(* ================================================================== *)

Section WizardInvariants.

Variable CONFIG : Config.
Variable getScriptList : string -> option (list QuickPickItem).

#[local] Abbreviation updateView := (Wizard.updateView CONFIG getScriptList).
#[local] Abbreviation dispatch := (Wizard.dispatch CONFIG getScriptList).
#[local] Abbreviation run := (Wizard.run CONFIG getScriptList).
#[local] Abbreviation timeError := (Wizard.timeError CONFIG).

(** An input that passes the validation is read as an integer that is at
    least 1 and not above the maximum. *)
Lemma timeError_valid (input : string) :
  timeError input = None -> valid_duration CONFIG (parseInt (trim input)).
Proof.
  unfold Wizard.timeError, valid_duration. intros H.
  destruct (parseInt_cases (trim input)) as [E|[z E]]; rewrite E in *.
  - discriminate H.
  - cbn [isNaN orb] in H. rewrite le0_Num in H.
    destruct (Z.leb_spec z 0); [discriminate H|].
    destruct (negb _); [discriminate H|].
    destruct (gt (Num z) _) eqn:G; [discriminate H|].
    exists z. split; [reflexivity|]. split; [lia|exact G].
Qed.

#[local] Ltac piece H1 H2 H4 H5 :=
  first
    [ lia
    | reflexivity
    | exact H1
    | discriminate
    | intros _; discriminate
    | intros _; reflexivity
    | intros _; apply H2; reflexivity
    | exact H2
    | exact H4
    | let r0 := fresh "r0" in
      let E := fresh "E" in
      let Hc := fresh "Hc" in
      intros r0 E Hc;
      first [ reflexivity
            | exact (H4 r0 E Hc)
            | inversion E; subst r0; discriminate Hc ]
    | let A := fresh "A" in
      intros A;
      first [ apply timeError_valid; assumption
            | apply H5;
              first [ left; lia
                    | right; reflexivity
                    | destruct A as [A|A];
                      first [left; lia | right; exact A | exfalso; lia] ] ] ].

Lemma dispatch_in_order (st : State) (ev : Event) :
  in_order CONFIG st -> in_order CONFIG (dispatch st ev).
Proof.
  unfold in_order.
  destruct st as [p s e c r [qs qi qv qvis qd] t].
  open_wizard.
  intros (H0 & H1 & H2 & H3 & H4 & H5).
  destruct qd.
  { split; [exact H0|]. split; [exact H1|]. split; [exact H2|].
    split; [exact H3|]. split; [exact H4|exact H5]. }
  destruct ev as [sel input|].
  2:{ destruct c, r; open_wizard;
        (split; [exact H0|]); (split; [exact H1|]);
        (split; [piece H1 H2 H4 H5|]); (split; [piece H1 H2 H4 H5|]);
        (split; [piece H1 H2 H4 H5|exact H5]). }
  destruct sel as [[|l d]|]; destruct s; calc_steps; open_wizard;
    try destruct d as [[|ch d]|]; open_wizard;
    repeat match goal with
      | |- context [Wizard.timeError ?c ?i] =>
          let TE := fresh "TE" in destruct (Wizard.timeError c i) eqn:TE
      end;
    destruct r; open_wizard; split_matches;
    cbn [Store.time with_id with_os with_time with_sshKey with_bootScript];
    calc_steps;
    (split; [piece H1 H2 H4 H5|]); (split; [piece H1 H2 H4 H5|]);
    (split; [piece H1 H2 H4 H5|]); (split; [piece H1 H2 H4 H5|]);
    (split; [piece H1 H2 H4 H5|piece H1 H2 H4 H5]).
Qed.

Lemma run_in_order (st : State) (evs : list Event) :
  in_order CONFIG st -> in_order CONFIG (run st evs).
Proof.
  revert st. induction evs as [|ev evs IH]; intros st H; [exact H|].
  apply IH, dispatch_in_order, H.
Qed.

Lemma fresh_in_order (default_plan : option Plan) :
  in_order CONFIG (updateView (Wizard.fresh default_plan)).
Proof.
  unfold in_order, Wizard.fresh. open_wizard. calc_steps.
  split; [lia|]. split; [reflexivity|]. split; [discriminate|].
  split; [discriminate|]. split; [discriminate|].
  intros [A|A]; [lia|discriminate A].
Qed.

(** X16.  However the create wizard is driven, it stays on one of its
    five steps and the step number shown by the quick pick is that of the
    current step: between 1 and the five announced as the total. *)
Theorem wizard_step_in_range (default_plan : option Plan)
  (evs : list Event) :
  let st := run (updateView (Wizard.fresh default_plan)) evs in
  0 <= index (currentStep st) <= 4
  /\ step (quickPick st) = index (currentStep st) + 1
  /\ 1 <= step (quickPick st) <= 5.
Proof.
  intros st.
  destruct (run_in_order _ evs (fresh_in_order default_plan))
    as (H0 & H1 & _).
  fold st in H0, H1.
  assert (0 <= index (currentStep st)) by (destruct (currentStep st); cbn; lia).
  split; [lia|]. split; [exact H1|lia].
Qed.

(** X17.  As long as a run of the create wizard has not settled, hiding
    the quick pick settles it as cancelled, with no plan and no message,
    and disposes the quick pick, after which no event changes anything. *)
Theorem hide_cancels (default_plan : option Plan) (evs : list Event) :
  let st := run (updateView (Wizard.fresh default_plan)) evs in
  settled st = None ->
  Wizard.result (dispatch st Hidden)
  = Some {| status := cancelled; plan := None; message := None |}
  /\ disposed (quickPick (dispatch st Hidden)) = true
  /\ (forall more, run (dispatch st Hidden) more = dispatch st Hidden).
Proof.
  intros st Hs.
  destruct (run_in_order _ evs (fresh_in_order default_plan))
    as (_ & _ & H2 & H3 & _).
  fold st in H2, H3.
  assert (D : Wizard.result (dispatch st Hidden)
              = Some {| status := cancelled; plan := None; message := None |}
              /\ disposed (quickPick (dispatch st Hidden)) = true).
  { destruct st as [p s e c r [qs qi qv qvis qd] t]. open_wizard.
    subst r.
    destruct qd; [exfalso; now apply H3|].
    destruct c; [exfalso; now apply H2|].
    open_wizard. split; reflexivity. }
  destruct D as [D1 D2]. split; [exact D1|]. split; [exact D2|].
  intros more. now apply run_disposed.
Qed.

(** X18.  Whatever the default plan and however the create wizard is
    driven, a result with status completed carries a plan whose duration
    is an integer between 1 and the maximum of the permissions. *)
Theorem completed_duration_in_range (default_plan : option Plan)
  (evs : list Event) (m : Z) (res : CreateInstanceResult) :
  max_time (evoPermissions CONFIG) = Num m ->
  Wizard.result (run (updateView (Wizard.fresh default_plan)) evs)
  = Some res ->
  status res = completed ->
  exists p n, plan res = Some p /\ time p = Num n /\ 1 <= n <= m.
Proof.
  intros Hmax Hres Hst.
  pose proof (run_in_order _ evs (fresh_in_order default_plan)) as I.
  pose proof (run_on_track CONFIG getScriptList _ evs []
                (fresh_on_track CONFIG getScriptList default_plan)) as T.
  remember (run (updateView (Wizard.fresh default_plan)) evs) as st eqn:Est.
  clear Est.
  destruct I as (_ & _ & _ & _ & I4 & I5). destruct T as (_ & _ & T).
  unfold Wizard.result in Hres. destruct (settled st) as [r|] eqn:Er;
    [|discriminate Hres].
  injection Hres as <-. cbn [status plan] in *.
  destruct (T r eq_refl Hst) as [-> _].
  destruct (I5 (or_intror (I4 _ eq_refl eq_refl))) as (n & En & Hn & G).
  exists (thisPlan st), n. split; [reflexivity|]. split; [exact En|].
  rewrite Hmax, gt_Num in G. destruct (Z.ltb_spec m n); [discriminate G|lia].
Qed.

(** X19.  The validation of the duration step is sound for every input:
    what it lets through is read by [parseInt] as an integer between 1 and
    the maximum, and that integer is what the step stores. *)
Theorem accepted_duration_is_sound (input : string) (m : Z) :
  max_time (evoPermissions CONFIG) = Num m ->
  timeError input = None ->
  exists n, parseInt (trim input) = Num n /\ 1 <= n <= m
            /\ forall sel st,
                 currentStep st = EnterTime -> sel <> Some backItem ->
                 time (thisPlan (Wizard.onDidAccept CONFIG getScriptList
                                   sel input st)) = Num n.
Proof.
  intros Hmax H. destruct (timeError_valid input H) as (n & En & Hn & G).
  exists n. split; [exact En|].
  rewrite Hmax, gt_Num in G.
  split; [destruct (Z.ltb_spec m n); [discriminate G|lia]|].
  intros sel st Hs Hsel.
  destruct (accepted_advances CONFIG getScriptList sel input st Hs Hsel H)
    as (_ & P & _).
  rewrite P. cbn [time with_time]. exact En.
Qed.

(** X20.  The validation does not require the input to be digits only: an
    integer between 1 and the maximum followed by text that starts with
    neither a digit, a point, an exponent mark nor white space passes, and
    the integer in front is what is stored. *)
Theorem trailing_text_is_accepted (n m : Z) (r : string) :
  max_time (evoPermissions CONFIG) = Num m ->
  1 <= n <= m ->
  plain_tail r ->
  timeError (Z_to_string n ++ r) = None
  /\ parseInt (trim (Z_to_string n ++ r)) = Num n.
Proof.
  intros Hmax Hn Hr. destruct r as [|c r]; [contradiction|].
  destruct Hr as (Hd & Hs & Hdot & He & HE).
  destruct (trim_print_tail n c r) as (r' & T); [lia|exact Hs|].
  unfold Wizard.timeError. rewrite T.
  rewrite parseInt_print_tail by (assumption || lia).
  rewrite parseFloat_print_tail by (assumption || lia).
  rewrite Hmax, le0_Num, strict_eq_Num, gt_Num, Z.eqb_refl.
  cbn [isNaN orb negb].
  destruct (Z.leb_spec n 0); [lia|].
  destruct (Z.ltb_spec m n); [lia|]. split; reflexivity.
Qed.

(** X21.  At the first step, choosing an item whose id is not that of a
    plan in the store, or is that of a plan with an empty list of
    operating systems, settles the run with status error, no plan and a
    message naming the id; the quick pick is hidden, not shown. *)
Theorem unusable_plan_is_an_error (st : State) (p : Plan) (l input : string)
  (ch : ascii) (d : string) :
  at_step st SelectPlan p ->
  let chosen := Number (Some (String ch d)) in
  let found := find (fun pc => strict_eq (Num (p_id pc)) chosen)
                    (planList CONFIG) in
  let st' := dispatch st (Accept (Some (Item l (Some (String ch d)))) input) in
  (found = None ->
   Wizard.result st'
   = Some {| status := error; plan := None;
             message := Some [Lit "未能找到 Plan ID 为 "; Interp chosen;
                              Lit " 的 OS 列表。"] |}
   /\ visible (quickPick st') = false
   /\ trace st'
      = trace st
        ++ [Resolve {| r_status := error; r_plan := null;
                       r_message := Some [Lit "未能找到 Plan ID 为 ";
                                          Interp chosen;
                                          Lit " 的 OS 列表。"] |}; Hide])
  /\ (forall pc, found = Some pc -> p_os pc = [] ->
      Wizard.result st'
      = Some {| status := error; plan := None;
                message := Some [Lit "Plan ID "; Interp chosen;
                                 Lit " 没有可用的操作系统。"] |}
      /\ visible (quickPick st') = false
      /\ trace st'
         = trace st
           ++ [Resolve {| r_status := error; r_plan := null;
                          r_message := Some [Lit "Plan ID "; Interp chosen;
                                             Lit " 没有可用的操作系统。"] |};
               Hide]).
Proof.
  intros (Hs & Hp & Hr & Hd) chosen found st'.
  subst st' found chosen.
  destruct st as [p0 s e c r [qs qi qv qvis qd] t].
  cbn [currentStep thisPlan settled quickPick disposed] in Hs, Hp, Hr, Hd.
  subst s p0 r qd. open_wizard. cbn [id with_id].
  split.
  - intros ->. open_wizard. rewrite <- app_assoc.
    split; [reflexivity|]. split; reflexivity.
  - intros pc -> Hos. rewrite Hos. open_wizard. rewrite <- app_assoc.
    split; [reflexivity|]. split; reflexivity.
Qed.

End WizardInvariants.

(* ================================================================== *)
(** * The rebuild wizard *)
(* ================================================================== *)

#[local] Ltac open_rebuild :=
  cbv beta iota zeta delta
    [Rebuild.updateView Rebuild.onDidHide Rebuild.onDidAccept Rebuild.dispatch
     Rebuild.result Rebuild.resolve Rebuild.hide Rebuild.show Rebuild.dispose
     Rebuild.act Rebuild.set_items Rebuild.cleared Rebuild.with_quickPick
     Rebuild.with_currentStep Rebuild.with_info Rebuild.with_isCompleted
     Rebuild.thisInfo Rebuild.currentStep Rebuild.isCompleted Rebuild.settled
     Rebuild.quickPick Rebuild.trace step items value visible disposed
     chosen_description description label is_backItem negb] in *.

#[local] Ltac calc_rebuild :=
  cbv beta iota delta
    [Rebuild.index Rebuild.decrement Z.ltb Z.eqb Z.leb Z.add Z.compare
     Pos.compare Pos.compare_cont Pos.eqb Pos.add Pos.succ orb andb negb] in *.

Section RebuildFacts.

Variable CONFIG : Config.
Variable getScriptList : string -> option (list QuickPickItem).

#[local] Abbreviation rebuildView := (Rebuild.updateView CONFIG getScriptList).
#[local] Abbreviation rebuildDispatch :=
  (Rebuild.dispatch CONFIG getScriptList).
#[local] Abbreviation rebuildRun := (Rebuild.run CONFIG getScriptList).
#[local] Abbreviation rebulidInstanceMultiStep :=
  (Rebuild.rebulidInstanceMultiStep CONFIG getScriptList).

Lemma osItem_not_back (l : list OS) : ~ In backItem (map Wizard.osItem l).
Proof.
  induction l as [|o l IH]; [intros []|].
  intros [H|H]; [discriminate H|exact (IH H)].
Qed.

(** X22.  The rebuild wizard opens on the operating systems of the plan it
    was given.  When the store has no plan with that id, or the plan has
    no operating system, it settles at once with status error, no rebuild
    information and a message naming the id, and the quick pick is never
    shown; otherwise it shows step 1 of 3 with one item per operating
    system and, this being the first step, no item to go back. *)
Theorem rebuild_start (plan : number) :
  let st := rebulidInstanceMultiStep plan in
  let found := find (fun p => strict_eq (Num (p_id p)) plan)
                    (planList CONFIG) in
  (found = None ->
   Rebuild.result st
   = Some {| Rebuild.status := error; Rebuild.rebulidInfo := None;
             Rebuild.message := Some [Lit "未能找到 Plan ID 为 "; Interp plan;
                                      Lit " 的 OS 列表。"] |}
   /\ Rebuild.trace st
      = [Rebuild.Resolve
           {| Rebuild.r_status := error; Rebuild.r_info := Rebuild.null;
              Rebuild.r_message := Some [Lit "未能找到 Plan ID 为 ";
                                         Interp plan; Lit " 的 OS 列表。"] |};
         Rebuild.Hide])
  /\ (forall pc, found = Some pc -> p_os pc = [] ->
      Rebuild.result st
      = Some {| Rebuild.status := error; Rebuild.rebulidInfo := None;
                Rebuild.message := Some [Lit "Plan ID "; Interp plan;
                                         Lit " 没有可用的操作系统。"] |}
      /\ Rebuild.trace st
         = [Rebuild.Resolve
              {| Rebuild.r_status := error; Rebuild.r_info := Rebuild.null;
                 Rebuild.r_message := Some [Lit "Plan ID "; Interp plan;
                                            Lit " 没有可用的操作系统。"] |};
            Rebuild.Hide])
  /\ (forall pc, found = Some pc -> p_os pc <> [] ->
      Rebuild.settled st = None
      /\ Rebuild.trace st = [Rebuild.Show Rebuild.SelectOS]
      /\ step (Rebuild.quickPick st) = 1
      /\ items (Rebuild.quickPick st) = map Wizard.osItem (p_os pc)
      /\ ~ In backItem (items (Rebuild.quickPick st))).
Proof.
  cbv zeta. unfold Rebuild.rebulidInstanceMultiStep, Rebuild.fresh.
  open_rebuild. cbn [Rebuild.planId]. calc_rebuild.
  split; [|split].
  - intros ->. split; reflexivity.
  - intros pc -> ->. split; reflexivity.
  - intros pc -> Hos. destruct (p_os pc) as [|o os] eqn:E; [congruence|].
    open_rebuild.
    split; [reflexivity|]. split; [reflexivity|]. split; [reflexivity|].
    split; [reflexivity|]. apply (osItem_not_back (o :: os)).
Qed.

#[local] Ltac rebuild_piece H2 H3 :=
  first
    [ lia
    | reflexivity
    | assumption
    | discriminate
    | intros _; discriminate
    | intros _; apply H3; reflexivity
    | exact H2
    | exact H3 ].

Lemma rebuild_dispatch_in_order (plan : number) (st : Rebuild.State)
  (ev : Event) :
  rebuild_in_order plan st -> rebuild_in_order plan (rebuildDispatch st ev).
Proof.
  unfold rebuild_in_order.
  destruct st as [[pl o k b] s c r [qs qi qv qvis qd] t].
  open_rebuild. cbn [Rebuild.planId].
  intros (H0 & H1 & H2 & H3 & H4).
  destruct qd.
  { split; [exact H0|]. split; [exact H1|]. split; [exact H2|].
    split; [exact H3|exact H4]. }
  destruct ev as [sel input|].
  2:{ destruct c, r; open_rebuild;
        (split; [exact H0|]); (split; [exact H1|]); (split; [exact H2|]);
        (split; [rebuild_piece H2 H3|rebuild_piece H2 H3]). }
  destruct sel as [[|l d]|]; destruct s; calc_rebuild; open_rebuild;
    try destruct d as [[|ch d]|]; open_rebuild;
    destruct r; open_rebuild;
    cbn [Rebuild.planId Rebuild.with_os Rebuild.with_sshKey
         Rebuild.with_bootScript];
    split_matches; open_rebuild; calc_rebuild;
    (split; [exact H0|]); (split; [rebuild_piece H2 H3|]);
    (split; [rebuild_piece H2 H3|]);
    (split; [rebuild_piece H2 H3|rebuild_piece H2 H3]).
Qed.

Lemma rebuild_run_in_order (plan : number) (st : Rebuild.State)
  (evs : list Event) :
  rebuild_in_order plan st -> rebuild_in_order plan (rebuildRun st evs).
Proof.
  revert st. induction evs as [|ev evs IH]; intros st H; [exact H|].
  apply IH, rebuild_dispatch_in_order, H.
Qed.

Lemma rebuild_fresh_in_order (plan : number) :
  rebuild_in_order plan (rebulidInstanceMultiStep plan).
Proof.
  unfold rebuild_in_order, Rebuild.rebulidInstanceMultiStep, Rebuild.fresh.
  open_rebuild. cbn [Rebuild.planId]. calc_rebuild.
  split_matches; open_rebuild; calc_rebuild;
    (split; [reflexivity|]); (split; [lia|]); (split; [reflexivity|]);
    (split; discriminate).
Qed.

Lemma rebuild_run_disposed (st : Rebuild.State) (evs : list Event) :
  disposed (Rebuild.quickPick st) = true -> rebuildRun st evs = st.
Proof.
  intros H. unfold Rebuild.run.
  induction evs as [|ev evs IH]; cbn [fold_left]; [reflexivity|].
  replace (rebuildDispatch st ev) with st; [exact IH|].
  unfold Rebuild.dispatch. now rewrite H.
Qed.

(** X23.  However the rebuild wizard is driven, the plan id of its rebuild
    information stays the one it was called with, it stays on one of its
    three steps, and the step number shown is that of the current step:
    between 1 and the three announced as the total. *)
Theorem rebuild_keeps_plan_and_range (plan : number) (evs : list Event) :
  let st := rebuildRun (rebulidInstanceMultiStep plan) evs in
  Rebuild.planId (Rebuild.thisInfo st) = plan
  /\ 0 <= Rebuild.index (Rebuild.currentStep st) <= 2
  /\ 1 <= step (Rebuild.quickPick st) <= 3
  /\ forall res info,
       Rebuild.result st = Some res ->
       Rebuild.rebulidInfo res = Some info ->
       Rebuild.planId info = plan.
Proof.
  intros st.
  destruct (rebuild_run_in_order plan _ evs (rebuild_fresh_in_order plan))
    as (H0 & H1 & H2 & _).
  fold st in H0, H1, H2.
  split; [exact H0|]. split; [exact H1|]. split; [lia|].
  intros res info Hres Hinfo. unfold Rebuild.result in Hres.
  destruct (Rebuild.settled st) as [r|]; [|discriminate Hres].
  injection Hres as <-. cbn [Rebuild.rebulidInfo] in Hinfo.
  destruct (Rebuild.r_info r); [discriminate Hinfo|].
  injection Hinfo as <-. exact H0.
Qed.


(** X25.  As long as a run of the rebuild wizard has not settled, hiding
    the quick pick settles it as cancelled with no rebuild information,
    so that no rebuild request is made from it, and disposes the quick
    pick, after which no event changes anything. *)
Theorem rebuild_hide_cancels (plan : number) (evs : list Event) :
  let st := rebuildRun (rebulidInstanceMultiStep plan) evs in
  Rebuild.settled st = None ->
  Rebuild.result (rebuildDispatch st Hidden)
  = Some {| Rebuild.status := cancelled; Rebuild.rebulidInfo := None;
            Rebuild.message := None |}
  /\ Menu.rebuildRequest (Rebuild.result (rebuildDispatch st Hidden)) = None
  /\ disposed (Rebuild.quickPick (rebuildDispatch st Hidden)) = true
  /\ (forall more,
        rebuildRun (rebuildDispatch st Hidden) more
        = rebuildDispatch st Hidden).
Proof.
  intros st Hs.
  destruct (rebuild_run_in_order plan _ evs (rebuild_fresh_in_order plan))
    as (_ & _ & _ & H3 & H4).
  fold st in H3, H4.
  assert (D : Rebuild.result (rebuildDispatch st Hidden)
              = Some {| Rebuild.status := cancelled;
                        Rebuild.rebulidInfo := None;
                        Rebuild.message := None |}
              /\ disposed (Rebuild.quickPick (rebuildDispatch st Hidden))
                 = true).
  { destruct st as [i s c r [qs qi qv qvis qd] t]. open_rebuild.
    subst r.
    destruct qd; [exfalso; now apply H4|].
    destruct c; [exfalso; now apply H3|].
    open_rebuild. split; reflexivity. }
  destruct D as [D1 D2]. split; [exact D1|].
  split; [rewrite D1; reflexivity|]. split; [exact D2|].
  intros more. now apply rebuild_run_disposed.
Qed.

End RebuildFacts.

(* ================================================================== *)
(** * Renewing and deleting an instance *)
(* ================================================================== *)

Section RenewalFacts.

Variable CONFIG : Config.

#[local] Abbreviation validateInput := (Menu.validateInput CONFIG).

Lemma parseInt_auto_print_tail (n : Z) (r : string) :
  1 <= n -> no_digit_ahead r ->
  Menu.parseInt_auto (Z_to_string n ++ r) = Num n.
Proof.
  intros Hn Hr.
  destruct (print_digits n) as (u & d & s & Hu & Hv & E1 & E2 & Hd & Hz);
    [lia|].
  assert (A : Menu.parseInt_auto (Z_to_string n ++ r)
              = parseInt (Z_to_string n ++ r)).
  { rewrite E1, E2. cbn [append].
    apply parseInt_auto_decimal; [exact Hd|apply Hz; lia]. }
  rewrite A. destruct r as [|c r].
  - rewrite append_empty. apply parseInt_Z_to_string.
  - apply parseInt_print_tail; [lia|exact Hr].
Qed.

(** In an exponent the digits are read back as the number printed. *)
Lemma exponent_part_print (k : Z) :
  0 <= k -> exponent_part (String "e" (Z_to_string k)) = (k, EmptyString).
Proof.
  intros Hk.
  destruct (print_digits k Hk) as (u & d & s & Hu & Hv & E1 & E2 & Hd & _).
  unfold exponent_part. cbn [Ascii.eqb Bool.eqb orb].
  rewrite E1, (sign_print u Hu), span_digits_print_all.
  destruct u; try congruence; cbn [signed]; now rewrite Hv.
Qed.

Lemma spaceless_app (a b : string) :
  spaceless a = true -> spaceless b = true -> spaceless (a ++ b) = true.
Proof.
  intros Ha Hb. induction a as [|c a IH]; [exact Hb|].
  cbn in Ha |- *. apply andb_true_iff in Ha as [H1 H2].
  now rewrite H1, IH.
Qed.

(** [Number] reads an integer with an exponent as their product. *)
Lemma Number_exponent (n k : Z) :
  1 <= n -> 0 <= k ->
  Number_of_string (Z_to_string n ++ String "e" (Z_to_string k))
  = Num (n * 10 ^ k).
Proof.
  intros Hn Hk.
  destruct (print_digits n) as (u & d & s & Hu & Hv & E1 & E2 & Hd & Hz);
    [lia|].
  unfold Number_of_string.
  rewrite trim_spaceless
    by (apply spaceless_app; [apply spaceless_Z_to_string|];
        cbn; apply spaceless_Z_to_string).
  assert (N : non_decimal (Z_to_string n ++ String "e" (Z_to_string k))
              = None).
  { rewrite E1, E2. cbn [append]. apply non_decimal_head, Hz. lia. }
  assert (L : StrDecimalLiteral
                (Z_to_string n ++ String "e" (Z_to_string k))
              = Some (Num (n * 10 ^ k), EmptyString)).
  { unfold StrDecimalLiteral. rewrite E1.
    replace (sign (NilEmpty.string_of_uint u ++ String "e" (Z_to_string k)))
      with (false,
            (NilEmpty.string_of_uint u ++ String "e" (Z_to_string k))%string)
      by (rewrite E2; cbn [append]; symmetry; now apply sign_digit).
    replace (starts_with "Infinity"
               (NilEmpty.string_of_uint u ++ String "e" (Z_to_string k)))
      with false
      by (rewrite E2; cbn [append]; symmetry; now apply not_Infinity).
    rewrite span_digits_print by reflexivity.
    replace (is_nil u) with false by (destruct u; congruence || reflexivity).
    cbn [andb]. rewrite (exponent_part_print k Hk), DecimalFacts.app_nil_r.
    unfold decimal. cbn [signed nb_digits Z.of_nat]. rewrite Z.sub_0_r, Hv.
    destruct (Z.leb_spec 0 k); [reflexivity|lia]. }
  rewrite N, L.
  destruct (Z_to_string n ++ String "e" (Z_to_string k))%string eqn:X;
    [|reflexivity].
  rewrite E1, E2 in X. discriminate X.
Qed.

Lemma validateInput_integer (s : string) (n m : Z) :
  max_time (evoPermissions CONFIG) = Num m ->
  Menu.parseInt_auto s = Num n ->
  1 <= n <= m ->
  validateInput s = None.
Proof.
  intros Hmax E Hn. unfold Menu.validateInput.
  rewrite E, Hmax, le0_Num, gt_Num. cbn [isNaN orb].
  destruct (Z.leb_spec n 0); [lia|].
  destruct (Z.ltb_spec m n); [lia|reflexivity].
Qed.

(** X26.  The input box of the renewal lets every integer from 1 to the
    maximum through, and that number of hours is what is sent. *)
Theorem renewal_accepts_integers (n m : Z) :
  max_time (evoPermissions CONFIG) = Num m ->
  1 <= n <= m ->
  validateInput (Z_to_string n) = None
  /\ Menu.hoursSent (Some (Z_to_string n)) = Some (Num n).
Proof.
  intros Hmax Hn. split.
  - apply (validateInput_integer _ n m Hmax); [|exact Hn].
    rewrite <- (append_empty (Z_to_string n)).
    apply parseInt_auto_print_tail; [lia|exact I].
  - unfold Menu.hoursSent.
    destruct (Z_to_string_nonempty n) as (c & s & E). rewrite E, <- E.
    f_equal. exact (Number_Z_to_string n).
Qed.

(** X27.  The validation of the renewal is sound for what [parseInt]
    reads: an input it lets through starts, after white space, with an
    integer between 1 and the maximum, in radix 10 or after "0x" in radix
    16; and a renewal request is made exactly for an input that is not
    empty. *)
Theorem renewal_validation_is_sound (input : string) (m : Z) :
  max_time (evoPermissions CONFIG) = Num m ->
  validateInput input = None ->
  (exists n, Menu.parseInt_auto input = Num n /\ 1 <= n <= m)
  /\ input <> EmptyString
  /\ Menu.hoursSent (Some input) = Some (Number_of_string input).
Proof.
  intros Hmax H. unfold Menu.validateInput in H.
  assert (A : exists n, Menu.parseInt_auto input = Num n /\ 1 <= n <= m).
  { destruct (parseInt_auto_cases input) as [E|[z E]]; rewrite E in H.
    - discriminate H.
    - cbn [isNaN orb] in H. rewrite le0_Num, Hmax, gt_Num in H.
      destruct (Z.leb_spec z 0); [discriminate H|].
      destruct (Z.ltb_spec m z); [discriminate H|].
      exists z. split; [exact E|lia]. }
  split; [exact A|].
  destruct input as [|c r]; [|split; [discriminate|reflexivity]].
  destruct A as (n & E & _). discriminate E.
Qed.

(** X28.  The validation reads the input with [parseInt], the request
    with [Number]: an integer between 1 and the maximum followed by text
    that starts with neither a digit, a point, an exponent mark nor white
    space passes the validation, and the hours sent are not a number. *)
Theorem renewal_sends_unvalidated_text (n m : Z) (r : string) :
  max_time (evoPermissions CONFIG) = Num m ->
  1 <= n <= m ->
  plain_tail r ->
  validateInput (Z_to_string n ++ r)%string = None
  /\ Menu.hoursSent (Some (Z_to_string n ++ r)%string) = Some NaN.
Proof.
  intros Hmax Hn Hr. destruct r as [|c r]; [contradiction|].
  destruct Hr as (Hd & Hs & Hdot & He & HE). split.
  - apply (validateInput_integer _ n m Hmax); [|exact Hn].
    apply parseInt_auto_print_tail; [lia|exact Hd].
  - unfold Menu.hoursSent.
    destruct (Z_to_string_nonempty n) as (a & s & E). rewrite E.
    cbn [append]. rewrite <- (Number_print_tail n c r) by (assumption || lia).
    rewrite E. reflexivity.
Qed.

(** X29.  The bound of the validation can be passed: an integer between
    1 and the maximum followed by an exponent is validated as that integer
    and sent as the integer times the power of ten, for a product below
    2^53, which [Number] reads without rounding. *)
Theorem renewal_exponent_passes_bound (n k m : Z) :
  max_time (evoPermissions CONFIG) = Num m ->
  1 <= n <= m ->
  0 <= k ->
  n * 10 ^ k < 2 ^ 53 ->
  let input := (Z_to_string n ++ String "e" (Z_to_string k))%string in
  validateInput input = None
  /\ Menu.hoursSent (Some input) = Some (Num (n * 10 ^ k)).
Proof.
  intros Hmax Hn Hk _ input. subst input. split.
  - apply (validateInput_integer _ n m Hmax); [|exact Hn].
    apply parseInt_auto_print_tail; [lia|reflexivity].
  - unfold Menu.hoursSent.
    destruct (Z_to_string_nonempty n) as (a & s & E). rewrite E.
    cbn [append]. rewrite <- (Number_exponent n k) by lia.
    rewrite E. reflexivity.
Qed.

End RenewalFacts.

Section DeleteFacts.

Variable refreshed : Config -> Config.
Variable toString : Error -> string.

#[local] Abbreviation deleteInstanceItems :=
  (Menu.deleteInstanceItems refreshed toString).

(** X30.  Deleting an instance.  Only the confirmation together with an
    answer whose code is 200 changes the store, and then the instance
    list, the instance state, the reminder flag and the status-bar timer
    are reset whatever the refresh of the instance list has just stored,
    the timer cleared being the one found after that refresh; in every
    other case the store is left as it was, and a rejection shows one
    error. *)
Theorem delete_resets_after_refresh (instanceId : Z)
  (confirm : option string) (answer : Response Z) (r : Service.Run) :
  let r' := deleteInstanceItems instanceId confirm answer r in
  let asked :=
    ShowWarningMessage
      [Lit "确定要删除实例 "; Interp (Num instanceId); Lit " 吗？"] in
  (forall http,
      confirm = Some "删除" -> answer = Resolved http (Some 200) ->
      Service.cfg r'
      = updateStateConfig
          [instanceList_ []; instanceState_ None;
           doNotRemindExpiration_ false; updateStatusBarInterval_ None]
          (refreshed (Service.cfg r))
      /\ instanceList (Service.cfg r') = []
      /\ instanceState (Service.cfg r') = None
      /\ doNotRemindExpiration (Service.cfg r') = false
      /\ updateStatusBarInterval (Service.cfg r') = None
      /\ planList (Service.cfg r') = planList (refreshed (Service.cfg r))
      /\ Service.log r'
         = Service.log r
           ++ [asked; CallUpdateConfig flag_instance;
               ShowInformationMessage "实例删除成功";
               ClearInterval
                 (updateStatusBarInterval (refreshed (Service.cfg r)))])
  /\ (confirm <> Some "删除" -> r' = Service.emit asked r)
  /\ (forall http code,
        answer = Resolved http code -> code <> Some 200 ->
        r' = Service.emit asked r)
  /\ (forall e,
        answer = Rejected e ->
        Service.cfg r' = Service.cfg r
        /\ (confirm = Some "删除" ->
            Service.log r'
            = Service.log r
              ++ [asked;
                  ShowErrorMessage
                    [Lit ("实例删除失败: " ++ toString e)%string]])).
Proof.
  cbv zeta. unfold Menu.deleteInstanceItems.
  split; [|split; [|split]].
  - intros http -> ->. cbn [String.eqb Ascii.eqb Bool.eqb Z.eqb Pos.eqb].
    destruct r as [c l]. destruct (refreshed c) eqn:R.
    unfold Service.update, Service.emit.
    cbn [Service.cfg Service.log]. rewrite R.
    cbn. rewrite <- !app_assoc. repeat split.
  - intros Hc. destruct confirm as [c|]; [|reflexivity].
    destruct (String.eqb_spec c "删除") as [->|_]; [congruence|reflexivity].
  - intros http code -> Hcode. destruct confirm as [c|]; [|reflexivity].
    destruct (String.eqb c "删除"); [|reflexivity].
    destruct code as [z|]; [|reflexivity].
    destruct (Z.eqb_spec z 200) as [->|_]; [congruence|reflexivity].
  - intros e ->. destruct confirm as [c|]; [|split; [reflexivity|discriminate]].
    destruct (String.eqb_spec c "删除") as [->|N].
    + split; [reflexivity|]. intros _. cbn. now rewrite <- app_assoc.
    + split; [reflexivity|]. intros H. congruence.
Qed.

End DeleteFacts.

(* ================================================================== *)
(** * The further theorems on the sample data *)
(* ================================================================== *)

Lemma default_plan_refresh_witness :
  Service.updateConfig (fun s => s) None (Some "secret") (Some Wizard.sentinel)
    Demo.remote flag_defaultPlan (Demo.at_rest Demo.CONFIG)
  = Demo.at_rest Demo.CONFIG
  /\ (let r' := Service.updateConfig (fun s => s) (Some "id") (Some "secret")
                  (Some Wizard.sentinel) Demo.remote flag_defaultPlan
                  (Demo.at_rest Demo.CONFIG) in
      defaultPlan (Service.cfg r') = Some Wizard.sentinel
      /\ Service.log r'
         = [SetBearerToken (Some "id") (Some "secret");
            WithProgress "正在加载配置..."]).
Proof.
  split.
  - pose proof (default_plan_refresh (fun s => s) None (Some "secret")
                  (Some Wizard.sentinel) Demo.remote
                  (Demo.at_rest Demo.CONFIG)) as H.
    cbv zeta in H. destruct H as (H & _). exact (H eq_refl flag_defaultPlan).
  - pose proof (default_plan_refresh (fun s => s) (Some "id") (Some "secret")
                  (Some Wizard.sentinel) Demo.remote
                  (Demo.at_rest Demo.CONFIG)) as H.
    cbv zeta in H |- *. destruct H as (_ & A & B & _).
    split; [rewrite A; reflexivity|exact B].
Defined.


Lemma unauthorized_ends_refresh_witness :
  Service.updateConfig (fun s => s) (Some "id") (Some "secret") None
    Cases.lockedOut flag_all (Demo.at_rest Demo.CONFIG)
  = {| Service.cfg := Demo.CONFIG;
       Service.log := [SetBearerToken (Some "id") (Some "secret");
                       WithProgress "正在加载配置...";
                       Call GetInstanceList;
                       ShowErrorMessage
                         [Lit "认证失败：请检查 Client ID/Secret"]] |}.
Proof.
  apply (unauthorized_ends_refresh (fun s => s) (Some "id") (Some "secret")
           None Cases.lockedOut flag_all (Demo.at_rest Demo.CONFIG)
           Cases.unauthorized eq_refl eq_refl eq_refl eq_refl).
  discriminate.
Defined.

Lemma refused_permission_keeps_catalogs_witness :
  let r' := Service.updateConfig (fun s => s) (Some "id") (Some "secret") None
              Cases.noEvo flag_all (Demo.at_rest Demo.CONFIG) in
  hasEvoPermission (Service.cfg r') = false
  /\ planList (Service.cfg r') = Demo.plans
  /\ count is_fetch (Service.log r') = 2%nat.
Proof.
  assert (H401 : forall e, Service.getInstanceList Cases.noEvo = Rejected e ->
                           has_status e 401 = false)
    by (intros e H; discriminate H).
  pose proof (refused_permission_keeps_catalogs (fun s => s) (Some "id")
                (Some "secret") None Cases.noEvo (Demo.at_rest Demo.CONFIG)
                Cases.forbidden eq_refl eq_refl eq_refl eq_refl H401) as H.
  cbv zeta in H |- *. destruct H as (A & B & _ & _ & C & _).
  split; [exact A|]. split; [exact B|exact C].
Defined.

Lemma failed_permission_check_keeps_verdict_witness :
  In (Call GetPlanList)
     (Service.log
        (Service.updateConfig (fun s => s) (Some "id") (Some "secret") None
           Cases.flaky flag_all (Demo.at_rest Demo.CONFIG)))
  /\ Service.updateConfig (fun s => s) (Some "id") (Some "secret") None
       Cases.flaky flag_all (Demo.at_rest Demo.noPermission)
     = {| Service.cfg := Demo.noPermission;
          Service.log := [SetBearerToken (Some "id") (Some "secret");
                          WithProgress "正在加载配置...";
                          Call GetInstanceList; Call GetEVOPermissions] |}.
Proof.
  assert (H200 : forall perms, Service.getEVOPermissions Cases.flaky
                               <> Resolved 200 perms)
    by (intros perms H; discriminate H).
  assert (H400 : forall e, Service.getEVOPermissions Cases.flaky = Rejected e ->
                           has_status e 400 = false)
    by (intros e H; injection H as <-; reflexivity).
  split.
  - pose proof (failed_permission_check_keeps_verdict (fun s => s) (Some "id")
                  (Some "secret") None Cases.flaky (Demo.at_rest Demo.CONFIG)
                  H200 H400) as H.
    cbv zeta in H. destruct H as (_ & H).
    destruct (H eq_refl eq_refl eq_refl) as (_ & B). exact (B eq_refl).
  - pose proof (failed_permission_check_keeps_verdict (fun s => s) (Some "id")
                  (Some "secret") None Cases.flaky
                  (Demo.at_rest Demo.noPermission) H200 H400) as H.
    cbv zeta in H. destruct H as (_ & H).
    destruct (H eq_refl eq_refl eq_refl) as (A & _).
    etransitivity; [exact (A eq_refl)|]. reflexivity.
Defined.

Lemma empty_os_field_hides_every_os_witness :
  Service.getPlanToOS Demo.remote 1
  = Resolved 200 (Some [{| Service.os_list :=
                             Some [{| os_id := 10; os_name := "Debian" |}] |}])
  /\ p_os (Service.fetchPlanOS Demo.remote Cases.blankOs) = [].
Proof.
  split; [reflexivity|].
  exact (empty_os_field_hides_every_os Demo.remote Cases.blankOs eq_refl).
Defined.

Lemma stopped_rewrite_threshold_witness :
  (exists i',
      Service.getInstanceState (Resolved 200 (Some (Cases.withMemory "5243")))
      = (Some i', [])
      /\ state (info i') = "running")
  /\ (exists i',
        Service.getInstanceState (Resolved 200 (Some (Cases.withMemory "5242")))
        = (Some i', [])
        /\ state (info i') = "stopped").
Proof.
  split.
  - destruct (stopped_rewrite_threshold (Cases.withMemory "5243") 5243
                eq_refl eq_refl) as (i' & A & B & _).
    exists i'. split; [exact A|exact B].
  - destruct (stopped_rewrite_threshold (Cases.withMemory "5242") 5242
                eq_refl eq_refl) as (i' & A & B & _).
    exists i'. split; [exact A|exact B].
Defined.

Lemma unreadable_memory_keeps_state_witness :
  exists i',
    Service.getInstanceState (Resolved 200 (Some (Cases.withMemory "n/a")))
    = (Some i', [])
    /\ memavailable (memory (info i')) = "NaN"
    /\ state (info i') = "running".
Proof.
  exact (unreadable_memory_keeps_state (Cases.withMemory "n/a")
           eq_refl eq_refl).
Defined.

Lemma create_loop_stops_when_running_witness :
  let p := Tracker.createInstanceProgress Cases.runningThird
             Demo.alwaysPending false 42 None "init.sh" in
  Tracker.fetched p = 3%nat
  /\ total_delay (Tracker.made p) = 7000.
Proof.
  assert (H1 : forall j, (j < 2)%nat ->
                 Tracker.in_state "running"
                   (fst (Service.getInstanceState (Cases.runningThird j)))
                 = false).
  { intros j Hj. destruct j as [|[|j]]; [reflexivity|reflexivity|lia]. }
  pose proof (create_loop_stops_when_running Cases.runningThird
                Demo.alwaysPending false 42 "init.sh" 2 ltac:(lia) H1
                eq_refl) as H.
  cbv zeta in H |- *. destruct H as (A & _ & B).
  split; [exact A|exact B].
Defined.

Lemma boot_script_result_at_witness :
  Tracker.pollBootScriptResult Cases.doneThird true 42 "cmd" "init.sh"
  = empty_polls 42 "cmd" 2
    ++ [Call (GetCommandResult 42 "cmd");
        UpdateLogEntry "cmd" "completed" "ok";
        ShowInformationMessage "脚本 init.sh 执行成功";
        ExecuteCommand "alice.showScriptResult" "cmd"].
Proof.
  assert (H1 : forall j, (j < 2)%nat -> pending (Cases.doneThird j) = true).
  { intros j Hj. destruct j as [|[|j]]; [reflexivity|reflexivity|lia]. }
  exact (boot_script_result_at Cases.doneThird true 42 "cmd" "init.sh" 2
           "o" "k" ltac:(lia) H1 eq_refl).
Defined.

Lemma hide_cancels_witness :
  Wizard.result
    (Wizard.dispatch Demo.CONFIG Demo.noScripts
       (Wizard.run Demo.CONFIG Demo.noScripts Demo.opened [Demo.pickPlan])
       Hidden)
  = Some {| status := cancelled; plan := None; message := None |}.
Proof.
  pose proof (hide_cancels Demo.CONFIG Demo.noScripts None [Demo.pickPlan])
    as H.
  cbv zeta in H. destruct (H eq_refl) as (A & _). exact A.
Defined.

Lemma completed_duration_in_range_witness :
  exists p n,
    plan {| status := completed;
            plan := Some {| id := Num 7; os := Num 3; time := Num 12;
                            sshKey := NaN; bootScript := EmptyString |};
            message := None |} = Some p
    /\ time p = Num n /\ 1 <= n <= 24.
Proof.
  apply (completed_duration_in_range Demo.CONFIG Demo.noScripts None
           Demo.choices 24); [reflexivity| |reflexivity].
  vm_compute. reflexivity.
Defined.

Lemma accepted_duration_is_sound_witness :
  exists n, parseInt (trim " 7 ") = Num n /\ 1 <= n <= 24.
Proof.
  destruct (accepted_duration_is_sound Demo.CONFIG Demo.noScripts " 7 " 24
              eq_refl eq_refl) as (n & A & B & _).
  exists n. split; [exact A|exact B].
Defined.

Lemma trailing_text_is_accepted_witness :
  Wizard.timeError Demo.CONFIG "12h" = None
  /\ parseInt (trim "12h") = Num 12.
Proof.
  assert (T : plain_tail "h").
  { cbn. repeat split; discriminate. }
  exact (trailing_text_is_accepted Demo.CONFIG 12 24 "h" eq_refl
           ltac:(lia) T).
Defined.

Lemma unusable_plan_is_an_error_witness :
  Wizard.result
    (Wizard.dispatch Demo.CONFIG Demo.noScripts Demo.opened
       (Accept (Some (Item "evo-9" (Some "9"))) EmptyString))
  = Some {| status := error; plan := None;
            message := Some [Lit "未能找到 Plan ID 为 "; Interp (Num 9);
                             Lit " 的 OS 列表。"] |}.
Proof.
  assert (S : at_step Demo.opened SelectPlan Wizard.sentinel).
  { repeat split. }
  pose proof (unusable_plan_is_an_error Demo.CONFIG Demo.noScripts Demo.opened
                Wizard.sentinel "evo-9" EmptyString "9" EmptyString S) as H.
  cbv zeta in H. destruct H as (H & _).
  destruct (H eq_refl) as (A & _).
  etransitivity; [exact A|]. reflexivity.
Defined.

Lemma rebuild_start_witness :
  Rebuild.result
    (Rebuild.rebulidInstanceMultiStep Demo.CONFIG Demo.noScripts (Num 9))
  = Some {| Rebuild.status := error; Rebuild.rebulidInfo := None;
            Rebuild.message := Some [Lit "未能找到 Plan ID 为 ";
                                     Interp (Num 9); Lit " 的 OS 列表。"] |}
  /\ items (Rebuild.quickPick
              (Rebuild.rebulidInstanceMultiStep Demo.CONFIG Demo.noScripts
                 (Num 7)))
     = [Item "Debian 12" (Some "3"); Item "Alpine" (Some "4")].
Proof.
  split.
  - pose proof (rebuild_start Demo.CONFIG Demo.noScripts (Num 9)) as H.
    cbv zeta in H. destruct H as (H & _).
    destruct (H eq_refl) as (A & _). exact A.
  - pose proof (rebuild_start Demo.CONFIG Demo.noScripts (Num 7)) as H.
    cbv zeta in H. destruct H as (_ & _ & H).
    destruct (H Cases.evo1 eq_refl ltac:(discriminate)) as (_ & _ & _ & A & _).
    etransitivity; [exact A|]. reflexivity.
Defined.


Lemma rebuild_hide_cancels_witness :
  Rebuild.result
    (Rebuild.dispatch Demo.CONFIG Demo.noScripts
       (Rebuild.run Demo.CONFIG Demo.noScripts
          (Rebuild.rebulidInstanceMultiStep Demo.CONFIG Demo.noScripts (Num 7))
          [Demo.pickOS "Alpine" 4])
       Hidden)
  = Some {| Rebuild.status := cancelled; Rebuild.rebulidInfo := None;
            Rebuild.message := None |}.
Proof.
  pose proof (rebuild_hide_cancels Demo.CONFIG Demo.noScripts (Num 7)
                [Demo.pickOS "Alpine" 4]) as H.
  cbv zeta in H. destruct (H eq_refl) as (A & _). exact A.
Defined.

Lemma renewal_accepts_integers_witness :
  Menu.validateInput Demo.CONFIG "5" = None
  /\ Menu.hoursSent (Some "5") = Some (Num 5).
Proof.
  exact (renewal_accepts_integers Demo.CONFIG 5 24 eq_refl ltac:(lia)).
Defined.

Lemma renewal_validation_is_sound_witness :
  exists n, Menu.parseInt_auto "0x10" = Num n /\ 1 <= n <= 24.
Proof.
  destruct (renewal_validation_is_sound Demo.CONFIG "0x10" 24 eq_refl eq_refl)
    as (A & _).
  exact A.
Defined.

Lemma renewal_sends_unvalidated_text_witness :
  Menu.validateInput Demo.CONFIG "12h" = None
  /\ Menu.hoursSent (Some "12h") = Some NaN.
Proof.
  assert (T : plain_tail "h").
  { cbn. repeat split; discriminate. }
  exact (renewal_sends_unvalidated_text Demo.CONFIG 12 24 "h" eq_refl
           ltac:(lia) T).
Defined.

Lemma renewal_exponent_passes_bound_witness :
  Menu.validateInput Demo.CONFIG "1e3" = None
  /\ Menu.hoursSent (Some "1e3") = Some (Num 1000).
Proof.
  exact (renewal_exponent_passes_bound Demo.CONFIG 1 3 24 eq_refl
           ltac:(lia) ltac:(lia) eq_refl).
Defined.

Lemma delete_resets_after_refresh_witness :
  let r' := Menu.deleteInstanceItems Demo.refreshed Host.message 42
              (Some "删除") (Resolved 200 (Some 200))
              (Demo.at_rest Demo.expired) in
  instanceList (Service.cfg r') = []
  /\ instanceState (Service.cfg r') = None
  /\ doNotRemindExpiration (Service.cfg r') = false
  /\ updateStatusBarInterval (Service.cfg r') = None.
Proof.
  pose proof (delete_resets_after_refresh Demo.refreshed Host.message 42
                (Some "删除") (Resolved 200 (Some 200))
                (Demo.at_rest Demo.expired)) as H.
  cbv zeta in H |- *. destruct H as (H & _).
  destruct (H 200 eq_refl eq_refl) as (_ & A & B & C & D & _).
  split; [exact A|]. split; [exact B|]. split; [exact C|exact D].
Defined.

